(** * LogJammin: a verified model of the time-log parser

    A shallow embedding of [logjammin.py]: the text primitives the script
    relies on ([str.strip], [str.split], [re.sub], [re.match], [int],
    [float]), the line classifier [parse_line] with its three modes, the
    loader [load_logs], the summary of [print_summary] and the driver
    [__init__].

    Text is modelled over ASCII characters: on that range [\s], [\d],
    [str.isspace], [str.upper] and [re.IGNORECASE] behave as written below.
    Binary64 arithmetic is the IEEE-754 specification [SpecFloat] of the
    standard library at precision 53. *)

From Stdlib Require Import ZArith List Bool Ascii String Lia Sorted Permutation.
From Stdlib Require Import Floats.SpecFloat.
Import ListNotations.

Local Open Scope string_scope.
Local Open Scope Z_scope.

(** ** Text primitives *)

Module Text.

Definition code (c : ascii) : N := N_of_ascii c.

(** [str.isspace] and the class [\s] on the ASCII range: tab, line feed,
    vertical tab, form feed, carriage return, the four separators
    0x1c..0x1f and the space. *)
Definition is_space (c : ascii) : bool :=
  let n := code c in
  (((9 <=? n) && (n <=? 13)) || ((28 <=? n) && (n <=? 32)))%N.

(** The class [\d] on the ASCII range: the digits 0 to 9.  Outside ASCII
    [\d], [int] and [float] also take the other decimal digits of
    Unicode. *)
Definition is_digit (c : ascii) : bool :=
  let n := code c in ((48 <=? n) && (n <=? 57))%N.

Definition is_upper (c : ascii) : bool :=
  let n := code c in ((65 <=? n) && (n <=? 90))%N.

Definition is_lower (c : ascii) : bool :=
  let n := code c in ((97 <=? n) && (n <=? 122))%N.

(** [A-Z] under [re.IGNORECASE] on the ASCII range: the letters.  Outside
    ASCII the class also takes U+0130, U+0131, U+017F and U+212A. *)
Definition is_alpha (c : ascii) : bool := is_upper c || is_lower c.

(** [A-Z0-9] under [re.IGNORECASE]. *)
Definition is_alnum (c : ascii) : bool := is_alpha c || is_digit c.

(** [str.upper] on a character of ASCII. *)
Definition upper_char (c : ascii) : ascii :=
  if is_lower c then ascii_of_N (code c - 32) else c.

(** [str.upper] *)
Fixpoint upper (s : string) : string :=
  match s with
  | EmptyString => EmptyString
  | String c s' => String (upper_char c) (upper s')
  end.

(** A literal character under [re.IGNORECASE]. *)
Definition is_char_i (l c : ascii) : bool :=
  Ascii.eqb (upper_char c) (upper_char l).

Definition is_empty (s : string) : bool :=
  match s with EmptyString => true | _ => false end.

Fixpoint lstrip (s : string) : string :=
  match s with
  | EmptyString => EmptyString
  | String c s' => if is_space c then lstrip s' else s
  end.

Fixpoint rstrip (s : string) : string :=
  match s with
  | EmptyString => EmptyString
  | String c s' =>
      let r := rstrip s' in
      if is_space c && is_empty r then EmptyString else String c r
  end.

(** [str.strip()] *)
Definition strip (s : string) : string := rstrip (lstrip s).

(** [re.sub(r'\s+', ' ', s)]: every maximal run of white space becomes one
    space.  [in_run] tells that the previous character was white space. *)
Fixpoint sub_ws (in_run : bool) (s : string) : string :=
  match s with
  | EmptyString => EmptyString
  | String c s' =>
      if is_space c
      then (if in_run then sub_ws true s' else String " " (sub_ws true s'))
      else String c (sub_ws false s')
  end.

(** The text before the first separator and, when there is one, the text
    after it. *)
Fixpoint split_at (sep : ascii) (s : string) : string * option string :=
  match s with
  | EmptyString => (EmptyString, None)
  | String c s' =>
      if Ascii.eqb c sep then (EmptyString, Some s')
      else let '(a, b) := split_at sep s' in (String c a, b)
  end.

(** [s.split(sep, maxsplit)] *)
Fixpoint split (sep : ascii) (maxsplit : nat) (s : string) : list string :=
  match maxsplit with
  | O => [s]
  | S n =>
      match split_at sep s with
      | (a, None) => [a]
      | (a, Some b) => a :: split sep n b
      end
  end.

(** [s.split(sep)]: a string of length [n] has at most [n] separators. *)
Definition split_all (sep : ascii) (s : string) : list string :=
  split sep (String.length s) s.

Definition digit_val (c : ascii) : Z := Z.of_N (code c) - 48.

Fixpoint digits_val (acc : Z) (s : string) : Z :=
  match s with
  | EmptyString => acc
  | String c s' => digits_val (10 * acc + digit_val c) s'
  end.

Fixpoint all_digits (s : string) : bool :=
  match s with
  | EmptyString => true
  | String c s' => is_digit c && all_digits s'
  end.

(** Digits with single underscores between them, as [int] accepts them.
    [prev_digit] tells that the previous character was a digit. *)
Fixpoint int_body (prev_digit : bool) (acc : Z) (s : string) : option Z :=
  match s with
  | EmptyString => if prev_digit then Some acc else None
  | String c s' =>
      if is_digit c then int_body true (10 * acc + digit_val c) s'
      else if Ascii.eqb c "_" && prev_digit then int_body false acc s'
      else None
  end.

(** [int(s)] in base ten: surrounding white space, an optional sign, digits
    with optional single underscores; [None] is [ValueError].  The number
    of digits is not bounded: CPython 3.11 and later refuse, by default,
    a text of more than 4300 digits with [ValueError]. *)
Definition int (s : string) : option Z :=
  match strip s with
  | String "+" t => int_body false 0 t
  | String "-" t => option_map Z.opp (int_body false 0 t)
  | t => int_body false 0 t
  end.

End Text.

(** ** Regular expressions: a backtracking matcher in the manner of [re.match] *)

Module Re.

Inductive regex : Type :=
| Cls (p : ascii -> bool)           (* one character of a class *)
| Eps                                (* the empty pattern *)
| Cat (r1 r2 : regex)                (* r1 r2 *)
| Alt (r1 r2 : regex)                (* r1|r2, the left one first *)
| Star (r : regex)                   (* r*, greedy *)
| Grp (name : string) (r : regex)    (* a capturing group *)
| Bol                                (* ^ *)
| Eol.                               (* $ *)

Declare Scope regex_scope.
Delimit Scope regex_scope with re.
Bind Scope regex_scope with regex.
Infix "+++" := Cat (at level 60, right associativity) : regex_scope.
Infix "<|>" := Alt (at level 70, right associativity) : regex_scope.

(** [r+], [r?] (greedy) and [r{n}] *)
Definition Plus (r : regex) : regex := Cat r (Star r).
Definition Opt (r : regex) : regex := Alt r Eps.
Fixpoint Rep (n : nat) (r : regex) : regex :=
  match n with
  | O => Eps
  | S n' => Cat r (Rep n' r)
  end.

Definition Chr (c : ascii) : regex := Cls (Ascii.eqb c).
Definition ChrI (c : ascii) : regex := Cls (Text.is_char_i c).
Definition Digit : regex := Cls Text.is_digit.
Definition Space : regex := Cls Text.is_space.

(** The groups that took part in the match, the latest binding first. *)
Definition groups : Type := list (string * string).

(** The text between position [s] and the later position [s1]. *)
Definition taken (s s1 : string) : string :=
  substring 0 (String.length s - String.length s1) s.

Section Matcher.
Context {R : Type}.
(** The subject of the match, from its first character. *)
Variable whole : string.

Definition cont : Type := string -> groups -> option R.

(** Greedy iteration: as many rounds of [body] as possible, then fewer.
    A round that consumes nothing is not repeated. *)
Fixpoint star_loop (body : string -> groups -> cont -> option R)
    (fuel : nat) (s : string) (g : groups) (k : cont) : option R :=
  match fuel with
  | O => k s g
  | S fuel' =>
      match body s g (fun s1 g1 =>
               if (String.length s1 <? String.length s)%nat
               then star_loop body fuel' s1 g1 k else None) with
      | Some x => Some x
      | None => k s g
      end
  end.

(** [run r s g k]: match [r] at the position where [s] remains, then
    continue with [k]; the first success in backtracking order wins. *)
Fixpoint run (r : regex) (s : string) (g : groups) (k : cont) : option R :=
  match r with
  | Cls p =>
      match s with
      | String c s' => if p c then k s' g else None
      | EmptyString => None
      end
  | Eps => k s g
  | Cat r1 r2 => run r1 s g (fun s1 g1 => run r2 s1 g1 k)
  | Alt r1 r2 =>
      match run r1 s g k with
      | Some x => Some x
      | None => run r2 s g k
      end
  | Star r1 => star_loop (run r1) (String.length s) s g k
  | Grp name r1 => run r1 s g (fun s1 g1 => k s1 ((name, taken s s1) :: g1))
  | Bol => if (String.length s =? String.length whole)%nat then k s g else None
  | Eol =>
      match s with
      | EmptyString => k s g
      | String c EmptyString => if Ascii.eqb c "010" then k s g else None
      | _ => None
      end
  end.
End Matcher.

(** A match object: [group(0)] and the named or numbered groups. *)
Record match_obj : Type := { group0 : string; named : groups }.

(** [re.match(r, s)] *)
Definition re_match (r : regex) (s : string) : option match_obj :=
  run s r s [] (fun s1 g => Some {| group0 := taken s s1; named := g |}).

(** [m.group(name)]; [None] when the group took no part in the match. *)
Fixpoint lookup (name : string) (g : groups) : option string :=
  match g with
  | [] => None
  | (n, v) :: g' => if String.eqb n name then Some v else lookup name g'
  end.

Definition group (m : match_obj) (name : string) : option string :=
  lookup name (named m).

End Re.

(** ** The patterns of the script *)

Module Patterns.
Import Re.
Local Open Scope regex_scope.

(** [^(?P<year>\d{4})-?(?P<month>\d{2})-?(?P<day>\d{2})$] *)
Definition date_re : regex :=
  Bol +++ Grp "year" (Rep 4 Digit) +++ Opt (Chr "-")
      +++ Grp "month" (Rep 2 Digit) +++ Opt (Chr "-")
      +++ Grp "day" (Rep 2 Digit) +++ Eol.

(** [^[A-Z][A-Z0-9]+-\d+$] with [re.IGNORECASE] *)
Definition ticket_match_re : regex :=
  Bol +++ Cls Text.is_alpha +++ Plus (Cls Text.is_alnum) +++ Chr "-"
      +++ Plus Digit +++ Eol.

(** [^(\d+\.\d+|\.\d+|\d+)\s*H?$] with [re.IGNORECASE] *)
Definition dec_hours_match_re : regex :=
  Bol +++ Grp "1" ((Plus Digit +++ Chr "." +++ Plus Digit)
                   <|> (Chr "." +++ Plus Digit)
                   <|> Plus Digit)
      +++ Star Space +++ Opt (ChrI "H") +++ Eol.

(** [((?P<hours>\d+)\s*H)?\s*((?P<minutes>\d+)\s*M)?] with [re.IGNORECASE] *)
Definition hours_mins_match_re : regex :=
  Opt (Grp "1" (Grp "hours" (Plus Digit) +++ Star Space +++ ChrI "H"))
      +++ Star Space
      +++ Opt (Grp "3" (Grp "minutes" (Plus Digit) +++ Star Space +++ ChrI "M")).

End Patterns.

(** ** Exceptions *)

(** The exceptions the script raises or meets, with the data their messages
    carry.  [StringInvalid line e] is
    [Exception('String \'{}\' is invalid: {}'.format(line, str(e)))] and
    [ErrorOnLine n e] is
    [Exception('Error on line {}: {}'.format(line_no, str(e)))]. *)
Inductive exn : Type :=
| PatternNotMatched                        (* 'Pattern not matched' *)
| DateInFuture                             (* 'Date is in the future' *)
| TicketPatternNotMatched                  (* 'Ticket pattern not matched' *)
| TimePatternNotMatched                    (* 'Time pattern not matched' *)
| FailedTicketInfo (ticket : string)       (* 'Failed to get ticket info for {}' *)
| StringInvalid (line : string) (cause : exn)
| ErrorOnLine (line_no : Z) (cause : exn)
| ValueError                               (* datetime(), int(), float() *)
| OverflowError                            (* math.floor(inf), int / int *)
| ZeroDivisionError
| IndexError                               (* parts[1] of a ticket without '-' *)
| TypeError                                (* None < datetime, int(None) *)
| AttributeError                           (* None.strftime *)
| SinkError.                               (* jira.add_worklog failed *)

Inductive result (A : Type) : Type :=
| OK (a : A)
| Raise (e : exn).
Arguments OK {A} a.
Arguments Raise {A} e.

Definition of_option {A : Type} (e : exn) (o : option A) : result A :=
  match o with
  | Some a => OK a
  | None => Raise e
  end.

Definition rbind {A B : Type} (r : result A) (k : A -> result B) : result B :=
  match r with
  | OK a => k a
  | Raise e => Raise e
  end.

Notation "x <~ r ;; k" := (rbind r (fun x => k))
  (at level 61, r at next level, right associativity).

(** ** Binary64 numbers *)

Module Float64.

Definition prec : Z := 53.
Definition emax : Z := 1024.

Definition float : Type := spec_float.

(** The quotient of two positive integers, rounded once to the nearest
    binary64 number, ties to even. *)
Definition of_ratio (n d : positive) : float :=
  SFdiv prec emax (S754_finite false n 0) (S754_finite false d 0).

(** The conversion of an [int] to a float. *)
Definition of_Z (n : Z) : result float :=
  match binary_normalize prec emax n 0 false with
  | S754_infinity _ => Raise OverflowError
  | x => OK x
  end.

(** [a / b] on two [int]s: the exact quotient rounded once. *)
Definition true_div (a b : Z) : result float :=
  match a, b with
  | _, Z0 => Raise ZeroDivisionError
  | Z0, _ => OK (S754_zero (b <? 0))
  | Zpos n, Zpos d | Zneg n, Zneg d =>
      match of_ratio n d with
      | S754_infinity _ => Raise OverflowError
      | x => OK x
      end
  | Zpos n, Zneg d | Zneg n, Zpos d =>
      match of_ratio n d with
      | S754_infinity _ => Raise OverflowError
      | x => OK (SFopp x)
      end
  end.

(** [float(s)] on the texts the pattern of the script lets through: digits,
    digits with a point, or a point and digits.  A text with more than
    that (a sign, an exponent, [inf]) is outside this model and reported
    as [None]. *)
Definition of_string (s : string) : option float :=
  match Text.split_at "." s with
  | (a, None) =>
      if Text.all_digits a && negb (Text.is_empty a)
      then Some (match Text.digits_val 0 a with
                 | Zpos n => of_ratio n 1
                 | _ => S754_zero false
                 end)
      else None
  | (a, Some b) =>
      if Text.all_digits a && Text.all_digits b
         && negb (Text.is_empty a && Text.is_empty b)
      then Some (match Text.digits_val 0 (a ++ b) with
                 | Zpos n => of_ratio n (Z.to_pos (10 ^ Z.of_nat (String.length b)))
                 | _ => S754_zero false
                 end)
      else None
  end.

(** [math.floor(x)] *)
Definition floor (x : float) : result Z :=
  match x with
  | S754_zero _ => OK 0
  | S754_finite s m e => OK (Z.shiftl (if s then Zneg m else Zpos m) e)
  | S754_infinity _ => Raise OverflowError
  | S754_nan => Raise ValueError
  end.

Definition one : float := SFone prec emax.

(** [x % 1]: the remainder of [fmod(x, 1.0)], which is exact, moved into
    [0, 1) when it is negative. *)
Definition mod1 (x : float) : float :=
  match x with
  | S754_zero _ => S754_zero false
  | S754_finite s m e =>
      let r := if e <? 0 then Zpos m mod 2 ^ (- e) else 0 in
      if r =? 0 then S754_zero false
      else if s then SFadd prec emax (binary_normalize prec emax (- r) e false) one
      else binary_normalize prec emax r e false
  | _ => S754_nan
  end.

Definition mul (x y : float) : float := SFmul prec emax x y.

End Float64.

(** ** Calendar dates *)

Module Calendar.

(** A [datetime] at midnight, made aware by [time_zone.localize], which is
    taken to succeed.  Within one zone such values are ordered as their
    calendar dates are, and the value is represented by the date. *)
Record date : Type := mkDate { year : Z; month : Z; day : Z }.

Definition is_leap (y : Z) : bool :=
  (y mod 4 =? 0) && (negb (y mod 100 =? 0) || (y mod 400 =? 0)).

Definition days_in_month (y m : Z) : Z :=
  if m =? 2 then (if is_leap y then 29 else 28)
  else if (m =? 4) || (m =? 6) || (m =? 9) || (m =? 11) then 30
  else 31.

(** The range check of the [datetime] constructor. *)
Definition valid (y m d : Z) : bool :=
  (1 <=? y) && (y <=? 9999) && (1 <=? m) && (m <=? 12)
  && (1 <=? d) && (d <=? days_in_month y m).

(** [datetime(y, m, d)], localized; [ValueError] outside the calendar. *)
Definition datetime (y m d : Z) : result date :=
  if valid y m d then OK (mkDate y m d) else Raise ValueError.

Definition compare (a b : date) : comparison :=
  match year a ?= year b with
  | Eq => match month a ?= month b with
          | Eq => day a ?= day b
          | c => c
          end
  | c => c
  end.

Definition eqb (a b : date) : bool :=
  match compare a b with Eq => true | _ => false end.

(** The moment the process started: [localize(datetime.now())], as a date
    and the microseconds since its midnight. *)
Record clock : Type := mkClock { today : date; since_midnight : N }.

(** [date > self.now] for a [date] at midnight. *)
Definition after (d : date) (now : clock) : bool :=
  match compare d (today now) with
  | Gt => true
  | Eq => (since_midnight now <? 0)%N
  | Lt => false
  end.

End Calendar.

(** ** The class [LogJammin] *)

Module LogJammin.
Import Calendar.

(** The values of [self.mode]. *)
Inductive mode_t : Type :=
| date_mode           (* 'date' *)
| time_log            (* 'time_log' *)
| date_or_time_log.   (* 'date_or_time_log' *)

(** One entry of [logs]: the dictionary built by [add_log]. *)
Record log : Type := mkLog {
  log_date : option date;
  ticket : string;
  description : string;
  hours : Z;
  minutes : Z
}.

(** The attributes that stay on the class: [logs = []] and [tickets = []]
    are created once, when the class body runs, and every instance appends
    to these same two lists. *)
Record class_attrs : Type := mkClass {
  logs : list log;
  tickets : list string
}.

(** The attributes an instance rebinds for itself ([self.mode = ...]). *)
Record self_attrs : Type := mkSelf {
  mode : mode_t;
  current_date : option date;
  parse_only : bool;
  now : clock
}.

Record state : Type := mkState { cls : class_attrs; self : self_attrs }.

(** The class as its body leaves it. *)
Definition class_body : class_attrs := {| logs := []; tickets := [] |}.

(** The world outside: which tickets [jira.issue] finds, which work logs
    [jira.add_worklog] accepts, the clock, and the answer at the prompt. *)
Record env : Type := mkEnv {
  started : clock;
  issue_found : string -> bool;
  worklog_accepted : log -> bool;
  upload_confirmed : bool
}.

(** Computations on the state that may raise; the state survives a raise. *)
Definition M (A : Type) : Type := state -> result A * state.

Definition ret {A : Type} (a : A) : M A := fun st => (OK a, st).
Definition raise {A : Type} (e : exn) : M A := fun st => (Raise e, st).
Definition bind {A B : Type} (m : M A) (k : A -> M B) : M B :=
  fun st =>
    match m st with
    | (OK a, st') => k a st'
    | (Raise e, st') => (Raise e, st')
    end.
(** [try: m except Exception as e: h e] *)
Definition try_except {A : Type} (m : M A) (h : exn -> M A) : M A :=
  fun st =>
    match m st with
    | (OK a, st') => (OK a, st')
    | (Raise e, st') => h e st'
    end.
Definition lift {A : Type} (r : result A) : M A := fun st => (r, st).
Definition get : M state := fun st => (OK st, st).

Notation "x <- m ;; k" := (bind m (fun x => k))
  (at level 61, m at next level, right associativity).
Notation "m ;;; k" := (bind m (fun _ => k))
  (at level 61, right associativity).

(** The state after one assignment or one [append]. *)
Definition with_mode (m : mode_t) (st : state) : state :=
  {| cls := cls st;
     self := {| mode := m; current_date := current_date (self st);
                parse_only := parse_only (self st); now := now (self st) |} |}.

Definition with_current_date (d : date) (st : state) : state :=
  {| cls := cls st;
     self := {| mode := mode (self st); current_date := Some d;
                parse_only := parse_only (self st); now := now (self st) |} |}.

Definition with_logs (ls : list log) (st : state) : state :=
  {| cls := {| logs := ls; tickets := tickets (cls st) |}; self := self st |}.

Definition with_tickets (ts : list string) (st : state) : state :=
  {| cls := {| logs := logs (cls st); tickets := ts |}; self := self st |}.

Definition set_mode (m : mode_t) : M unit :=
  fun st => (OK tt, with_mode m st).

Definition set_current_date (d : date) : M unit :=
  fun st => (OK tt, with_current_date d st).

Definition append_log (l : log) : M unit :=
  fun st => (OK tt, with_logs (logs (cls st) ++ [l]) st).

Definition append_ticket (t : string) : M unit :=
  fun st => (OK tt, with_tickets (tickets (cls st) ++ [t]) st).

Definition set_logs (ls : list log) : M unit :=
  fun st => (OK tt, with_logs ls st).

(** [int(m.group(name))] *)
Definition group_int (m : Re.match_obj) (name : string) : result Z :=
  match Re.group m name with
  | Some v => of_option ValueError (Text.int v)
  | None => Raise TypeError
  end.

(** [parse_date_line] *)
Definition parse_date_line (now : clock) (line : string) : result date :=
  match Re.re_match Patterns.date_re line with
  | None => Raise PatternNotMatched
  | Some date_match =>
      y <~ group_int date_match "year" ;;
      m <~ group_int date_match "month" ;;
      d <~ group_int date_match "day" ;;
      date <~ datetime y m d ;;
      if after date now then Raise DateInFuture else OK date
  end.

(** [int(m.group(name) or 0)] *)
Definition group_int_or_0 (m : Re.match_obj) (name : string) : result Z :=
  match Re.group m name with
  | None | Some EmptyString => OK 0
  | Some v => of_option ValueError (Text.int v)
  end.

(** The hours and minutes of a time text: lines 244 to 258 of
    [parse_time_log_line]. *)
Definition hours_minutes (time_str : string) : result (Z * Z) :=
  match Re.re_match Patterns.dec_hours_match_re time_str with
  | Some dec_hours_match =>
      g <~ of_option TypeError (Re.group dec_hours_match "1") ;;
      dec_hours <~ of_option ValueError (Float64.of_string g) ;;
      hours <~ Float64.floor dec_hours ;;
      sixty <~ Float64.of_Z 60 ;;
      minutes <~ Float64.floor (Float64.mul sixty (Float64.mod1 dec_hours)) ;;
      OK (hours, minutes)
  | None =>
      match Re.re_match Patterns.hours_mins_match_re time_str with
      | Some hours_mins_match =>
          hours <~ group_int_or_0 hours_mins_match "hours" ;;
          minutes <~ group_int_or_0 hours_mins_match "minutes" ;;
          OK (hours, minutes)
      | None => OK (0, 0)
      end
  end.

(** The time expression of a time entry: lines 244 to 261 of
    [parse_time_log_line], with the test that the duration is not zero. *)
Definition parse_time (time_str : string) : result (Z * Z) :=
  hm <~ hours_minutes time_str ;;
  let '(hours, minutes) := hm in
  if (hours =? 0) && (minutes =? 0) then Raise TimePatternNotMatched
  else OK (hours, minutes).

(** The ticket of a time entry: lines 238 to 242. *)
Definition parse_ticket (ticket_str : string) : result string :=
  match Re.re_match Patterns.ticket_match_re ticket_str with
  | None => Raise TicketPatternNotMatched
  | Some ticket_match => OK (Text.upper (Re.group0 ticket_match))
  end.

Section WithEnv.
Variable world : env.

(** [assert_ticket_exists] *)
Definition assert_ticket_exists (t : string) : M unit :=
  st <- get ;;
  if existsb (String.eqb t) (tickets (cls st)) then ret tt
  else if issue_found world t then append_ticket t
  else raise (FailedTicketInfo t).

Definition part (parts : list string) (i : nat) : string :=
  match nth_error parts i with
  | Some p => Text.strip p
  | None => EmptyString
  end.

(** [parse_time_log_line] *)
Definition parse_time_log_line (line : string)
  : M (string * (Z * Z) * string) :=
  let parts := Text.split "," 2 line in
  let ticket_str := part parts 0 in
  let time_str := part parts 1 in
  let description := part parts 2 in
  ticket <- lift (parse_ticket ticket_str) ;;
  time <- lift (parse_time time_str) ;;
  st <- get ;;
  (if parse_only (self st) then ret tt else assert_ticket_exists ticket) ;;;
  ret (ticket, time, description).

(** [add_log] *)
Definition add_log (ticket : string) (time : Z * Z) (description : string)
  : M unit :=
  st <- get ;;
  append_log {| log_date := current_date (self st);
                ticket := ticket;
                description := description;
                hours := fst time;
                minutes := snd time |}.

(** The line as [parse_line] hands it to the two parsers. *)
Definition normalize (line : string) : string :=
  Text.sub_ws false (Text.strip line).

(** [parse_line], the branch of mode ['date'] *)
Definition parse_line_date (line : string) : M unit :=
  try_except
    (st <- get ;;
     d <- lift (parse_date_line (now (self st)) (normalize line)) ;;
     set_current_date d ;;;
     set_mode time_log)
    (fun e => raise (StringInvalid line e)).

(** [parse_line], the branch of mode ['time_log'] *)
Definition parse_line_time_log (line : string) : M unit :=
  try_except
    (r <- parse_time_log_line (normalize line) ;;
     let '(ticket, time, description) := r in
     add_log ticket time description ;;;
     set_mode date_or_time_log)
    (fun e => raise (StringInvalid line e)).

(** [parse_line].  In mode ['date_or_time_log'] the method sets the mode
    and calls itself, first as ['date'], then as ['time_log']; the two
    calls are the two branches above. *)
Definition parse_line (line : string) : M unit :=
  st <- get ;;
  match mode (self st) with
  | date_mode => parse_line_date line
  | time_log => parse_line_time_log line
  | date_or_time_log =>
      try_except
        (set_mode date_mode ;;; parse_line_date line)
        (fun _ =>
           try_except
             (set_mode time_log ;;; parse_line_time_log line)
             (fun e => raise (StringInvalid line e)))
  end.

(** The loop of [load_logs]; [line_no] counts the lines already seen. *)
Fixpoint load_lines (line_no : Z) (lines : list string) : M unit :=
  match lines with
  | [] => ret tt
  | line :: rest =>
      let line_no := line_no + 1 in
      if Text.is_empty (Text.strip line) then load_lines line_no rest
      else
        try_except (parse_line line)
                   (fun e => raise (ErrorOnLine line_no e)) ;;;
        load_lines line_no rest
  end.
End WithEnv.

(** *** The order of [self.logs.sort] *)

(** The key of the sort:
    [(k['date'], k['ticket'].split('-')[0], int(k['ticket'].split('-')[1]))] *)
Definition key : Type := option date * string * Z.

Definition sort_key (k : log) : result key :=
  let parts := Text.split_all "-" (ticket k) in
  prefix <~ of_option IndexError (nth_error parts 0) ;;
  suffix <~ of_option IndexError (nth_error parts 1) ;;
  n <~ of_option ValueError (Text.int suffix) ;;
  OK (log_date k, prefix, n).

Definition date_key_compare (a b : option date) : comparison :=
  match a, b with
  | Some x, Some y => Calendar.compare x y
  | None, None => Eq
  | None, Some _ => Lt
  | Some _, None => Gt
  end.

(** The order of two keys, as tuples are ordered: by the first component
    that differs. *)
Definition key_compare (a b : key) : comparison :=
  let '(d1, p1, n1) := a in
  let '(d2, p2, n2) := b in
  match date_key_compare d1 d2 with
  | Eq => match String.compare p1 p2 with
          | Eq => n1 ?= n2
          | c => c
          end
  | c => c
  end.

Definition key_leb (a b : key) : bool :=
  match key_compare a b with Gt => false | _ => true end.

Definition has_date (k : key) : bool :=
  match fst (fst k) with
  | Some _ => true
  | None => false
  end.

(** Keys can be ordered among themselves when no [None] date meets a
    [datetime]: that comparison is a [TypeError]. *)
Definition comparable (ks : list key) : bool :=
  forallb has_date ks || forallb (fun k => negb (has_date k)) ks.

Section StableSort.
Context {A : Type}.
Variable leb : A -> A -> bool.

(** [x] goes in front of the first element that is not below it, and so
    in front of its equals: [x] came before them in the list. *)
Fixpoint insert (x : A) (l : list A) : list A :=
  match l with
  | [] => [x]
  | y :: l' => if leb x y then x :: l else y :: insert x l'
  end.

(** A stable sort.  A stable sort has one possible result, so this is
    the list [list.sort] leaves. *)
Fixpoint stable_sort (l : list A) : list A :=
  match l with
  | [] => []
  | x :: l' => insert x (stable_sort l')
  end.
End StableSort.

Fixpoint keyed (l : list log) : result (list (key * log)) :=
  match l with
  | [] => OK []
  | x :: l' =>
      k <~ sort_key x ;;
      ks <~ keyed l' ;;
      OK ((k, x) :: ks)
  end.

(** [logs.sort(key=...)]: the keys are computed first, each once; the
    elements are then ordered by their keys, equal keys keeping their
    order.  When the sort raises, Python leaves the list in an order it
    does not specify; here the list is left as it was. *)
Definition sort_logs (l : list log) : result (list log) :=
  ks <~ keyed l ;;
  if comparable (map fst ks)
  then OK (map snd (stable_sort (fun a b => key_leb (fst a) (fst b)) ks))
  else Raise TypeError.

(** [load_logs], from the lines of the file *)
Definition load_logs (world : env) (lines : list string) : M unit :=
  load_lines world 0 lines ;;;
  st <- get ;;
  sorted <- lift (sort_logs (logs (cls st))) ;;
  set_logs sorted.

(** *** [print_summary] *)

(** One value of [logs_by_date]. *)
Record day_summary : Type := mkDay {
  day_logs : list log;
  total_time_minutes : Z
}.

(** [logs_by_date]: an [OrderedDict], the dates in the order they first
    appear.  The key is [strftime('%Y-%m-%d')] of the date; two dates have
    the same key exactly when they are the same date. *)
Definition by_date : Type := list (date * day_summary).

Fixpoint add_to_date (d : date) (l : log) (m : by_date) : by_date :=
  match m with
  | [] =>
      [(d, {| day_logs := [l];
              total_time_minutes := 0 + 60 * hours l + minutes l |})]
  | (d', s) :: m' =>
      if Calendar.eqb d d'
      then (d', {| day_logs := day_logs s ++ [l];
                   total_time_minutes :=
                     total_time_minutes s + 60 * hours l + minutes l |}) :: m'
      else (d', s) :: add_to_date d l m'
  end.

Fixpoint group_by_date (ls : list log) (m : by_date) : result by_date :=
  match ls with
  | [] => OK m
  | l :: ls' =>
      d <~ of_option AttributeError (log_date l) ;;
      group_by_date ls' (add_to_date d l m)
  end.

(** [math.floor(total / 60)] and [math.floor(total % 60)] *)
Definition hours_and_minutes (total : Z) : result (Z * Z) :=
  q <~ Float64.true_div total 60 ;;
  h <~ Float64.floor q ;;
  OK (h, total mod 60).

(** What the summary prints for one date: the date, its entries, and the
    hours and minutes of its total. *)
Record day_total : Type := mkDayTotal {
  dt_date : date;
  dt_logs : list log;
  dt_hours : Z;
  dt_minutes : Z
}.

(** What the summary prints at its end: the number of days and of logs,
    and the hours and minutes of the sum. *)
Record report : Type := mkReport {
  per_date : list day_total;
  n_days : Z;
  n_logs : Z;
  sum_hours : Z;
  sum_minutes : Z
}.

Fixpoint day_totals (m : by_date) (total_minutes : Z)
  : result (list day_total * Z) :=
  match m with
  | [] => OK ([], total_minutes)
  | (d, s) :: m' =>
      hm <~ hours_and_minutes (total_time_minutes s) ;;
      rest <~ day_totals m' (total_minutes + total_time_minutes s) ;;
      OK ({| dt_date := d; dt_logs := day_logs s;
             dt_hours := fst hm; dt_minutes := snd hm |} :: fst rest,
          snd rest)
  end.

Definition print_summary (ls : list log) : result report :=
  logs_by_date <~ group_by_date ls [] ;;
  days <~ day_totals logs_by_date 0 ;;
  hm <~ hours_and_minutes (snd days) ;;
  OK {| per_date := fst days;
        n_days := Z.of_nat (List.length logs_by_date);
        n_logs := Z.of_nat (List.length ls);
        sum_hours := fst hm;
        sum_minutes := snd hm |}.

(** *** [__init__]: one run *)

(** How a run ends. *)
Inductive exit_t : Type :=
| Success                  (* exit_with_success *)
| Failed (e : exn)         (* exit_with_error(e) *)
| NoLogsFound              (* exit_with_error('No logs found') *)
| Uncaught (e : exn).      (* an exception no handler catches *)

Record outcome : Type := mkOutcome {
  exit : exit_t;
  printed : option report;
  uploaded : list log
}.

(** The loop of the uploads: the entries [jira.add_worklog] took before
    the first one it refused, and whether it refused one. *)
Fixpoint upload_logs (world : env) (ls : list log) : list log * bool :=
  match ls with
  | [] => ([], true)
  | l :: ls' =>
      if worklog_accepted world l
      then let '(done, ok) := upload_logs world ls' in (l :: done, ok)
      else ([], false)
  end.

(** The instance as [__init__] finds it: the defaults of the class, then
    [parse_only] and the clock. *)
Definition new_self (world : env) (parse_only : bool) : self_attrs :=
  {| mode := date_mode; current_date := None;
     parse_only := parse_only; now := started world |}.

(** [LogJammin(filename, parse_only)], given the lines of the file and the
    class as earlier runs in the process left it.  The configuration and
    the connection are taken to succeed. *)
Definition init (world : env) (lines : list string) (parse_only : bool)
    (c : class_attrs) : outcome * class_attrs :=
  match load_logs world lines {| cls := c; self := new_self world parse_only |} with
  | (Raise e, st) =>
      ({| exit := Failed e; printed := None; uploaded := [] |}, cls st)
  | (OK _, st) =>
      match logs (cls st) with
      | [] => ({| exit := NoLogsFound; printed := None; uploaded := [] |}, cls st)
      | _ =>
          match print_summary (logs (cls st)) with
          | Raise e =>
              ({| exit := Uncaught e; printed := None; uploaded := [] |}, cls st)
          | OK r =>
              if parse_only then
                ({| exit := Success; printed := Some r; uploaded := [] |}, cls st)
              else if upload_confirmed world then
                let '(done, ok) := upload_logs world (logs (cls st)) in
                ({| exit := if ok then Success else Failed SinkError;
                    printed := Some r; uploaded := done |}, cls st)
              else
                ({| exit := Success; printed := Some r; uploaded := [] |}, cls st)
          end
      end
  end.

End LogJammin.

(** ** What is shown and what is sent *)

Module Display.
Import Calendar LogJammin.

(** The character of a decimal digit. *)
Definition digit_char (d : Z) : ascii := ascii_of_N (Z.to_N (48 + d)).

(** The decimal digits of a number that is not negative, most significant
    first, in front of [acc].  A number has no more digits than bits. *)
Fixpoint str_digits (fuel : nat) (n : Z) (acc : string) : string :=
  match fuel with
  | O => acc
  | S fuel' =>
      let acc' := String (digit_char (n mod 10)) acc in
      if n / 10 =? 0 then acc' else str_digits fuel' (n / 10) acc'
  end.

(** [str(n)], which is also ['{}'.format(n)], for an [int] *)
Definition str (n : Z) : string :=
  if n <? 0
  then String "-" (str_digits (S (Z.to_nat (Z.log2 (- n)))) (- n) "")
  else str_digits (S (Z.to_nat (Z.log2 n))) n "".

(** [format_time] *)
Definition format_time (hours minutes : Z) : string :=
  let time_str := "" in
  let time_str := if hours =? 0 then time_str else time_str ++ (str hours ++ "h ") in
  let time_str := if minutes =? 0 then time_str else time_str ++ (str minutes ++ "m") in
  Text.strip time_str.

(** The arguments of [jira.add_worklog]. *)
Record worklog : Type := mkWorklog {
  issue : string;
  timeSpent : string;
  started : option date;
  comment : option string
}.

(** [upload_log]: the call it makes.  The comment is passed only when the
    description is not empty. *)
Definition upload_log (l : log) : worklog :=
  let time_spent := str (hours l) ++ "h " ++ str (minutes l) ++ "m" in
  {| issue := ticket l;
     timeSpent := time_spent;
     started := log_date l;
     comment := if Text.is_empty (description l) then None
                else Some (description l) |}.

End Display.


(** * The vocabulary of the properties *)

Import Calendar LogJammin.

(** ** The worked example and other sample data *)

Module Sample.

Definition lines : list string :=
  [ "2024-01-05";
    "PROJ-1, 1h30m, did work";
    "PROJ-2, .5h";
    "2024-01-06";
    "PROJ-1, 45m" ].

Definition jan5 : date := mkDate 2024 1 5.
Definition jan6 : date := mkDate 2024 1 6.

Definition proj1_jan5 : log :=
  {| log_date := Some jan5; ticket := "PROJ-1"; description := "did work";
     hours := 1; minutes := 30 |}.
Definition proj2_jan5 : log :=
  {| log_date := Some jan5; ticket := "PROJ-2"; description := "";
     hours := 0; minutes := 30 |}.
Definition proj1_jan6 : log :=
  {| log_date := Some jan6; ticket := "PROJ-1"; description := "";
     hours := 0; minutes := 45 |}.

Definition expected_report : report :=
  {| per_date :=
       [ {| dt_date := jan5; dt_logs := [proj1_jan5; proj2_jan5];
            dt_hours := 2; dt_minutes := 0 |};
         {| dt_date := jan6; dt_logs := [proj1_jan6];
            dt_hours := 0; dt_minutes := 45 |} ];
     n_days := 2; n_logs := 3; sum_hours := 2; sum_minutes := 45 |}.

(** A world whose clock stands at noon of 2024-01-06, where no ticket is
    known to the tracker. *)
Definition world : env :=
  {| started := mkClock jan6 43200000000;
     issue_found := fun _ => false;
     worklog_accepted := fun _ => true;
     upload_confirmed := true |}.

End Sample.

Module Either.

(** The state of the sample after its first three lines: two entries
    under 2024-01-05, the mode ['date_or_time_log']. *)
Definition st : state :=
  {| cls := {| logs := [Sample.proj1_jan5; Sample.proj2_jan5]; tickets := [] |};
     self := {| mode := date_or_time_log; current_date := Some Sample.jan5;
                parse_only := true; now := started Sample.world |} |}.

End Either.

Module Broken.

(** A file whose third line is neither a date heading nor a time entry. *)
Definition lines : list string :=
  [ "2024-01-05"; "PROJ-1, 1h"; "garbage" ].

Definition proj1 : log :=
  {| log_date := Some Sample.jan5; ticket := "PROJ-1"; description := "";
     hours := 1; minutes := 0 |}.

End Broken.

Module Numbered.

(** Two entries of one date and one project. *)
Definition proj9 : log :=
  {| log_date := Some Sample.jan5; ticket := "PROJ-9"; description := "";
     hours := 1; minutes := 0 |}.
Definition proj10 : log :=
  {| log_date := Some Sample.jan5; ticket := "PROJ-10"; description := "";
     hours := 1; minutes := 0 |}.

End Numbered.

(** ** Shapes of text *)

(** The text ends with a line feed: the one place where [$] matches before
    the end. *)
Fixpoint ends_with_newline (s : string) : bool :=
  match s with
  | EmptyString => false
  | String c EmptyString => Ascii.eqb c "010"
  | String _ s' => ends_with_newline s'
  end.

Definition hyphen (b : bool) : string := if b then "-" else "".

(** Four digits, an optional hyphen, two digits, an optional hyphen, two
    digits; the two hyphens are optional each on its own. *)
Definition date_shape (s : string) : Prop :=
  exists y1 y2 y3 y4 m1 m2 d1 d2 h1 h2,
    forallb Text.is_digit [y1; y2; y3; y4; m1; m2; d1; d2] = true
    /\ s = String y1 (String y2 (String y3 (String y4
             (hyphen h1 ++ String m1 (String m2
                (hyphen h2 ++ String d1 (String d2 ""))))))).

(** Every character of the text is in the class. *)
Fixpoint all_in (p : ascii -> bool) (s : string) : bool :=
  match s with
  | EmptyString => true
  | String c s' => p c && all_in p s'
  end.

Definition not_hyphen (c : ascii) : bool := negb (Ascii.eqb c "-").
Definition not_space (c : ascii) : bool := negb (Text.is_space c).

(** ** The order of the collection *)

(** The order of the claim on keys: the date first, then the project
    prefix, then the number after the hyphen, as an integer. *)
Definition before_or_equal (a b : key) : Prop :=
  let '(d1, p1, n1) := a in
  let '(d2, p2, n2) := b in
  date_key_compare d1 d2 = Lt
  \/ (d1 = d2 /\ (String.compare p1 p2 = Lt \/ (p1 = p2 /\ n1 <= n2))).

(** Two entries are in order when their keys are. *)
Definition in_order (a b : log) : Prop :=
  exists ka kb,
    sort_key a = OK ka /\ sort_key b = OK kb /\ before_or_equal ka kb.

(** The comparison of the sort on the entries paired with their keys. *)
Definition by_key (a b : key * log) : bool := key_leb (fst a) (fst b).

(** ** Entries that can be sorted *)

(** An entry the sort can key, with a date. *)
Definition sortable (l : log) : Prop :=
  (exists p n, sort_key l = OK (log_date l, p, n)) /\ log_date l <> None.

(** What holds of the state between two lines of a run: the entries can be
    sorted, and past the first date heading there is a current date. *)
Definition ready (st : state) : Prop :=
  Forall sortable (logs (cls st))
  /\ (mode (self st) <> date_mode -> current_date (self st) <> None).

(** ** Decimal hours *)

(** The duration the claim assigns to a decimal text, computed on the
    written number itself: for the number [num / den] the hours are its
    floor and the minutes the floor of sixty times its fractional part. *)
Definition written_duration (g : string) : option (Z * Z) :=
  match Text.split_at "." g with
  | (a, None) =>
      if Text.all_digits a && negb (Text.is_empty a)
      then Some (Text.digits_val 0 a, 0)
      else None
  | (a, Some b) =>
      if Text.all_digits a && Text.all_digits b
         && negb (Text.is_empty a && Text.is_empty b)
      then
        let den := 10 ^ Z.of_nat (String.length b) in
        let num := Text.digits_val 0 (a ++ b) in
        Some (num / den, 60 * (num mod den) / den)
      else None
  end.

(** The time texts [H.FFh] and the test that the code is within one minute
    of the written number on them. *)
Module TwoDecimals.

Definition digit_char (d : Z) : ascii := ascii_of_N (Z.to_N (48 + d)).

Definition two_digits (n : Z) : string :=
  String (digit_char (n / 10)) (String (digit_char (n mod 10)) "").

Definition decimal (n : Z) : string :=
  if n <? 10 then String (digit_char n) "" else two_digits n.

(** The time text [H.FFh]. *)
Definition text (h f : Z) : string := decimal h ++ "." ++ two_digits f ++ "h".

Definition close (h f : Z) : bool :=
  match hours_minutes (text h f) with
  | OK (hh, mm) =>
      (hh =? h) && ((mm =? 60 * f / 100) || (mm =? 60 * f / 100 - 1))
  | Raise _ => false
  end.

Definition below (n : nat) : list Z := map Z.of_nat (seq 0 n).

End TwoDecimals.

(** ** Further sample data *)

Module Online.

(** A world whose tracker knows every ticket and refuses the work logs of
    PROJ-2. *)
Definition world : env :=
  {| started := mkClock Sample.jan6 43200000000;
     issue_found := fun _ => true;
     worklog_accepted := fun l => negb (String.eqb (ticket l) "PROJ-2");
     upload_confirmed := true |}.

End Online.

Module Fresh.

(** The state in which a run that only parses begins. *)
Definition st : state :=
  {| cls := class_body; self := new_self Sample.world true |}.

End Fresh.

(** ** Lines and what the loader makes of them *)

(** The line is one that [load_logs] passes over. *)
Definition blank (line : string) : bool := Text.is_empty (Text.strip line).

(** The outcome of a load without the number of the line that failed. *)
Definition forget_line_no (r : result unit * state) : result unit * state :=
  match r with
  | (Raise (ErrorOnLine _ e), st) => (Raise e, st)
  | other => other
  end.

(** The dates the entries of [lines] are given, in the order of the lines:
    a date heading sets the date, every other line that is not blank
    takes the date set last. *)
Fixpoint stamps (c : clock) (cur : option date) (lines : list string)
  : list (option date) :=
  match lines with
  | [] => []
  | l :: rest =>
      if blank l then stamps c cur rest
      else match parse_date_line c (normalize l) with
           | OK d => stamps c (Some d) rest
           | Raise _ => cur :: stamps c cur rest
           end
  end.

(** A date of the calendar that is not after the clock. *)
Definition date_ok (c : clock) (d : date) : Prop :=
  valid (year d) (month d) (day d) = true /\ after d c = false.

(** The entry has such a date. *)
Definition dated (c : clock) (l : log) : Prop :=
  exists d, log_date l = Some d /\ date_ok c d.

Definition not_comma (c : ascii) : bool := negb (Ascii.eqb c ",").

(** The result of the time-entry parser with another description. *)
Definition with_description (desc : string)
    (r : result (string * (Z * Z) * string) * state)
  : result (string * (Z * Z) * string) * state :=
  match r with
  | (OK (t, tm, _), st) => (OK (t, tm, desc), st)
  | other => other
  end.

(** ** Tickets and the tracker *)

Definition is_upper_alnum (c : ascii) : bool := Text.is_upper c || Text.is_digit c.

(** The normal form of a ticket: an upper-case letter, one or more
    upper-case letters or digits, a hyphen, one or more digits. *)
Definition ticket_shape (t : string) : Prop :=
  exists c pre d ds,
    t = String c (pre ++ String "-" (String d ds))
    /\ Text.is_upper c = true
    /\ all_in is_upper_alnum pre = true
    /\ pre <> ""
    /\ all_in Text.is_digit (String d ds) = true.

(** The tracker has an issue of this key. *)
Definition known (w : env) (t : string) : Prop := issue_found w t = true.

(** The tracker takes the work log of this entry. *)
Definition accepted (w : env) (l : log) : Prop := worklog_accepted w l = true.

(** ** Durations *)

(** The duration of the entry is positive. *)
Definition positive_duration (l : log) : Prop :=
  0 <= hours l /\ 0 <= minutes l /\ (0 < hours l \/ 0 < minutes l).

(** The float is not below zero (a NaN apart). *)
Definition nonneg (x : Float64.float) : bool :=
  match x with
  | S754_zero _ | S754_nan => true
  | S754_finite s _ _ | S754_infinity s => negb s
  end.

(** The names of the groups the durations are read from. *)
Definition duration_group (n : string) : bool :=
  String.eqb n "hours" || String.eqb n "minutes".

Definition not_h (c : ascii) : bool := negb (Text.is_char_i "H" c).

(** ** What a match of a pattern went over *)

(** The text is at its end as [$] sees it. *)
Definition at_end (s : string) : Prop := s = "" \/ s = String "010" "".

(** Every class of the pattern lies within [P]. *)
Fixpoint classes_within (P : ascii -> bool) (r : Re.regex) : Prop :=
  match r with
  | Re.Cls p => forall c, p c = true -> P c = true
  | Re.Cat r1 r2 | Re.Alt r1 r2 => classes_within P r1 /\ classes_within P r2
  | Re.Star r1 | Re.Grp _ r1 => classes_within P r1
  | Re.Eps | Re.Bol | Re.Eol => True
  end.

(** The pattern ends with [$]. *)
Fixpoint ends_eol (r : Re.regex) : bool :=
  match r with
  | Re.Eol => true
  | Re.Cat _ r2 => ends_eol r2
  | Re.Grp _ r1 => ends_eol r1
  | _ => false
  end.

(** The groups of the names [tracked] hold text within [D]. *)
Definition groups_ok (tracked : string -> bool) (D : ascii -> bool)
    (g : Re.groups) : Prop :=
  forall n v, In (n, v) g -> tracked n = true -> all_in D v = true.

(** The groups of the names [tracked] enclose classes within [D]. *)
Fixpoint groups_within (tracked : string -> bool) (D : ascii -> bool)
    (r : Re.regex) : Prop :=
  match r with
  | Re.Grp n r1 =>
      (tracked n = true -> classes_within D r1) /\ groups_within tracked D r1
  | Re.Cat r1 r2 | Re.Alt r1 r2 =>
      groups_within tracked D r1 /\ groups_within tracked D r2
  | Re.Star r1 => groups_within tracked D r1
  | Re.Cls _ | Re.Eps | Re.Bol | Re.Eol => True
  end.

(** ** What a run keeps true of the class *)

(** The cache of tickets holds tickets the tracker knows, each once, and
    the ticket of every entry. *)
Definition cache_ok (w : env) (c : class_attrs) : Prop :=
  Forall (known w) (tickets c)
  /\ NoDup (tickets c)
  /\ Forall (fun l => In (ticket l) (tickets c)) (logs c).

(** What a run with the tracker promises of an entry: a date, a ticket in
    normal form, which the ticket parser reads as itself, and a positive
    duration. *)
Definition sound (w : env) (l : log) : Prop :=
  dated (started w) l
  /\ parse_ticket (ticket l) = OK (ticket l)
  /\ positive_duration l.

(** The entries are sound and the cache is in order. *)
Definition class_ok (w : env) (c : class_attrs) : Prop :=
  Forall (sound w) (logs c) /\ cache_ok w c.

(** The instance is one of this run, and its current date, once set, is a
    date that can stand on an entry. *)
Definition self_ok (w : env) (s : self_attrs) : Prop :=
  parse_only s = false
  /\ now s = started w
  /\ (mode s <> date_mode ->
      exists d, current_date s = Some d /\ date_ok (started w) d).

(** ** The sort and the summary *)

(** The entry has the sort key [k]. *)
Definition has_key (k : key) (l : log) : bool :=
  match sort_key l with
  | OK k' => match key_compare k' k with Eq => true | _ => false end
  | Raise _ => false
  end.

Definition minutes_of (l : log) : Z := 60 * hours l + minutes l.

Definition total_minutes (ls : list log) : Z :=
  fold_right (fun l acc => minutes_of l + acc) 0 ls.

(** The entry is of the date [d]. *)
Definition on_date (d : date) (l : log) : bool :=
  match log_date l with
  | Some d' => Calendar.eqb d' d
  | None => false
  end.

Definition sum_groups (m : by_date) : Z :=
  fold_right (fun p acc => total_time_minutes (snd p) + acc) 0 m.

(** What [logs_by_date] holds when the entries [ps] have been filed. *)
Definition filed (m : by_date) (ps : list log) : Prop :=
  NoDup (map fst m)
  /\ Forall (fun p => day_logs (snd p) = filter (on_date (fst p)) ps
                      /\ total_time_minutes (snd p) = total_minutes (day_logs (snd p))
                      /\ day_logs (snd p) <> []) m
  /\ Forall (fun l => exists d, log_date l = Some d /\ In d (map fst m)) ps
  /\ sum_groups m = total_minutes ps.

(** ** The texts the model reads as the script does *)

(** A character of ASCII. *)
Definition is_ascii (c : ascii) : bool := (Text.code c <? 128)%N.

(** A text of ASCII characters.  On such a text the classes [\d], [\s] and
    [[A-Z]] under [re.IGNORECASE], [str.strip], [str.upper], [int] and
    [float] are those of the module [Text]; on other text the script also
    takes other decimal digits, white space and letters of Unicode. *)
Definition ascii_text (s : string) : bool := all_in is_ascii s.

(** A text no longer than the number of digits [int] converts by default
    (4300 since CPython 3.11; earlier versions have no limit). *)
Definition short (s : string) : bool := (String.length s <=? 4300)%nat.

(** A line of ASCII characters within that length. *)
Definition plain (s : string) : bool := ascii_text s && short s.

(** The state in which the one instance of a process begins: the class as
    its body defines it, the instance with the defaults of the class. *)
Definition process_start (w : env) (parse_only : bool) : state :=
  {| cls := class_body; self := new_self w parse_only |}.

(** ** The order of the collection, in the words of the claim *)

Module Claimed.

(** The number a text of digits writes in base ten. *)
Definition number (s : string) : Z :=
  fold_left (fun acc c => 10 * acc + (Z.of_N (N_of_ascii c) - 48))
            (list_ascii_of_string s) 0.

(** One date is before another. *)
Definition earlier (a b : date) : Prop :=
  year a < year b
  \/ (year a = year b
      /\ (month a < month b \/ (month a = month b /\ day a < day b))).

(** The ticket is the project prefix, a hyphen and the numeric suffix. *)
Definition ticket_parts (t prefix suffix : string) : Prop :=
  t = prefix ++ String "-" suffix
  /\ all_in not_hyphen prefix = true
  /\ suffix <> ""
  /\ all_in Text.is_digit suffix = true.

(** By date ascending, then by project prefix ascending, then by numeric
    suffix ascending, the suffix compared as an integer. *)
Definition before_or_equal (a b : log) : Prop :=
  exists da db pa pb na nb,
    log_date a = Some da /\ log_date b = Some db
    /\ ticket_parts (ticket a) pa na /\ ticket_parts (ticket b) pb nb
    /\ (earlier da db
        \/ (da = db
            /\ (String.compare pa pb = Lt
                \/ (pa = pb /\ number na <= number nb)))).

End Claimed.

Module Ordered.

(** Entries that differ in the project prefix, and in the date. *)
Definition zz1 : log :=
  {| log_date := Some Sample.jan5; ticket := "ZZ-1"; description := "";
     hours := 1; minutes := 0 |}.
Definition ab2 : log :=
  {| log_date := Some Sample.jan5; ticket := "AB-2"; description := "";
     hours := 1; minutes := 0 |}.
Definition ab1_jan6 : log :=
  {| log_date := Some Sample.jan6; ticket := "AB-1"; description := "";
     hours := 1; minutes := 0 |}.

(** A file whose entries are out of order in the date, in the prefix and
    in the number. *)
Definition lines : list string :=
  [ "2024-01-06"; "AB-1, 1h";
    "2024-01-05"; "ZZ-1, 1h"; "AB-2, 1h"; "PROJ-10, 1h"; "PROJ-9, 1h" ].

End Ordered.

(** ** Two runs *)

(** The day of the clock [c2] is not before the day of [c1]: the second
    run is not earlier than the first. *)
Definition not_before (c2 c1 : clock) : Prop :=
  Calendar.compare (today c2) (today c1) <> Lt.

(** The tracker has the same issues in both worlds. *)
Definition same_issues (w1 w2 : env) : Prop :=
  forall t, issue_found w2 t = issue_found w1 t.

(** Two runs, each in its world, are at the same point: the class and the
    instance agree, the clock apart. *)
Definition alike (w1 w2 : env) (s1 s2 : state) : Prop :=
  cls s2 = cls s1
  /\ mode (self s2) = mode (self s1)
  /\ current_date (self s2) = current_date (self s1)
  /\ parse_only (self s2) = parse_only (self s1)
  /\ now (self s1) = started w1
  /\ now (self s2) = started w2.

(** The number of lines of the file that are neither blank nor read as a
    date heading: in a file that loads, its time entries. *)
Definition entry_lines (c : clock) (lines : list string) : nat :=
  List.length (stamps c None lines).

Module Later.

(** The world of the sample a year on, with another answer at the prompt
    and a tracker that refuses every work log. *)
Definition world : env :=
  {| started := mkClock (mkDate 2025 1 6) 0;
     issue_found := fun _ => false;
     worklog_accepted := fun _ => false;
     upload_confirmed := false |}.

End Later.

(** * Properties *)

(** ** The equations of the classifier and of the loader *)

Section Equations.
Variable w : env.

Lemma parse_line_date_eq (line : string) (st : state) :
  parse_line_date line st
  = match parse_date_line (now (self st)) (normalize line) with
    | OK d => (OK tt, with_mode time_log (with_current_date d st))
    | Raise e => (Raise (StringInvalid line e), st)
    end.
Proof.
  unfold parse_line_date, try_except, bind, get, lift, raise,
    set_current_date, set_mode.
  destruct (parse_date_line _ _); reflexivity.
Qed.

Lemma assert_ticket_exists_frame (t : string) (st st1 : state) (r : result unit) :
  assert_ticket_exists w t st = (r, st1) ->
  self st1 = self st /\ logs (cls st1) = logs (cls st).
Proof.
  unfold assert_ticket_exists, bind, get, ret, append_ticket, raise.
  destruct (existsb _ _); [intros H; inversion H; auto |].
  destruct (issue_found w t); intros H; inversion H; auto.
Qed.

(** The time-entry parser touches neither the instance nor the logs: it
    may only add the ticket to [tickets]. *)
Lemma parse_time_log_line_frame (line : string) (st st1 : state)
    (r : result (string * (Z * Z) * string)) :
  parse_time_log_line w line st = (r, st1) ->
  self st1 = self st /\ logs (cls st1) = logs (cls st).
Proof.
  unfold parse_time_log_line, bind, lift, get, ret.
  destruct (parse_ticket _) as [t | e]; [| intros H; inversion H; auto].
  destruct (parse_time _) as [tm | e]; [| intros H; inversion H; auto].
  destruct (parse_only (self st)); [intros H; inversion H; auto |].
  destruct (assert_ticket_exists w t st) as [[u | e] st2] eqn:E;
    apply assert_ticket_exists_frame in E;
    intros H; inversion H; subst; exact E.
Qed.

Lemma parse_line_time_log_eq (line : string) (st : state) :
  parse_line_time_log w line st
  = match parse_time_log_line w (normalize line) st with
    | (OK (t, tm, desc), st1) =>
        (OK tt,
         with_mode date_or_time_log
           (with_logs (logs (cls st1)
                       ++ [ {| log_date := current_date (self st1);
                               ticket := t; description := desc;
                               hours := fst tm; minutes := snd tm |} ])
                      st1))
    | (Raise e, st1) => (Raise (StringInvalid line e), st1)
    end.
Proof.
  unfold parse_line_time_log, try_except, bind.
  destruct (parse_time_log_line w (normalize line) st) as [[[[t tm] desc] | e] st1];
    reflexivity.
Qed.

Lemma parse_line_in_date (line : string) (st : state) :
  mode (self st) = date_mode ->
  parse_line w line st = parse_line_date line st.
Proof. intros H. unfold parse_line, bind, get. rewrite H. reflexivity. Qed.

Lemma parse_line_in_time_log (line : string) (st : state) :
  mode (self st) = time_log ->
  parse_line w line st = parse_line_time_log w line st.
Proof. intros H. unfold parse_line, bind, get. rewrite H. reflexivity. Qed.

Lemma parse_line_in_either (line : string) (st : state) :
  mode (self st) = date_or_time_log ->
  parse_line w line st
  = match parse_line_date line (with_mode date_mode st) with
    | (OK a, st1) => (OK a, st1)
    | (Raise _, st1) =>
        match parse_line_time_log w line (with_mode time_log st1) with
        | (OK a, st2) => (OK a, st2)
        | (Raise e, st2) => (Raise (StringInvalid line e), st2)
        end
    end.
Proof.
  intros H. unfold parse_line, bind, get. rewrite H.
  unfold try_except, bind, set_mode, raise.
  destruct (parse_line_date line (with_mode date_mode st)) as [[a | e1] st1];
    [reflexivity |].
  destruct (parse_line_time_log w line (with_mode time_log st1)) as [[a | e2] st2];
    reflexivity.
Qed.

Lemma load_lines_cons (n : Z) (line : string) (rest : list string) (st : state) :
  load_lines w n (line :: rest) st
  = if Text.is_empty (Text.strip line) then load_lines w (n + 1) rest st
    else match parse_line w line st with
         | (OK _, st1) => load_lines w (n + 1) rest st1
         | (Raise e, st1) => (Raise (ErrorOnLine (n + 1) e), st1)
         end.
Proof.
  simpl. destruct (Text.is_empty (Text.strip line)); [reflexivity |].
  unfold bind, try_except, raise.
  destruct (parse_line w line st) as [[a | e] st1]; reflexivity.
Qed.

Lemma load_lines_app (pre post : list string) (n : Z) (st : state) :
  load_lines w n (pre ++ post) st
  = match load_lines w n pre st with
    | (OK _, st1) => load_lines w (n + Z.of_nat (List.length pre)) post st1
    | (Raise e, st1) => (Raise e, st1)
    end.
Proof.
  revert n st. induction pre as [| line pre IH]; intros n st.
  - simpl. unfold ret. rewrite Z.add_0_r. reflexivity.
  - rewrite <- app_comm_cons, !load_lines_cons.
    replace (n + Z.of_nat (List.length (line :: pre)))
      with (n + 1 + Z.of_nat (List.length pre))
      by (simpl List.length; lia).
    destruct (Text.is_empty (Text.strip line)); [apply IH |].
    destruct (parse_line w line st) as [[a | e] st1]; [apply IH | reflexivity].
Qed.
End Equations.

(** A date heading read under one clock is read the same under any clock
    it is not after. *)
Lemma parse_date_line_clock (c0 c : clock) (line : string) (d : date) :
  parse_date_line c0 line = OK d ->
  after d c = false ->
  parse_date_line c line = OK d.
Proof.
  unfold parse_date_line.
  destruct (Re.re_match Patterns.date_re line) as [m |]; [| discriminate].
  unfold rbind.
  destruct (group_int m "year") as [y |]; [| discriminate].
  destruct (group_int m "month") as [mo |]; [| discriminate].
  destruct (group_int m "day") as [dd |]; [| discriminate].
  destruct (datetime y mo dd) as [d' |]; [| discriminate].
  destruct (after d' c0); [discriminate |].
  intros H; inversion H; subst. intros ->. reflexivity.
Qed.

Lemma after_earlier (d1 d2 : date) (c : clock) :
  Calendar.compare d1 d2 = Lt -> after d2 c = false -> after d1 c = false.
Proof.
  unfold after, Calendar.compare.
  destruct d1 as [y1 m1 e1], d2 as [y2 m2 e2], c as [[y m e] t]; simpl.
  assert (Ht : (t <? 0)%N = false) by (apply N.ltb_ge; lia).
  rewrite Ht. intros H1 H2.
  repeat match goal with
         | H : context [?a ?= ?b] |- _ =>
             let E := fresh "E" in
             destruct (a ?= b) eqn:E;
             [ apply Z.compare_eq in E | rewrite Z.compare_lt_iff in E
             | rewrite Z.compare_gt_iff in E ]
         end; try discriminate; subst;
  repeat match goal with
         | |- context [?a ?= ?b] =>
             let E := fresh "E" in
             destruct (a ?= b) eqn:E;
             [ apply Z.compare_eq in E | rewrite Z.compare_lt_iff in E
             | rewrite Z.compare_gt_iff in E ]
         end; try reflexivity; try lia.
Qed.

(** ** The worked example *)

(** One line of the loader, evaluated: a line that is not a date heading
    is run as it stands; a date heading is read under the sample clock and
    moved to the clock at hand. *)
Ltac eval_blank :=
  match goal with
  | |- context [Text.is_empty (Text.strip ?l)] =>
      let b := eval vm_compute in (Text.is_empty (Text.strip l)) in
      change (Text.is_empty (Text.strip l)) with b; cbv iota
  end.

Ltac eval_parse_line :=
  match goal with
  | |- context [parse_line ?w ?l ?st] =>
      let r := eval vm_compute in (parse_line w l st) in
      replace (parse_line w l st) with r by (vm_compute; reflexivity);
      cbv iota beta
  end.

Ltac eval_date_heading H :=
  match goal with
  | |- context [parse_date_line ?c (normalize ?l)] =>
      rewrite (parse_date_line_clock (started Sample.world) c (normalize l) _
                 ltac:(vm_compute; reflexivity) H);
      cbv iota beta
  end.

(** C1.  The five-line example, parsed only, in a world whose clock is not
    before 2024-01-06: the run succeeds with three entries; the summary
    gives 2h 0m over two entries for 2024-01-05, 0h 45m over one entry for
    2024-01-06, and 2h 45m over 2 days and 3 logs in all; the collection
    ends in the order PROJ-1 of 01-05, PROJ-2 of 01-05, PROJ-1 of 01-06. *)
Theorem C1_end_to_end (w : env) :
  after Sample.jan6 (started w) = false ->
  init w Sample.lines true class_body
  = ({| exit := Success;
        printed := Some Sample.expected_report;
        uploaded := [] |},
     {| logs := [Sample.proj1_jan5; Sample.proj2_jan5; Sample.proj1_jan6];
        tickets := [] |}).
Proof.
  intros H6.
  assert (H5 : after Sample.jan5 (started w) = false)
    by (apply (after_earlier Sample.jan5 Sample.jan6); [reflexivity | exact H6]).
  assert (L : load_lines w 0 Sample.lines
                {| cls := class_body; self := new_self w true |}
              = (OK tt,
                 {| cls := {| logs := [Sample.proj1_jan5; Sample.proj2_jan5;
                                       Sample.proj1_jan6];
                              tickets := [] |};
                    self := {| mode := date_or_time_log;
                               current_date := Some Sample.jan6;
                               parse_only := true; now := started w |} |})).
  { unfold Sample.lines, new_self.
    rewrite load_lines_cons. eval_blank.
    rewrite parse_line_in_date by reflexivity.
    rewrite parse_line_date_eq. eval_date_heading H5.
    rewrite load_lines_cons. eval_blank. eval_parse_line.
    rewrite load_lines_cons. eval_blank. eval_parse_line.
    rewrite load_lines_cons. eval_blank.
    rewrite parse_line_in_either by reflexivity.
    rewrite parse_line_date_eq. eval_date_heading H6.
    rewrite load_lines_cons. eval_blank. eval_parse_line.
    reflexivity. }
  unfold init, load_logs, bind. rewrite L.
  vm_compute. reflexivity.
Qed.

Lemma C1_end_to_end_witness :
  after Sample.jan6 (started Sample.world) = false
  /\ init Sample.world Sample.lines true class_body
     = ({| exit := Success;
           printed := Some Sample.expected_report;
           uploaded := [] |},
        {| logs := [Sample.proj1_jan5; Sample.proj2_jan5; Sample.proj1_jan6];
           tickets := [] |}).
Proof.
  split; [reflexivity | apply (C1_end_to_end Sample.world); reflexivity].
Defined.

(** ** The classifier in the mode after a time entry *)

(** The time-entry parser does not look at the mode. *)
Lemma parse_time_log_line_mode (w : env) (s : string) (m : mode_t) (st : state) :
  parse_time_log_line w s (with_mode m st)
  = let '(r, st1) := parse_time_log_line w s st in (r, with_mode m st1).
Proof.
  unfold parse_time_log_line, bind, lift, get, ret.
  destruct (parse_ticket _) as [t |]; [| reflexivity].
  destruct (parse_time _) as [tm |]; [| reflexivity].
  simpl. destruct (parse_only (self st)); [reflexivity |].
  unfold assert_ticket_exists, bind, get, ret, append_ticket, raise. simpl.
  destruct (existsb _ _); [reflexivity |].
  destruct (issue_found w t); reflexivity.
Qed.

(** C2.  In the mode after a time entry the line is first read as a date
    heading: on success the date becomes the current date and the mode
    ['time_log'], and nothing else changes.  Only when that fails is the
    line read as a time entry: on success one entry, with the current
    date, is appended to the entries, the current date stays and the mode
    is again ['date_or_time_log'].  When both fail the error is the one
    of the time-entry attempt, with the text of the line, no entry is
    added, and the loader reports the error with the position of the line
    in the file, counted from 1. *)
Theorem C2_either_backtracks (w : env) (line : string) (st : state) :
  mode (self st) = date_or_time_log ->
  (forall d,
      parse_date_line (now (self st)) (normalize line) = OK d ->
      parse_line w line st
      = (OK tt,
         {| cls := cls st;
            self := {| mode := time_log;
                       current_date := Some d;
                       parse_only := parse_only (self st);
                       now := now (self st) |} |}))
  /\ (forall e1,
      parse_date_line (now (self st)) (normalize line) = Raise e1 ->
      (forall t tm desc st1,
          parse_time_log_line w (normalize line) st = (OK (t, tm, desc), st1) ->
          parse_line w line st
          = (OK tt,
             {| cls := {| logs := logs (cls st)
                                  ++ [ {| log_date := current_date (self st);
                                          ticket := t; description := desc;
                                          hours := fst tm; minutes := snd tm |} ];
                          tickets := tickets (cls st1) |};
                self := {| mode := date_or_time_log;
                           current_date := current_date (self st);
                           parse_only := parse_only (self st);
                           now := now (self st) |} |}))
      /\ (forall e2 st1,
          parse_time_log_line w (normalize line) st = (Raise e2, st1) ->
          let failed :=
            {| cls := {| logs := logs (cls st); tickets := tickets (cls st1) |};
               self := {| mode := time_log;
                          current_date := current_date (self st);
                          parse_only := parse_only (self st);
                          now := now (self st) |} |} in
          parse_line w line st
          = (Raise (StringInvalid line (StringInvalid line e2)), failed)
          /\ (forall pre rest st0,
                 Text.is_empty (Text.strip line) = false ->
                 load_lines w 0 pre st0 = (OK tt, st) ->
                 load_lines w 0 (pre ++ line :: rest) st0
                 = (Raise (ErrorOnLine (Z.of_nat (List.length pre) + 1)
                             (StringInvalid line (StringInvalid line e2))),
                    failed)))).
Proof.
  intros Hmode. split.
  - intros d Hd.
    rewrite (parse_line_in_either w line st Hmode), parse_line_date_eq.
    simpl now. rewrite Hd. reflexivity.
  - intros e1 He1.
    assert (Hp : parse_line w line st
               = match parse_line_time_log w line (with_mode time_log st) with
                 | (OK a, st2) => (OK a, st2)
                 | (Raise e, st2) => (Raise (StringInvalid line e), st2)
                 end).
    { rewrite (parse_line_in_either w line st Hmode), parse_line_date_eq.
      simpl now. rewrite He1. reflexivity. }
    split.
    + intros t tm desc st1 Ht.
      destruct (parse_time_log_line_frame w _ _ _ _ Ht) as [Hself Hlogs].
      rewrite Hp, parse_line_time_log_eq, parse_time_log_line_mode, Ht.
      unfold with_mode, with_logs. simpl. rewrite Hself, Hlogs. reflexivity.
    + intros e2 st1 Ht failed.
      destruct (parse_time_log_line_frame w _ _ _ _ Ht) as [Hself Hlogs].
      assert (Hl : parse_line w line st
                   = (Raise (StringInvalid line (StringInvalid line e2)), failed)).
      { rewrite Hp, parse_line_time_log_eq, parse_time_log_line_mode, Ht.
        unfold failed, with_mode. simpl. rewrite Hself, <- Hlogs.
        destruct st1 as [[ls ts] s1]. reflexivity. }
      split; [exact Hl |].
      intros pre rest st0 Hblank Hpre.
      rewrite load_lines_app, Hpre, load_lines_cons, Hblank, Hl.
      reflexivity.
Qed.

Lemma C2_either_backtracks_witness :
  parse_line Sample.world "2024-01-06" Either.st
  = (OK tt,
     {| cls := {| logs := [Sample.proj1_jan5; Sample.proj2_jan5]; tickets := [] |};
        self := {| mode := time_log; current_date := Some Sample.jan6;
                   parse_only := true; now := started Sample.world |} |})
  /\ parse_line Sample.world "PROJ-1, 45m" Either.st
     = (OK tt,
        {| cls := {| logs := [Sample.proj1_jan5; Sample.proj2_jan5;
                              {| log_date := Some Sample.jan5; ticket := "PROJ-1";
                                 description := ""; hours := 0; minutes := 45 |}];
                     tickets := [] |};
           self := {| mode := date_or_time_log; current_date := Some Sample.jan5;
                      parse_only := true; now := started Sample.world |} |})
  /\ load_lines Sample.world 0 (["PROJ-7, 2h"] ++ ["no entry"])
       (with_mode time_log Either.st)
     = (Raise (ErrorOnLine 2
                 (StringInvalid "no entry"
                    (StringInvalid "no entry" TicketPatternNotMatched))),
        {| cls := {| logs := [Sample.proj1_jan5; Sample.proj2_jan5;
                              {| log_date := Some Sample.jan5; ticket := "PROJ-7";
                                 description := ""; hours := 2; minutes := 0 |}];
                     tickets := [] |};
           self := {| mode := time_log; current_date := Some Sample.jan5;
                      parse_only := true; now := started Sample.world |} |}).
Proof.
  split; [| split].
  - exact (proj1 (C2_either_backtracks Sample.world "2024-01-06" Either.st eq_refl)
             Sample.jan6 ltac:(vm_compute; reflexivity)).
  - exact (proj1 (proj2 (C2_either_backtracks Sample.world "PROJ-1, 45m"
                           Either.st eq_refl)
                    PatternNotMatched ltac:(vm_compute; reflexivity))
             "PROJ-1" (0, 45) "" Either.st ltac:(vm_compute; reflexivity)).
  - exact (proj2 (proj2 (proj2 (C2_either_backtracks Sample.world "no entry"
                           {| cls := {| logs := [Sample.proj1_jan5; Sample.proj2_jan5;
                                 {| log_date := Some Sample.jan5; ticket := "PROJ-7";
                                    description := ""; hours := 2; minutes := 0 |}];
                                        tickets := [] |};
                              self := {| mode := date_or_time_log;
                                         current_date := Some Sample.jan5;
                                         parse_only := true;
                                         now := started Sample.world |} |}
                           eq_refl)
                    PatternNotMatched ltac:(vm_compute; reflexivity))
                  TicketPatternNotMatched _ ltac:(vm_compute; reflexivity))
             ["PROJ-7, 2h"] [] (with_mode time_log Either.st)
             ltac:(vm_compute; reflexivity) ltac:(vm_compute; reflexivity)).
Defined.

(** ** A line that fails *)

Section Failure.
Variable w : env.

(** A line that fails leaves the logs and the current date as they
    were, and its error carries the text of the line. *)
Lemma parse_line_raise (line : string) (st st' : state) (e : exn) :
  parse_line w line st = (Raise e, st') ->
  (exists cause, e = StringInvalid line cause)
  /\ logs (cls st') = logs (cls st)
  /\ current_date (self st') = current_date (self st).
Proof.
  destruct (mode (self st)) eqn:Hmode.
  - rewrite (parse_line_in_date w line st Hmode), parse_line_date_eq.
    destruct (parse_date_line _ _) as [d | e0]; [discriminate |].
    intros H; inversion H; subst. eauto.
  - rewrite (parse_line_in_time_log w line st Hmode), parse_line_time_log_eq.
    destruct (parse_time_log_line w (normalize line) st)
      as [[[[t tm] desc] | e0] st1] eqn:Ht; [discriminate |].
    destruct (parse_time_log_line_frame w _ _ _ _ Ht) as [Hself Hlogs].
    intros H; inversion H; subst. rewrite Hself. eauto.
  - rewrite (parse_line_in_either w line st Hmode), parse_line_date_eq.
    destruct (parse_date_line _ _) as [d | e0]; [discriminate |].
    rewrite parse_line_time_log_eq.
    destruct (parse_time_log_line w (normalize line) _)
      as [[[[t tm] desc] | e1] st1] eqn:Ht; [discriminate |].
    destruct (parse_time_log_line_frame w _ _ _ _ Ht) as [Hself Hlogs].
    intros H; inversion H; subst. rewrite Hself. eauto.
Qed.

(** A load that fails fails at one line: the lines before it were read,
    and the error names the position of the line, counted from [n + 1]. *)
Lemma load_lines_raise (lines : list string) (n : Z) (st st' : state) (e : exn) :
  load_lines w n lines st = (Raise e, st') ->
  exists pre line rest cause stp,
    lines = (pre ++ line :: rest)%list
    /\ e = ErrorOnLine (n + Z.of_nat (List.length pre) + 1)
             (StringInvalid line cause)
    /\ load_lines w n pre st = (OK tt, stp)
    /\ parse_line w line stp = (Raise (StringInvalid line cause), st').
Proof.
  revert n st. induction lines as [| l lines IH]; intros n st.
  - simpl. unfold ret. discriminate.
  - rewrite load_lines_cons.
    destruct (Text.is_empty (Text.strip l)) eqn:Hblank.
    + intros H. destruct (IH _ _ H) as (pre & line & rest & cause & stp & -> & -> & Hpre & Hl).
      exists (l :: pre), line, rest, cause, stp. repeat split.
      * f_equal. simpl List.length. lia.
      * rewrite load_lines_cons, Hblank. exact Hpre.
      * exact Hl.
    + destruct (parse_line w l st) as [[[] | e0] st1] eqn:Hl.
      * intros H. destruct (IH _ _ H) as (pre & line & rest & cause & stp & -> & -> & Hpre & Hl').
        exists (l :: pre), line, rest, cause, stp. repeat split.
        -- f_equal. simpl List.length. lia.
        -- rewrite load_lines_cons, Hblank, Hl. exact Hpre.
        -- exact Hl'.
      * intros H; inversion H; subst.
        destruct (parse_line_raise _ _ _ _ Hl) as [[cause ->] _].
        exists [], l, lines, cause, st. repeat split.
        -- f_equal. simpl. lia.
        -- exact Hl.
Qed.
End Failure.

(** C3, as the claim states it, fails on the file [Broken.lines]: the run
    aborts with the error of line 3, and the collection still holds the
    entry of line 2. *)
Lemma C3_counterexample :
  init Sample.world Broken.lines true class_body
  = ({| exit := Failed (ErrorOnLine 3
                  (StringInvalid "garbage"
                     (StringInvalid "garbage" TicketPatternNotMatched)));
        printed := None; uploaded := [] |},
     {| logs := [Broken.proj1]; tickets := [] |})
  /\ logs (snd (init Sample.world Broken.lines true class_body)) <> [].
Proof.
  split; [vm_compute; reflexivity | vm_compute; discriminate].
Qed.

(** C3, amended.  When a line fails to parse the run ends there with one
    error, which carries the position of the line in the file, counted
    from 1, and its text; no summary is printed and nothing is uploaded.
    The collection is not emptied: it holds what it held when the lines
    before the failing one had been read. *)
Theorem C3_abort_keeps_parsed_entries
    (w : env) (lines : list string) (po : bool) (c : class_attrs)
    (e : exn) (st' : state) :
  load_lines w 0 lines {| cls := c; self := new_self w po |} = (Raise e, st') ->
  init w lines po c
  = ({| exit := Failed e; printed := None; uploaded := [] |}, cls st')
  /\ exists pre line rest cause stp,
       lines = (pre ++ line :: rest)%list
       /\ e = ErrorOnLine (Z.of_nat (List.length pre) + 1)
                (StringInvalid line cause)
       /\ load_lines w 0 pre {| cls := c; self := new_self w po |} = (OK tt, stp)
       /\ logs (cls st') = logs (cls stp).
Proof.
  intros H. split.
  - unfold init, load_logs, bind. rewrite H. reflexivity.
  - destruct (load_lines_raise w _ _ _ _ _ H)
      as (pre & line & rest & cause & stp & Hl & He & Hpre & Hline).
    exists pre, line, rest, cause, stp.
    destruct (parse_line_raise w _ _ _ _ Hline) as (_ & Hlogs & _).
    repeat split; auto.
Qed.

Lemma C3_abort_keeps_parsed_entries_witness :
  init Sample.world Broken.lines true class_body
  = ({| exit := Failed (ErrorOnLine 3
                  (StringInvalid "garbage"
                     (StringInvalid "garbage" TicketPatternNotMatched)));
        printed := None; uploaded := [] |},
     {| logs := [Broken.proj1]; tickets := [] |}).
Proof.
  exact (proj1 (C3_abort_keeps_parsed_entries Sample.world Broken.lines true
                  class_body _
                  {| cls := {| logs := [Broken.proj1]; tickets := [] |};
                     self := {| mode := time_log;
                                current_date := Some Sample.jan5;
                                parse_only := true;
                                now := started Sample.world |} |}
                  ltac:(vm_compute; reflexivity))).
Defined.

(** ** The shape of a date heading *)

Lemma sub_ws_no_final_newline (b : bool) (s : string) :
  ends_with_newline (Text.sub_ws b s) = false.
Proof.
  revert b. induction s as [| c s IH]; intros b; [reflexivity |].
  simpl. destruct (Text.is_space c) eqn:Hc.
  - destruct b; [apply IH |].
    simpl. specialize (IH true).
    destruct (Text.sub_ws true s); [reflexivity | exact IH].
  - simpl. specialize (IH false).
    destruct (Text.sub_ws false s); [| exact IH].
    apply Ascii.eqb_neq. intros ->. vm_compute in Hc. discriminate.
Qed.

Lemma normalize_no_final_newline (raw : string) :
  ends_with_newline (normalize raw) = false.
Proof. apply sub_ws_no_final_newline. Qed.

Ltac shape_with h1 h2 :=
  do 8 eexists; exists h1, h2; refine (conj _ eq_refl); simpl;
  repeat match goal with
         | H : Text.is_digit _ = true |- _ => rewrite H; clear H
         end; reflexivity.

Lemma digit_not_hyphen (c : ascii) :
  Text.is_digit c = true -> Ascii.eqb "-" c = false.
Proof.
  intros H. apply Ascii.eqb_neq. intros <-. vm_compute in H. discriminate.
Qed.

Section DatePattern.
Local Opaque Ascii.eqb.

Lemma date_re_shape (s : string) :
  ends_with_newline s = false ->
  Re.re_match Patterns.date_re s <> None -> date_shape s.
Proof.
  intros Hnl H.
  unfold Re.re_match, Patterns.date_re in H. simpl in H.
  rewrite Nat.eqb_refl in H.
  repeat (match type of H with
          | context [match ?s with EmptyString => _ | String _ _ => _ end] =>
              is_var s; destruct s
          | context [if ?b then _ else _] => destruct b eqn:?
          end; simpl in H; try congruence).
  all: repeat match goal with
       | E : Ascii.eqb _ _ = true |- _ => apply Ascii.eqb_eq in E; subst
       end.
  all: try (vm_compute in Hnl; discriminate Hnl).
  all: try match goal with
       | E : Text.is_digit "-" = true |- _ => vm_compute in E; discriminate E
       end.
  all: first [ shape_with true true | shape_with true false
             | shape_with false true | shape_with false false ].
Qed.

Lemma date_shape_re (s : string) :
  date_shape s -> Re.re_match Patterns.date_re s <> None.
Proof.
  intros (y1 & y2 & y3 & y4 & m1 & m2 & d1 & d2 & h1 & h2 & Hd & ->).
  simpl in Hd. repeat rewrite andb_true_iff in Hd.
  destruct Hd as (D1 & D2 & D3 & D4 & D5 & D6 & D7 & D8 & _).
  unfold Re.re_match, Patterns.date_re.
  destruct h1, h2; simpl;
    rewrite ?D1, ?D2, ?D3, ?D4, ?D5, ?D6, ?D7, ?D8, ?Nat.eqb_refl,
      ?Ascii.eqb_refl, ?(digit_not_hyphen _ D5), ?(digit_not_hyphen _ D7);
    simpl; discriminate.
Qed.
End DatePattern.

(** The date parser reports 'Pattern not matched' exactly when the pattern
    does not match. *)
Lemma parse_date_line_mismatch (c : clock) (line : string) :
  parse_date_line c line = Raise PatternNotMatched
  <-> Re.re_match Patterns.date_re line = None.
Proof.
  unfold parse_date_line.
  destruct (Re.re_match Patterns.date_re line) as [m |]; [| tauto].
  split; [| discriminate].
  assert (Hg : forall name e, group_int m name = Raise e -> e <> PatternNotMatched).
  { intros name e. unfold group_int, of_option.
    destruct (Re.group m name) as [v |]; [destruct (Text.int v) |];
      intros H; inversion H; discriminate. }
  destruct (group_int m "year") as [y | e] eqn:Ey;
    [| intros H; inversion H; subst; exfalso; exact (Hg _ _ Ey eq_refl)].
  destruct (group_int m "month") as [mo | e] eqn:Em;
    [| intros H; inversion H; subst; exfalso; exact (Hg _ _ Em eq_refl)].
  destruct (group_int m "day") as [dd | e] eqn:Ed;
    [| intros H; inversion H; subst; exfalso; exact (Hg _ _ Ed eq_refl)].
  simpl. unfold datetime.
  destruct (valid y mo dd); [| discriminate].
  simpl. destruct (after _ c); discriminate.
Qed.

(** C4, as the claim states it, fails on the mixed forms: a heading with
    one hyphen only is read as a date. *)
Lemma C4_counterexample :
  parse_date_line (started Sample.world) (normalize "2024-0105")
  = OK (mkDate 2024 1 5)
  /\ parse_date_line (started Sample.world) (normalize "202401-05")
     = OK (mkDate 2024 1 5).
Proof. split; vm_compute; reflexivity. Qed.

(** C4, amended.  On a normalized line of ASCII characters the date parser
    succeeds only on four digits, an optional hyphen, two digits, an
    optional hyphen and two digits, each hyphen optional on its own; every
    other such line fails with 'Pattern not matched', and no line of that
    shape does.  (On other text the script's [\d] and [int] also take the
    other decimal digits of Unicode; the statement is about ASCII.) *)
Theorem C4_date_grammar (c : clock) (raw : string) :
  (ascii_text raw = true ->
   forall d, parse_date_line c (normalize raw) = OK d ->
             date_shape (normalize raw))
  /\ (ascii_text raw = true ->
      ~ date_shape (normalize raw) ->
      parse_date_line c (normalize raw) = Raise PatternNotMatched)
  /\ (date_shape (normalize raw) ->
      parse_date_line c (normalize raw) <> Raise PatternNotMatched).
Proof.
  pose proof (normalize_no_final_newline raw) as Hnl.
  split; [| split].
  - intros _ d Hd. apply (date_re_shape _ Hnl).
    intros Hm. apply (parse_date_line_mismatch c) in Hm. congruence.
  - intros _ Hs. apply parse_date_line_mismatch.
    destruct (Re.re_match Patterns.date_re (normalize raw)) eqn:Hm; [| reflexivity].
    exfalso. apply Hs, (date_re_shape _ Hnl). congruence.
  - intros Hs Hp. apply parse_date_line_mismatch in Hp.
    exact (date_shape_re _ Hs Hp).
Qed.

Lemma C4_date_grammar_witness :
  ascii_text "2024-0105" = true
  /\ date_shape (normalize "2024-0105")
  /\ parse_date_line (started Sample.world) (normalize "2024-0105")
     <> Raise PatternNotMatched
  /\ ascii_text "2024/01/05" = true
  /\ parse_date_line (started Sample.world) (normalize "2024/01/05")
     = Raise PatternNotMatched.
Proof.
  assert (H : date_shape (normalize "2024-0105"))
    by exact (proj1 (C4_date_grammar (started Sample.world) "2024-0105")
                ltac:(reflexivity) (mkDate 2024 1 5) ltac:(vm_compute; reflexivity)).
  split; [reflexivity |]. split; [exact H |].
  split; [exact (proj2 (proj2 (C4_date_grammar (started Sample.world) "2024-0105")) H) |].
  split; [reflexivity |].
  apply (proj1 (proj2 (C4_date_grammar (started Sample.world) "2024/01/05")));
    [reflexivity |].
  intros (y1 & y2 & y3 & y4 & m1 & m2 & d1 & d2 & h1 & h2 & Hd & Hs).
  vm_compute in Hs. destruct h1; vm_compute in Hs; inversion Hs; subst;
    vm_compute in Hd; discriminate Hd.
Defined.

(** ** A date heading outside the calendar *)

Lemma digit_facts (c : ascii) :
  Text.is_digit c = true ->
  Text.is_space c = false /\ Text.is_alpha c = false /\ Ascii.eqb c "," = false.
Proof.
  intros H. destruct c as [b0 b1 b2 b3 b4 b5 b6 b7].
  destruct b0, b1, b2, b3, b4, b5, b6, b7;
    try (vm_compute in H; discriminate H); vm_compute; auto.
Qed.

(** A line that begins with a digit is no time entry: its ticket cannot
    begin with a letter. *)
Lemma digit_line_no_ticket (w : env) (c : ascii) (s : string) (st : state) :
  Text.is_digit c = true ->
  parse_time_log_line w (String c s) st = (Raise TicketPatternNotMatched, st).
Proof.
  intros Hd. destruct (digit_facts c Hd) as (Hsp & Hal & Hco).
  unfold parse_time_log_line.
  assert (Hpart : exists x, part (Text.split "," 2 (String c s)) 0 = String c x).
  { unfold part. simpl. rewrite Hco.
    destruct (Text.split_at "," s) as [a [b |]]; simpl;
      unfold Text.strip; simpl; rewrite Hsp; simpl; rewrite ?Hsp; simpl; eauto. }
  destruct Hpart as [x ->].
  unfold bind, lift, parse_ticket, Re.re_match, Patterns.ticket_match_re.
  simpl. rewrite Nat.eqb_refl, Hal. reflexivity.
Qed.

Lemma date_match_first_digit (raw : string) (m : Re.match_obj) :
  Re.re_match Patterns.date_re (normalize raw) = Some m ->
  exists c s, normalize raw = String c s /\ Text.is_digit c = true.
Proof.
  intros H.
  assert (Hs : date_shape (normalize raw)).
  { apply date_re_shape; [apply normalize_no_final_newline | congruence]. }
  destruct Hs as (y1 & y2 & y3 & y4 & m1 & m2 & d1 & d2 & h1 & h2 & Hd & Hs).
  simpl in Hd. apply andb_true_iff in Hd. destruct Hd as [Hd _].
  rewrite Hs. eauto.
Qed.

Lemma date_match_not_blank (raw : string) (m : Re.match_obj) :
  Re.re_match Patterns.date_re (normalize raw) = Some m ->
  Text.is_empty (Text.strip raw) = false.
Proof.
  intros H. destruct (date_match_first_digit raw m H) as (c & s & Hn & _).
  unfold normalize in Hn.
  destruct (Text.strip raw); [discriminate Hn | reflexivity].
Qed.

(** C10.  A line of the shape of a date whose fields are no date of the
    calendar: the date parser raises; in every mode the line is an error
    that carries the text of the line; the current date and the logs stay
    as they were; the loader reports the error with the number of the
    line, and the run ends there. *)
Theorem C10_invalid_calendar_date
    (w : env) (raw : string) (m : Re.match_obj) (y mo d : Z) :
  Re.re_match Patterns.date_re (normalize raw) = Some m ->
  group_int m "year" = OK y ->
  group_int m "month" = OK mo ->
  group_int m "day" = OK d ->
  valid y mo d = false ->
  (forall c, parse_date_line c (normalize raw) = Raise ValueError)
  /\ (forall st, exists cause st',
         parse_line w raw st = (Raise (StringInvalid raw cause), st')
         /\ current_date (self st') = current_date (self st)
         /\ logs (cls st') = logs (cls st)
         /\ (forall pre rest po c,
                load_lines w 0 pre {| cls := c; self := new_self w po |}
                = (OK tt, st) ->
                init w (pre ++ raw :: rest) po c
                = ({| exit := Failed (ErrorOnLine (Z.of_nat (List.length pre) + 1)
                                        (StringInvalid raw cause));
                      printed := None; uploaded := [] |},
                   cls st'))).
Proof.
  intros Hm Hy Hmo Hd Hv.
  assert (Hdate : forall c, parse_date_line c (normalize raw) = Raise ValueError).
  { intros c. unfold parse_date_line. rewrite Hm, Hy, Hmo, Hd. simpl.
    unfold datetime. rewrite Hv. reflexivity. }
  split; [exact Hdate |].
  intros st.
  destruct (date_match_first_digit raw m Hm) as (ch & s & Hn & Hdig).
  assert (Htime : forall st1,
             parse_line_time_log w raw st1
             = (Raise (StringInvalid raw TicketPatternNotMatched), st1)).
  { intros st1. rewrite parse_line_time_log_eq, Hn.
    rewrite (digit_line_no_ticket w ch s st1 Hdig). reflexivity. }
  assert (Hraise : exists e st', parse_line w raw st = (Raise e, st')).
  { destruct (mode (self st)) eqn:Hmode.
    - rewrite (parse_line_in_date w raw st Hmode), parse_line_date_eq, Hdate. eauto.
    - rewrite (parse_line_in_time_log w raw st Hmode), Htime. eauto.
    - rewrite (parse_line_in_either w raw st Hmode), parse_line_date_eq, Hdate,
        Htime. eauto. }
  destruct Hraise as (e & st' & Hl).
  destruct (parse_line_raise w _ _ _ _ Hl) as ([cause ->] & Hlogs & Hcur).
  exists cause, st'. repeat split; auto.
  intros pre rest po c Hpre.
  unfold init, load_logs, bind.
  rewrite load_lines_app, Hpre, load_lines_cons,
    (date_match_not_blank raw m Hm), Hl.
  reflexivity.
Qed.

Lemma C10_invalid_calendar_date_witness :
  parse_date_line (started Sample.world) (normalize "2024-13-01")
  = Raise ValueError.
Proof.
  exact (proj1 (C10_invalid_calendar_date Sample.world "2024-13-01"
                  {| Re.group0 := "2024-13-01";
                     Re.named := [("day", "01"); ("month", "13"); ("year", "2024")] |}
                  2024 13 1
                  ltac:(vm_compute; reflexivity) ltac:(vm_compute; reflexivity)
                  ltac:(vm_compute; reflexivity) ltac:(vm_compute; reflexivity)
                  ltac:(vm_compute; reflexivity))
           (started Sample.world)).
Defined.

(** ** Durations *)

(** C6.  A time text whose hours and minutes both come out as zero is
    refused with 'Time pattern not matched', whichever of the two patterns
    read it, and so is the time entry it stands in; no accepted duration
    is zero.  ["0"] is read by the decimal pattern and ["0h0m"] by the
    pattern of hours and minutes; both are refused. *)
Theorem C6_zero_duration_rejected :
  (forall time_str,
      hours_minutes time_str = OK (0, 0) ->
      parse_time time_str = Raise TimePatternNotMatched)
  /\ (forall time_str h m,
      parse_time time_str = OK (h, m) -> ~ (h = 0 /\ m = 0))
  /\ (forall w line st t,
      parse_ticket (part (Text.split "," 2 line) 0) = OK t ->
      hours_minutes (part (Text.split "," 2 line) 1) = OK (0, 0) ->
      parse_time_log_line w line st = (Raise TimePatternNotMatched, st))
  /\ (Re.re_match Patterns.dec_hours_match_re "0" <> None
      /\ hours_minutes "0" = OK (0, 0)
      /\ parse_time "0" = Raise TimePatternNotMatched)
  /\ (Re.re_match Patterns.dec_hours_match_re "0h0m" = None
      /\ Re.re_match Patterns.hours_mins_match_re "0h0m" <> None
      /\ hours_minutes "0h0m" = OK (0, 0)
      /\ parse_time "0h0m" = Raise TimePatternNotMatched).
Proof.
  assert (Hz : forall time_str,
             hours_minutes time_str = OK (0, 0) ->
             parse_time time_str = Raise TimePatternNotMatched).
  { intros time_str H. unfold parse_time. rewrite H. reflexivity. }
  split; [exact Hz |]. split; [| split; [| split]].
  - intros time_str h m. unfold parse_time.
    destruct (hours_minutes time_str) as [[h0 m0] | e]; simpl; [| discriminate].
    destruct ((h0 =? 0) && (m0 =? 0)) eqn:Hb; [discriminate |].
    intros H [Hh Hm]. inversion H; subst. discriminate Hb.
  - intros w line st t Ht Hhm.
    unfold parse_time_log_line, bind, lift. rewrite Ht, (Hz _ Hhm). reflexivity.
  - repeat split; try (vm_compute; reflexivity). vm_compute. discriminate.
  - repeat split; try (vm_compute; reflexivity). vm_compute. discriminate.
Qed.

Lemma C6_zero_duration_rejected_witness :
  parse_time "0h0m" = Raise TimePatternNotMatched
  /\ parse_time_log_line Sample.world "PROJ-1, 0" Either.st
     = (Raise TimePatternNotMatched, Either.st).
Proof.
  split.
  - exact (proj1 C6_zero_duration_rejected "0h0m" ltac:(vm_compute; reflexivity)).
  - exact (proj1 (proj2 (proj2 C6_zero_duration_rejected))
             Sample.world "PROJ-1, 0" Either.st "PROJ-1"
             ltac:(vm_compute; reflexivity) ltac:(vm_compute; reflexivity)).
Defined.

(** C7.  The pattern of hours and minutes is matched at the start of the
    time text only: ["45m later"] is not read by the decimal pattern, the
    other pattern matches its first three characters, and the text is
    taken as 45 minutes; the entry ["PROJ-1, 45m later"] is accepted. *)
Lemma C7_trailing_text_accepted :
  Re.re_match Patterns.dec_hours_match_re "45m later" = None
  /\ option_map Re.group0 (Re.re_match Patterns.hours_mins_match_re "45m later")
     = Some "45m"
  /\ parse_time "45m later" = OK (0, 45)
  /\ parse_time_log_line Sample.world "PROJ-1, 45m later" Either.st
     = (OK ("PROJ-1", (0, 45), ""), Either.st).
Proof. repeat split; vm_compute; reflexivity. Qed.

(** ** Two runs in one process *)

(** The list [logs] belongs to the class.  The script builds one instance
    in a process and every path through [__init__] ends in [exit()]; were
    a caller to catch that exit and build a second instance in the same
    interpreter, the second run would append to the list the first one
    filled, and end with six entries where the first ended with three. *)
Remark logs_shared_within_one_interpreter :
  let first := init Sample.world Sample.lines true class_body in
  let second := init Sample.world Sample.lines true (snd first) in
  logs (snd first)
  = [Sample.proj1_jan5; Sample.proj2_jan5; Sample.proj1_jan6]
  /\ logs (snd second)
     = [Sample.proj1_jan5; Sample.proj1_jan5; Sample.proj2_jan5;
        Sample.proj2_jan5; Sample.proj1_jan6; Sample.proj1_jan6]
  /\ option_map n_logs (printed (fst second)) = Some 6
  /\ logs (snd second) <> logs (snd first).
Proof.
  repeat split; try (vm_compute; reflexivity). vm_compute. discriminate.
Qed.

(** ** The order of the collection *)

Lemma calendar_compare_eq (a b : date) : Calendar.compare a b = Eq -> a = b.
Proof.
  destruct a as [y1 m1 d1], b as [y2 m2 d2]. unfold Calendar.compare. simpl.
  destruct (y1 ?= y2) eqn:Ey; try discriminate.
  destruct (m1 ?= m2) eqn:Em; try discriminate.
  intros Ed. apply Z.compare_eq in Ey, Em, Ed. subst. reflexivity.
Qed.

Lemma calendar_compare_refl (a : date) : Calendar.compare a a = Eq.
Proof. unfold Calendar.compare. rewrite !Z.compare_refl. reflexivity. Qed.

Lemma calendar_compare_antisym (a b : date) :
  Calendar.compare a b = CompOpp (Calendar.compare b a).
Proof.
  unfold Calendar.compare.
  rewrite (Z.compare_antisym (year b)), (Z.compare_antisym (month b)),
    (Z.compare_antisym (day b)).
  destruct (year b ?= year a); simpl; try reflexivity.
  destruct (month b ?= month a); simpl; reflexivity.
Qed.

Lemma calendar_compare_trans (a b c : date) :
  Calendar.compare a b = Lt -> Calendar.compare b c = Lt ->
  Calendar.compare a c = Lt.
Proof.
  destruct a as [y1 m1 d1], b as [y2 m2 d2], c as [y3 m3 d3].
  unfold Calendar.compare. simpl.
  destruct (Z.compare_spec y1 y2), (Z.compare_spec y2 y3); try discriminate;
    destruct (Z.compare_spec y1 y3); try lia; try reflexivity;
    destruct (Z.compare_spec m1 m2), (Z.compare_spec m2 m3); try discriminate;
    destruct (Z.compare_spec m1 m3); try lia; try reflexivity;
    rewrite !Z.compare_lt_iff; lia.
Qed.

Lemma date_key_compare_eq (a b : option date) :
  date_key_compare a b = Eq -> a = b.
Proof.
  destruct a as [x |], b as [y |]; simpl; try discriminate; [| reflexivity].
  intros H. f_equal. apply calendar_compare_eq, H.
Qed.

Lemma date_key_compare_refl (a : option date) : date_key_compare a a = Eq.
Proof. destruct a; simpl; [apply calendar_compare_refl | reflexivity]. Qed.

Lemma date_key_compare_antisym (a b : option date) :
  date_key_compare a b = CompOpp (date_key_compare b a).
Proof.
  destruct a, b; simpl; try reflexivity. apply calendar_compare_antisym.
Qed.

Lemma date_key_compare_trans (a b c : option date) :
  date_key_compare a b = Lt -> date_key_compare b c = Lt ->
  date_key_compare a c = Lt.
Proof.
  destruct a, b, c; simpl; try discriminate; try reflexivity.
  apply calendar_compare_trans.
Qed.

Lemma string_compare_refl (s : string) : String.compare s s = Eq.
Proof.
  induction s as [| c s IH]; simpl; [reflexivity |].
  unfold Ascii.compare. rewrite N.compare_refl. exact IH.
Qed.

Lemma string_compare_trans (a b c : string) :
  String.compare a b = Lt -> String.compare b c = Lt ->
  String.compare a c = Lt.
Proof.
  revert b c. induction a as [| x a IH]; intros [| y b] [| z c]; simpl;
    try discriminate; try reflexivity.
  unfold Ascii.compare.
  destruct (N.compare_spec (N_of_ascii x) (N_of_ascii y)) as [Exy | Lxy | Gxy];
    destruct (N.compare_spec (N_of_ascii y) (N_of_ascii z)) as [Eyz | Lyz | Gyz];
    try discriminate;
    destruct (N.compare_spec (N_of_ascii x) (N_of_ascii z)) as [Exz | Lxz | Gxz];
    try lia; try reflexivity.
  apply IH.
Qed.

(** The comparison of the sort decides the order of the claim. *)
Lemma key_leb_spec (a b : key) : key_leb a b = true <-> before_or_equal a b.
Proof.
  destruct a as [[d1 p1] n1], b as [[d2 p2] n2].
  unfold key_leb, key_compare, before_or_equal.
  destruct (date_key_compare d1 d2) eqn:Ed.
  - apply date_key_compare_eq in Ed. subst d2.
    destruct (String.compare p1 p2) eqn:Ep.
    + apply String.compare_eq_iff in Ep. subst p2.
      destruct (Z.compare_spec n1 n2) as [Hn | Hn | Hn]; split; intros H; try reflexivity;
        try discriminate.
      * right. split; [reflexivity |]. right. split; [reflexivity | lia].
      * right. split; [reflexivity |]. right. split; [reflexivity | lia].
      * destruct H as [H | [_ [H | [_ H]]]]; try discriminate; lia.
    + split; [| reflexivity]. intros _. right. split; [reflexivity |]. now left.
    + split; [discriminate |].
      intros [H | [_ [H | [H _]]]]; try discriminate.
      subst p2. rewrite string_compare_refl in Ep. discriminate.
  - split; [| reflexivity]. intros _. now left.
  - split; [discriminate |].
    intros [H | [H _]]; [discriminate |].
    subst d2. rewrite date_key_compare_refl in Ed. discriminate.
Qed.

Lemma before_or_equal_trans (a b c : key) :
  before_or_equal a b -> before_or_equal b c -> before_or_equal a c.
Proof.
  destruct a as [[d1 p1] n1], b as [[d2 p2] n2], c as [[d3 p3] n3].
  unfold before_or_equal.
  intros [Hd1 | [-> Hr1]] [Hd2 | [-> Hr2]].
  - left. eapply date_key_compare_trans; eassumption.
  - now left.
  - now left.
  - right. split; [reflexivity |].
    destruct Hr1 as [Hp1 | [-> Hn1]], Hr2 as [Hp2 | [-> Hn2]].
    + left. eapply string_compare_trans; eassumption.
    + now left.
    + now left.
    + right. split; [reflexivity | lia].
Qed.

Lemma key_compare_antisym (a b : key) :
  key_compare a b = CompOpp (key_compare b a).
Proof.
  destruct a as [[d1 p1] n1], b as [[d2 p2] n2]. unfold key_compare.
  rewrite (date_key_compare_antisym d1 d2).
  destruct (date_key_compare d2 d1); simpl; try reflexivity.
  rewrite (String.compare_antisym p1 p2).
  destruct (String.compare p2 p1); simpl; try reflexivity.
  apply Z.compare_antisym.
Qed.

Lemma key_leb_total (a b : key) : key_leb a b = false -> key_leb b a = true.
Proof.
  unfold key_leb. rewrite (key_compare_antisym b a).
  destruct (key_compare a b); simpl; congruence.
Qed.

Section SortFacts.
Context {A : Type}.
Variable leb : A -> A -> bool.
Hypothesis leb_total : forall a b, leb a b = false -> leb b a = true.
Hypothesis leb_trans :
  forall a b c, leb a b = true -> leb b c = true -> leb a c = true.

Let R (a b : A) : Prop := leb a b = true.

Lemma insert_perm (x : A) (l : list A) : Permutation (x :: l) (insert leb x l).
Proof.
  induction l as [| y l IH]; simpl; [apply Permutation_refl |].
  destruct (leb x y); [apply Permutation_refl |].
  apply perm_trans with (y :: x :: l); [apply perm_swap |].
  apply perm_skip, IH.
Qed.

Lemma stable_sort_perm (l : list A) : Permutation l (stable_sort leb l).
Proof.
  induction l as [| x l IH]; simpl; [apply perm_nil |].
  apply perm_trans with (x :: stable_sort leb l);
    [apply perm_skip, IH | apply insert_perm].
Qed.

Lemma insert_sorted (x : A) (l : list A) :
  StronglySorted R l -> StronglySorted R (insert leb x l).
Proof.
  induction l as [| y l IH]; intros Hs; simpl.
  - constructor; constructor.
  - inversion Hs as [| y' l' Hl Hy]; subst.
    destruct (leb x y) eqn:Hxy.
    + constructor; [exact Hs |].
      constructor; [exact Hxy |].
      eapply Forall_impl; [| exact Hy].
      intros z Hz. exact (leb_trans _ _ _ Hxy Hz).
    + constructor; [apply IH, Hl |].
      apply (Permutation_Forall (insert_perm x l)).
      constructor; [apply leb_total, Hxy | exact Hy].
Qed.

Lemma stable_sort_sorted (l : list A) : StronglySorted R (stable_sort leb l).
Proof.
  induction l as [| x l IH]; simpl; [constructor | apply insert_sorted, IH].
Qed.
End SortFacts.

Lemma keyed_spec (l : list log) (ks : list (key * log)) :
  keyed l = OK ks ->
  map snd ks = l /\ Forall (fun p => sort_key (snd p) = OK (fst p)) ks.
Proof.
  revert ks. induction l as [| x l IH]; intros ks; simpl.
  - intros H; inversion H; subst. split; constructor.
  - destruct (sort_key x) as [k |] eqn:Hk; simpl; [| discriminate].
    destruct (keyed l) as [ks0 |]; simpl; [| discriminate].
    intros H; inversion H; subst.
    destruct (IH ks0 eq_refl) as [Hm Hf].
    split; [simpl; f_equal; exact Hm | constructor; [exact Hk | exact Hf]].
Qed.

Lemma sorted_entries (ks : list (key * log)) :
  Forall (fun p => sort_key (snd p) = OK (fst p)) ks ->
  StronglySorted (fun a b => by_key a b = true) ks ->
  StronglySorted in_order (map snd ks).
Proof.
  intros Hk Hs. induction Hs as [| a ks Hs IH Ha]; simpl; [constructor |].
  inversion Hk as [| a' ks' Hka Hks]; subst.
  constructor; [apply IH, Hks |].
  apply Forall_map. rewrite Forall_forall in *.
  intros b Hb. exists (fst a), (fst b).
  repeat split; [exact Hka | apply Hks, Hb |].
  apply key_leb_spec, Ha, Hb.
Qed.

(** The sort leaves the entries it was given, in order. *)
Lemma sort_logs_sorted (l l' : list log) :
  sort_logs l = OK l' -> StronglySorted in_order l' /\ Permutation l l'.
Proof.
  unfold sort_logs.
  destruct (keyed l) as [ks |] eqn:Hks; simpl; [| discriminate].
  destruct (comparable (map fst ks)); [| discriminate].
  intros H; inversion H; subst; clear H.
  destruct (keyed_spec l ks Hks) as [Hm Hf].
  fold by_key.
  assert (Hp : Permutation ks (stable_sort by_key ks)) by apply stable_sort_perm.
  split.
  - apply sorted_entries.
    + exact (Permutation_Forall Hp Hf).
    + apply stable_sort_sorted.
      * intros a b. apply key_leb_total.
      * intros a b c Hab Hbc. unfold by_key in *.
        apply key_leb_spec. apply key_leb_spec in Hab, Hbc.
        eapply before_or_equal_trans; eassumption.
  - rewrite <- Hm. apply Permutation_map, Hp.
Qed.

(** ** What a ticket looks like *)

Lemma star_loop_class_gen {R : Type} (p : ascii -> bool)
    (body : string -> Re.groups -> Re.cont -> option R) :
  (forall s g k,
      body s g k = match s with
                   | String c s' => if p c then k s' g else None
                   | EmptyString => None
                   end) ->
  forall (fuel : nat) (s : string) (g : Re.groups) (k : Re.cont) (x : R),
    Re.star_loop body fuel s g k = Some x ->
    exists pre rest,
      s = pre ++ rest /\ all_in p pre = true /\ k rest g = Some x.
Proof.
  intros Hbody fuel. induction fuel as [| fuel IH]; intros s g k x; simpl.
  - intros H. exists "", s. auto.
  - rewrite Hbody. destruct s as [| c s'].
    + intros H. exists "", "". auto.
    + destruct (p c) eqn:Hc; [| intros H; exists "", (String c s'); auto].
      destruct (String.length s' <? String.length (String c s'))%nat;
        [| intros H; exists "", (String c s'); auto].
      destruct (Re.star_loop body fuel s' g k) as [y |] eqn:Hl;
        [| intros H; exists "", (String c s'); auto].
      intros H; inversion H; subst.
      destruct (IH _ _ _ _ Hl) as (pre & rest & -> & Hp & Hk).
      exists (String c pre), rest. simpl. rewrite Hc. auto.
Qed.

Lemma star_loop_class {R : Type} (whole : string) (p : ascii -> bool)
    (fuel : nat) (s : string) (g : Re.groups) (k : Re.cont) (x : R) :
  Re.star_loop (Re.run whole (Re.Cls p)) fuel s g k = Some x ->
  exists pre rest,
    s = pre ++ rest /\ all_in p pre = true /\ k rest g = Some x.
Proof. apply star_loop_class_gen. reflexivity. Qed.

Lemma length_append (a b : string) :
  String.length (a ++ b) = (String.length a + String.length b)%nat.
Proof. induction a as [| x a IH]; simpl; [reflexivity | rewrite IH; reflexivity]. Qed.

Lemma taken_prefix (p r : string) : Re.taken (p ++ r) r = p.
Proof.
  unfold Re.taken.
  replace (String.length (p ++ r) - String.length r)%nat with (String.length p)
    by (rewrite length_append; lia).
  induction p as [| c p IH]; simpl.
  - destruct r; reflexivity.
  - f_equal. exact IH.
Qed.

Lemma append_assoc (a b c : string) : (a ++ b) ++ c = a ++ (b ++ c).
Proof. induction a as [| x a IH]; simpl; [reflexivity | f_equal; exact IH]. Qed.

Section TicketPattern.
Local Opaque Ascii.eqb.

(** A text the ticket pattern matches: a letter, letters or digits, a
    hyphen, digits; the match is all of it but a final line feed. *)
Lemma ticket_match_shape (s : string) (m : Re.match_obj) :
  Re.re_match Patterns.ticket_match_re s = Some m ->
  exists c pre d ds,
    Re.group0 m = String c (pre ++ String "-" (String d ds))
    /\ Text.is_alpha c = true
    /\ all_in Text.is_alnum pre = true
    /\ pre <> ""
    /\ all_in Text.is_digit (String d ds) = true.
Proof.
  unfold Re.re_match, Patterns.ticket_match_re, Re.Plus, Re.Digit, Re.Chr.
  simpl Re.run. rewrite Nat.eqb_refl.
  destruct s as [| c s1]; [discriminate |].
  destruct (Text.is_alpha c) eqn:Hc; [| discriminate].
  destruct s1 as [| c2 s2]; cbv beta iota; [discriminate |].
  destruct (Text.is_alnum c2) eqn:Hc2; [| discriminate].
  intros H. apply (star_loop_class_gen Text.is_alnum) in H; [| reflexivity].
  destruct H as (pre & s3 & -> & Hpre & H). cbv beta in H.
  destruct s3 as [| h s4]; [discriminate |].
  destruct (Ascii.eqb "-" h) eqn:Hh; [| discriminate].
  apply Ascii.eqb_eq in Hh. subst h.
  destruct s4 as [| d s5]; [discriminate |].
  destruct (Text.is_digit d) eqn:Hd; [| discriminate].
  apply (star_loop_class_gen Text.is_digit) in H; [| reflexivity].
  destruct H as (ds & s6 & -> & Hds & H). cbv beta in H.
  exists c, (String c2 pre), d, ds.
  assert (Hg : Re.group0 m = String c (String c2 pre ++ String "-" (String d ds))).
  { assert (Ht : Re.taken
                   (String c (String c2 (pre ++ String "-" (String d (ds ++ s6)))))
                   s6
                 = String c (String c2 pre ++ String "-" (String d ds))).
    { replace (String c (String c2 (pre ++ String "-" (String d (ds ++ s6)))))
        with (String c (String c2 pre ++ String "-" (String d ds)) ++ s6).
      - apply taken_prefix.
      - simpl. do 2 f_equal. rewrite append_assoc. reflexivity. }
    destruct s6 as [| n s7].
    - injection H as Hm. rewrite <- Hm. exact Ht.
    - destruct s7; [| discriminate].
      destruct (Ascii.eqb n "010"); [| discriminate].
      injection H as Hm. rewrite <- Hm. exact Ht. }
  split; [exact Hg |]. split; [exact Hc |].
  split; [simpl; rewrite Hc2; exact Hpre |].
  split; [discriminate |].
  simpl. rewrite Hd. exact Hds.
Qed.
End TicketPattern.

Lemma upper_append (a b : string) :
  Text.upper (a ++ b) = Text.upper a ++ Text.upper b.
Proof. induction a as [| x a IH]; simpl; [reflexivity | rewrite IH; reflexivity]. Qed.

Lemma alnum_upper_facts (c : ascii) :
  Text.is_alnum c = true -> not_hyphen (Text.upper_char c) = true.
Proof.
  intros H. destruct c as [b0 b1 b2 b3 b4 b5 b6 b7].
  destruct b0, b1, b2, b3, b4, b5, b6, b7;
    try (vm_compute in H; discriminate H); vm_compute; reflexivity.
Qed.

Lemma digit_upper_facts (c : ascii) :
  Text.is_digit c = true ->
  Text.upper_char c = c /\ not_hyphen c = true /\ not_space c = true
  /\ Ascii.eqb c "+" = false.
Proof.
  intros H. destruct c as [b0 b1 b2 b3 b4 b5 b6 b7].
  destruct b0, b1, b2, b3, b4, b5, b6, b7;
    try (vm_compute in H; discriminate H); vm_compute; auto.
Qed.

Lemma all_in_impl (p q : ascii -> bool) (s : string) :
  (forall c, p c = true -> q c = true) -> all_in p s = true -> all_in q s = true.
Proof.
  intros Hpq. induction s as [| c s IH]; simpl; [reflexivity |].
  intros H. apply andb_true_iff in H. destruct H as [Hc Hs].
  rewrite (Hpq c Hc), (IH Hs). reflexivity.
Qed.

Lemma upper_alnum_no_hyphen (s : string) :
  all_in Text.is_alnum s = true -> all_in not_hyphen (Text.upper s) = true.
Proof.
  induction s as [| c s IH]; simpl; [reflexivity |].
  intros H. apply andb_true_iff in H. destruct H as [Hc Hs].
  rewrite (alnum_upper_facts c Hc), (IH Hs). reflexivity.
Qed.

Lemma upper_digits (s : string) :
  all_in Text.is_digit s = true -> Text.upper s = s.
Proof.
  induction s as [| c s IH]; simpl; [reflexivity |].
  intros H. apply andb_true_iff in H. destruct H as [Hc Hs].
  destruct (digit_upper_facts c Hc) as [-> _]. rewrite (IH Hs). reflexivity.
Qed.

Lemma split_at_none (s : string) :
  all_in not_hyphen s = true -> Text.split_at "-" s = (s, None).
Proof.
  induction s as [| c s IH]; simpl; [reflexivity |].
  intros H. apply andb_true_iff in H. destruct H as [Hc Hs].
  unfold not_hyphen in Hc. apply negb_true_iff in Hc. rewrite Hc, (IH Hs).
  reflexivity.
Qed.

Lemma split_at_some (p r : string) :
  all_in not_hyphen p = true ->
  Text.split_at "-" (p ++ String "-" r) = (p, Some r).
Proof.
  induction p as [| c p IH]; simpl; [reflexivity |].
  intros H. apply andb_true_iff in H. destruct H as [Hc Hs].
  unfold not_hyphen in Hc. apply negb_true_iff in Hc. rewrite Hc, (IH Hs).
  reflexivity.
Qed.

Lemma rstrip_no_space (s : string) :
  all_in not_space s = true -> Text.rstrip s = s.
Proof.
  induction s as [| c s IH]; simpl; [reflexivity |].
  intros H. apply andb_true_iff in H. destruct H as [Hc Hs].
  unfold not_space in Hc. apply negb_true_iff in Hc. rewrite Hc, (IH Hs).
  reflexivity.
Qed.

Lemma int_body_digits (s : string) (b : bool) (acc : Z) :
  all_in Text.is_digit s = true ->
  (b = true \/ s <> "") ->
  Text.int_body b acc s = Some (Text.digits_val acc s).
Proof.
  revert b acc. induction s as [| c s IH]; intros b acc; simpl.
  - intros _ [-> | H]; [reflexivity | congruence].
  - intros H _. apply andb_true_iff in H. destruct H as [Hc Hs].
    rewrite Hc. apply IH; auto.
Qed.

Lemma int_digits (d : ascii) (ds : string) :
  all_in Text.is_digit (String d ds) = true ->
  Text.int (String d ds) = Some (Text.digits_val 0 (String d ds)).
Proof.
  intros H.
  assert (Hs : Text.strip (String d ds) = String d ds).
  { unfold Text.strip.
    assert (Hn : all_in not_space (String d ds) = true).
    { apply (all_in_impl Text.is_digit); [| exact H].
      intros c Hc. apply (digit_upper_facts c Hc). }
    simpl in H. apply andb_true_iff in H. destruct H as [Hd _].
    destruct (digit_upper_facts d Hd) as (_ & _ & Hsp & _).
    unfold not_space in Hsp. apply negb_true_iff in Hsp.
    simpl Text.lstrip. rewrite Hsp. apply rstrip_no_space, Hn. }
  unfold Text.int. rewrite Hs.
  pose proof H as H'. simpl in H'. apply andb_true_iff in H'. destruct H' as [Hd _].
  rewrite <- (int_body_digits (String d ds) false 0 H) by (right; discriminate).
  destruct d as [b0 b1 b2 b3 b4 b5 b6 b7].
  destruct b0, b1, b2, b3, b4, b5, b6, b7;
    try (vm_compute in Hd; discriminate Hd); reflexivity.
Qed.

(** The ticket of an entry can always be keyed. *)
Lemma ticket_sort_key (s t : string) (d : option date) (desc : string) (h m : Z) :
  parse_ticket s = OK t ->
  exists p n,
    sort_key {| log_date := d; ticket := t; description := desc;
                hours := h; minutes := m |} = OK (d, p, n).
Proof.
  unfold parse_ticket.
  destruct (Re.re_match Patterns.ticket_match_re s) as [mo |] eqn:Hm; [| discriminate].
  intros H; inversion H; subst; clear H.
  destruct (ticket_match_shape s mo Hm) as (c & pre & dg & ds & -> & Hc & Hpre & Hne & Hds).
  assert (Ht : Text.upper (String c (pre ++ String "-" (String dg ds)))
               = String (Text.upper_char c) (Text.upper pre) ++ String "-" (String dg ds)).
  { simpl. f_equal. rewrite upper_append. simpl. f_equal.
    pose proof (upper_digits _ Hds) as Hu. simpl in Hu. rewrite Hu. reflexivity. }
  rewrite Ht.
  assert (Hnh : all_in not_hyphen (String (Text.upper_char c) (Text.upper pre)) = true).
  { simpl. rewrite alnum_upper_facts, upper_alnum_no_hyphen; auto.
    unfold Text.is_alnum. rewrite Hc. reflexivity. }
  assert (Hnd : all_in not_hyphen (String dg ds) = true).
  { apply (all_in_impl Text.is_digit); [| exact Hds].
    intros x Hx. apply (digit_upper_facts x Hx). }
  exists (String (Text.upper_char c) (Text.upper pre)), (Text.digits_val 0 (String dg ds)).
  unfold sort_key, Text.split_all. cbn [ticket log_date].
  set (t := String (Text.upper_char c) (Text.upper pre) ++ String "-" (String dg ds)).
  assert (Hlen : exists n, String.length t = S (S n)).
  { unfold t. simpl. destruct (Text.upper pre ++ String "-" (String dg ds)) eqn:E.
    - destruct (Text.upper pre); discriminate E.
    - simpl. eauto. }
  destruct Hlen as [n ->].
  cbn [Text.split]. unfold t. rewrite (split_at_some _ _ Hnh).
  cbn [Text.split]. rewrite (split_at_none _ Hnd).
  simpl. rewrite (int_digits dg ds Hds). reflexivity.
Qed.

(** ** Every file that parses is sorted *)

Lemma parse_time_log_line_ticket (w : env) (line : string) (st st1 : state)
    (t : string) (tm : Z * Z) (desc : string) :
  parse_time_log_line w line st = (OK (t, tm, desc), st1) ->
  exists s, parse_ticket s = OK t.
Proof.
  unfold parse_time_log_line, bind, lift, get, ret.
  destruct (parse_ticket _) as [t0 |] eqn:Ht; [| discriminate].
  destruct (parse_time _) as [tm0 |]; [| discriminate].
  destruct (parse_only (self st)).
  - intros H; inversion H; subst. eauto.
  - destruct (assert_ticket_exists w t0 st) as [[u | e] st2]; [| discriminate].
    intros H; inversion H; subst. eauto.
Qed.

Lemma time_entry_ready (w : env) (line : string) (st st' : state) :
  Forall sortable (logs (cls st)) ->
  current_date (self st) <> None ->
  parse_line_time_log w line st = (OK tt, st') ->
  ready st'.
Proof.
  intros Hlogs Hcur. rewrite parse_line_time_log_eq.
  destruct (parse_time_log_line w (normalize line) st)
    as [[[[t tm] desc] | e] st1] eqn:Ht; [| discriminate].
  destruct (parse_time_log_line_frame w _ _ _ _ Ht) as [Hself Hl].
  destruct (parse_time_log_line_ticket w _ _ _ _ _ _ Ht) as [s Hs].
  intros H; inversion H; subst; clear H. split; simpl.
  - rewrite Hl, Hself. apply Forall_app. split; [exact Hlogs |].
    constructor; [| constructor]. split; simpl; [| exact Hcur].
    exact (ticket_sort_key s t _ desc (fst tm) (snd tm) Hs).
  - intros _. rewrite Hself. exact Hcur.
Qed.

Lemma date_heading_ready (line : string) (st st' : state) :
  Forall sortable (logs (cls st)) ->
  parse_line_date line st = (OK tt, st') ->
  ready st'.
Proof.
  intros Hlogs. rewrite parse_line_date_eq.
  destruct (parse_date_line _ _) as [d |]; [| discriminate].
  intros H; inversion H; subst. split; simpl; [exact Hlogs | discriminate].
Qed.

Lemma parse_line_ready (w : env) (line : string) (st st' : state) :
  ready st -> parse_line w line st = (OK tt, st') -> ready st'.
Proof.
  intros [Hlogs Hcur].
  destruct (mode (self st)) eqn:Hmode.
  - rewrite (parse_line_in_date w line st Hmode).
    apply date_heading_ready, Hlogs.
  - rewrite (parse_line_in_time_log w line st Hmode).
    apply time_entry_ready; [exact Hlogs | apply Hcur; discriminate].
  - rewrite (parse_line_in_either w line st Hmode).
    destruct (parse_line_date line (with_mode date_mode st)) as [[[] | e1] st1] eqn:Hd.
    + intros H; inversion H; subst.
      apply (date_heading_ready line (with_mode date_mode st)); [exact Hlogs | exact Hd].
    + rewrite parse_line_date_eq in Hd.
      destruct (parse_date_line _ _); [discriminate |].
      inversion Hd; subst; clear Hd.
      destruct (parse_line_time_log w line _) as [[[] | e2] st2] eqn:Ht;
        [| discriminate].
      intros H; inversion H; subst.
      apply (time_entry_ready w line (with_mode time_log (with_mode date_mode st)));
        [exact Hlogs | apply Hcur; discriminate | exact Ht].
Qed.

Lemma load_lines_ready (w : env) (lines : list string) (n : Z) (st st' : state) :
  ready st -> load_lines w n lines st = (OK tt, st') -> ready st'.
Proof.
  revert n st. induction lines as [| l lines IH]; intros n st Hr.
  - simpl. unfold ret. intros H; inversion H; subst. exact Hr.
  - rewrite load_lines_cons.
    destruct (Text.is_empty (Text.strip l)); [apply IH, Hr |].
    destruct (parse_line w l st) as [[[] | e] st1] eqn:Hl; [| discriminate].
    apply IH. exact (parse_line_ready w l st st1 Hr Hl).
Qed.

Lemma keyed_sortable (l : list log) :
  Forall sortable l ->
  exists ks,
    keyed l = OK ks
    /\ forallb has_date (map fst ks) = true.
Proof.
  induction 1 as [| x l [(p & n & Hk) Hd] Hl (ks & Hks & Hall)]; simpl.
  - exists []. split; reflexivity.
  - rewrite Hk, Hks. simpl. eexists. split; [reflexivity |].
    simpl. unfold has_date at 1. simpl. destruct (log_date x); [exact Hall | congruence].
Qed.

Lemma sort_logs_total (l : list log) :
  Forall sortable l -> exists l', sort_logs l = OK l'.
Proof.
  intros H. destruct (keyed_sortable l H) as (ks & Hks & Hall).
  unfold sort_logs. rewrite Hks. unfold rbind, comparable. rewrite Hall.
  simpl. eauto.
Qed.

(** From a class that holds no entry yet, a file whose lines all parse is
    loaded and sorted. *)
Lemma load_logs_total (w : env) (lines : list string) (po : bool) (stl : state) :
  load_lines w 0 lines {| cls := class_body; self := new_self w po |}
  = (OK tt, stl) ->
  exists st',
    load_logs w lines {| cls := class_body; self := new_self w po |}
    = (OK tt, st').
Proof.
  intros H.
  assert (Hr : ready stl).
  { apply (load_lines_ready w lines 0 _ _) in H; [exact H |].
    split; simpl; [constructor | congruence]. }
  destruct (sort_logs_total _ (proj1 Hr)) as [l' Hl'].
  unfold load_logs, bind, get, lift, set_logs. rewrite H, Hl'. eauto.
Qed.

(** ** Decimal hours *)

(** C5.  The three examples of the claim hold: ["1.999h"] is 1h 59m, and
    ["1.5h"] and ["1h30m"] are both 1h 30m.  The rule of the claim does
    not hold for every decimal text, because the text is first rounded to
    a binary64 number: ["1.2h"] is read as 1h 11m and ["1.15h"] as 1h 8m,
    where the written numbers give 12 and 9 minutes, and a text just below
    one hour is read as one hour. *)
Lemma C5_decimal_hours_binary_rounding :
  (parse_time "1.999h" = OK (1, 59)
   /\ parse_time "1.5h" = OK (1, 30)
   /\ parse_time "1h30m" = OK (1, 30))
  /\ (parse_time "1.2h" = OK (1, 11)
      /\ written_duration "1.2" = Some (1, 12))
  /\ (parse_time "1.15h" = OK (1, 8)
      /\ written_duration "1.15" = Some (1, 9))
  /\ (parse_time "0.99999999999999999h" = OK (1, 0)
      /\ written_duration "0.99999999999999999" = Some (0, 59)).
Proof. repeat split; vm_compute; reflexivity. Qed.

Lemma In_below (n : nat) (z : Z) :
  0 <= z < Z.of_nat n -> In z (TwoDecimals.below n).
Proof.
  intros H. unfold TwoDecimals.below. apply in_map_iff.
  exists (Z.to_nat z). split; [lia |]. apply in_seq. lia.
Qed.

Lemma two_decimals_close :
  forallb (fun h => forallb (TwoDecimals.close h) (TwoDecimals.below 100))
    (TwoDecimals.below 100) = true.
Proof. vm_compute. reflexivity. Qed.

(** How far the two are apart on the texts [H.FF], hours below one
    hundred: the hours agree, and the minutes are those of the written
    number or one less. *)
Lemma two_decimals_accuracy (h f : Z) :
  0 <= h < 100 -> 0 <= f < 100 ->
  exists m,
    hours_minutes (TwoDecimals.text h f) = OK (h, m)
    /\ (m = 60 * f / 100 \/ m = 60 * f / 100 - 1).
Proof.
  intros Hh Hf.
  pose proof two_decimals_close as H. rewrite forallb_forall in H.
  specialize (H h (In_below 100 h Hh)). rewrite forallb_forall in H.
  specialize (H f (In_below 100 f Hf)). unfold TwoDecimals.close in H.
  destruct (hours_minutes (TwoDecimals.text h f)) as [[hh mm] | e]; [| discriminate].
  apply andb_true_iff in H. destruct H as [H1 H2].
  apply Z.eqb_eq in H1. subst hh. exists mm. split; [reflexivity |].
  apply orb_true_iff in H2. destruct H2 as [H2 | H2]; apply Z.eqb_eq in H2; auto.
Qed.

(** * Further properties *)

(** ** Blank lines *)

Lemma load_lines_error_shape (w : env) (lines : list string) (n : Z) (st st' : state) (e : exn) :
  load_lines w n lines st = (Raise e, st') -> exists k e', e = ErrorOnLine k e'.
Proof.
  intros H. destruct (load_lines_raise w _ _ _ _ _ H) as (pre & line & rest & cause & stp & _ & -> & _).
  eauto.
Qed.

Lemma load_lines_skip_blank (w : env) (lines : list string) (n n' : Z) (st : state) :
  forget_line_no (load_lines w n lines st)
  = forget_line_no
      (load_lines w n' (filter (fun l => negb (blank l)) lines) st).
Proof.
  revert n n' st. induction lines as [| l lines IH]; intros n n' st; [reflexivity |].
  rewrite load_lines_cons. simpl filter. unfold blank at 1.
  destruct (Text.is_empty (Text.strip l)) eqn:Hb; simpl negb; cbv iota.
  - apply IH.
  - rewrite load_lines_cons, Hb.
    destruct (parse_line w l st) as [[[] | e] st1]; [apply IH | reflexivity].
Qed.

Lemma forget_ok (r : result unit * state) (st : state) :
  forget_line_no r = (OK tt, st) -> r = (OK tt, st).
Proof.
  destruct r as [[[] | e] s]; simpl; [tauto |].
  destruct e; discriminate.
Qed.

(** X1.  Blank lines do not count: a file and the same file without its
    blank lines load alike, with the same entries, the same state and the
    same failure, the number of the failing line apart. *)
Theorem X1_blank_lines_ignored (w : env) (lines : list string) (st : state) :
  forget_line_no (load_logs w lines st)
  = forget_line_no (load_logs w (filter (fun l => negb (blank l)) lines) st).
Proof.
  pose proof (load_lines_skip_blank w lines 0 0 st) as H.
  unfold load_logs, bind.
  destruct (load_lines w 0 lines st) as [[[] | e] s] eqn:Ha.
  - simpl in H. symmetry in H. apply forget_ok in H. rewrite H. reflexivity.
  - destruct (load_lines_error_shape w _ _ _ _ _ Ha) as (k & e' & ->).
    destruct (load_lines w 0 (filter _ lines) st) as [[[] | e2] s2] eqn:Hb.
    + simpl in H. discriminate H.
    + destruct (load_lines_error_shape w _ _ _ _ _ Hb) as (k2 & e2' & ->).
      simpl in H. simpl. exact H.
Qed.

(** ** The order of headings and entries *)

(** A line that is read as a time entry is not of the shape of a date. *)
Lemma entry_not_heading (w : env) (raw : string) (st st1 : state)
    (r : string * (Z * Z) * string) (c : clock) :
  parse_time_log_line w (normalize raw) st = (OK r, st1) ->
  parse_date_line c (normalize raw) = Raise PatternNotMatched.
Proof.
  intros H. apply parse_date_line_mismatch.
  destruct (Re.re_match Patterns.date_re (normalize raw)) as [m |] eqn:Hm;
    [| reflexivity].
  destruct (date_match_first_digit raw m Hm) as (ch & s & Hn & Hd).
  rewrite Hn, (digit_line_no_ticket w ch s st Hd) in H. discriminate H.
Qed.

(** What a line that parses does to the state. *)
Lemma parse_line_ok (w : env) (line : string) (st st' : state) :
  parse_line w line st = (OK tt, st') ->
  match parse_date_line (now (self st)) (normalize line) with
  | OK d =>
      mode (self st) <> time_log
      /\ st' = with_mode time_log (with_current_date d st)
  | Raise e =>
      mode (self st) <> date_mode
      /\ e = PatternNotMatched
      /\ exists t tm desc st1,
           parse_time_log_line w (normalize line) st = (OK (t, tm, desc), st1)
           /\ st' = with_mode date_or_time_log
                      (with_logs (logs (cls st)
                                  ++ [ {| log_date := current_date (self st);
                                          ticket := t; description := desc;
                                          hours := fst tm; minutes := snd tm |} ])
                                 st1)
  end.
Proof.
  assert (Hentry : forall st0 st2,
             parse_line_time_log w line st0 = (OK tt, st2) ->
             parse_date_line (now (self st)) (normalize line) = Raise PatternNotMatched
             /\ exists t tm desc st1,
                 parse_time_log_line w (normalize line) st0 = (OK (t, tm, desc), st1)
                 /\ st2 = with_mode date_or_time_log
                            (with_logs (logs (cls st0)
                                        ++ [ {| log_date := current_date (self st0);
                                                ticket := t; description := desc;
                                                hours := fst tm; minutes := snd tm |} ])
                                       st1)).
  { intros st0 st2. rewrite parse_line_time_log_eq.
    destruct (parse_time_log_line w (normalize line) st0)
      as [[[[t tm] desc] | e] st1] eqn:Ht; [| discriminate].
    destruct (parse_time_log_line_frame w _ _ _ _ Ht) as [Hself Hlogs].
    intros H; inversion H; subst; clear H.
    split; [exact (entry_not_heading w line st0 st1 _ _ Ht) |].
    exists t, tm, desc, st1. rewrite Hself, Hlogs. auto. }
  destruct (mode (self st)) eqn:Hmode.
  - rewrite (parse_line_in_date w line st Hmode), parse_line_date_eq.
    destruct (parse_date_line _ _) as [d |]; [| discriminate].
    intros H; inversion H; subst. split; [discriminate | reflexivity].
  - rewrite (parse_line_in_time_log w line st Hmode).
    intros H. destruct (Hentry _ _ H) as (Hd & Hex). rewrite Hd.
    split; [discriminate |]. split; [reflexivity | exact Hex].
  - rewrite (parse_line_in_either w line st Hmode), parse_line_date_eq.
    simpl now.
    destruct (parse_date_line (now (self st)) (normalize line)) as [d | e1] eqn:Hd.
    + intros H; inversion H; subst. split; [discriminate | reflexivity].
    + destruct (parse_line_time_log w line _) as [[[] | e2] st2] eqn:Ht;
        [| discriminate].
      intros H; inversion H; subst; clear H.
      destruct (Hentry _ _ Ht) as (Hd' & t & tm & desc & st1 & Hp & ->).
      inversion Hd'; subst.
      split; [discriminate |]. split; [reflexivity |].
      change (with_mode time_log (with_mode date_mode st))
        with (with_mode time_log st) in Hp.
      rewrite parse_time_log_line_mode in Hp.
      destruct (parse_time_log_line w (normalize line) st)
        as [r0 st10] eqn:Hp0.
      inversion Hp; subst; clear Hp.
      exists t, tm, desc, st10. split; reflexivity.
Qed.

Lemma load_lines_blank_prefix (w : env) (blanks rest : list string) (n : Z) (st : state) :
  forallb blank blanks = true ->
  load_lines w n (blanks ++ rest) st
  = load_lines w (n + Z.of_nat (List.length blanks)) rest st.
Proof.
  revert n. induction blanks as [| b blanks IH]; intros n Hb.
  - simpl. rewrite Z.add_0_r. reflexivity.
  - simpl in Hb. apply andb_true_iff in Hb. destruct Hb as [Hb Hbs].
    rewrite <- app_comm_cons, load_lines_cons. unfold blank in Hb. rewrite Hb.
    rewrite (IH (n + 1) Hbs). f_equal. simpl List.length. lia.
Qed.

Lemma heading_match (c : clock) (raw : string) (d : date) :
  parse_date_line c (normalize raw) = OK d ->
  exists m, Re.re_match Patterns.date_re (normalize raw) = Some m.
Proof.
  intros H. destruct (Re.re_match Patterns.date_re (normalize raw)) as [m |] eqn:Hm;
    [eauto |].
  apply (parse_date_line_mismatch c) in Hm. congruence.
Qed.

Lemma heading_not_blank (c : clock) (raw : string) (d : date) :
  parse_date_line c (normalize raw) = OK d -> blank raw = false.
Proof.
  intros H. destruct (heading_match c raw d H) as [m Hm].
  exact (date_match_not_blank raw m Hm).
Qed.

Lemma heading_no_entry (w : env) (c : clock) (raw : string) (d : date) (st : state) :
  parse_date_line c (normalize raw) = OK d ->
  parse_line_time_log w raw st
  = (Raise (StringInvalid raw TicketPatternNotMatched), st).
Proof.
  intros H. destruct (heading_match c raw d H) as [m Hm].
  destruct (date_match_first_digit raw m Hm) as (ch & s & Hn & Hd).
  rewrite parse_line_time_log_eq, Hn, (digit_line_no_ticket w ch s st Hd).
  reflexivity.
Qed.

Lemma date_ok_of_heading (c : clock) (line : string) (d : date) :
  parse_date_line c line = OK d -> date_ok c d.
Proof.
  unfold parse_date_line, date_ok.
  destruct (Re.re_match Patterns.date_re line) as [m |]; [| discriminate].
  destruct (group_int m "year") as [y |]; [| discriminate].
  destruct (group_int m "month") as [mo |]; [| discriminate].
  destruct (group_int m "day") as [dd |]; [| discriminate].
  simpl. unfold datetime. destruct (valid y mo dd) eqn:Hv; [| discriminate].
  simpl. destruct (after _ c) eqn:Ha; [discriminate |].
  intros H; inversion H; subst. simpl. auto.
Qed.

(** X2.  A file must begin with a date heading.  When the first line that
    is not blank is no date heading, the run fails on that line: the error
    has the number of the line in the file, blank lines counted, the line
    and the reason the date parser gave; the class is left as it was and
    nothing is printed or uploaded.  When that line is a time entry the
    reason is 'Pattern not matched'. *)
Theorem X2_file_must_start_with_heading
    (w : env) (blanks : list string) (line : string) (rest : list string)
    (po : bool) (c : class_attrs) (e : exn) :
  forallb blank blanks = true ->
  blank line = false ->
  parse_date_line (started w) (normalize line) = Raise e ->
  init w (blanks ++ line :: rest) po c
  = ({| exit := Failed (ErrorOnLine (Z.of_nat (List.length blanks) + 1)
                          (StringInvalid line e));
        printed := None; uploaded := [] |}, c)
  /\ (forall st r st1,
         parse_time_log_line w (normalize line) st = (OK r, st1) ->
         e = PatternNotMatched).
Proof.
  intros Hb Hl He. split.
  - unfold init, load_logs, bind.
    rewrite (load_lines_blank_prefix w blanks _ 0 _ Hb), load_lines_cons.
    unfold blank in Hl. rewrite Hl.
    rewrite parse_line_in_date by reflexivity.
    rewrite parse_line_date_eq. simpl now. rewrite He.
    destruct c. reflexivity.
  - intros st r st1 H.
    pose proof (entry_not_heading w line st st1 r (started w) H) as H'.
    congruence.
Qed.

Lemma X2_file_must_start_with_heading_witness :
  init Sample.world [""; "PROJ-1, 1h"] true class_body
  = ({| exit := Failed (ErrorOnLine 2
                  (StringInvalid "PROJ-1, 1h" PatternNotMatched));
        printed := None; uploaded := [] |}, class_body).
Proof.
  exact (proj1 (X2_file_must_start_with_heading Sample.world [""] "PROJ-1, 1h" []
                  true class_body PatternNotMatched
                  ltac:(reflexivity) ltac:(reflexivity)
                  ltac:(vm_compute; reflexivity))).
Defined.

(** X3.  A date heading must be followed by a time entry: a second heading
    after a heading, with or without blank lines between them, fails as a
    time entry with 'Ticket pattern not matched', and the current date is
    the one of the first heading. *)
Theorem X3_heading_after_heading_fails
    (w : env) (h1 h2 : string) (blanks rest : list string) (n : Z)
    (st : state) (d1 d2 : date) :
  mode (self st) <> time_log ->
  parse_date_line (now (self st)) (normalize h1) = OK d1 ->
  parse_date_line (now (self st)) (normalize h2) = OK d2 ->
  forallb blank blanks = true ->
  load_lines w n (h1 :: blanks ++ h2 :: rest) st
  = (Raise (ErrorOnLine (n + 2 + Z.of_nat (List.length blanks))
              (StringInvalid h2 TicketPatternNotMatched)),
     with_mode time_log (with_current_date d1 st)).
Proof.
  intros Hmode H1 H2 Hb.
  assert (Hp : parse_line w h1 st
               = (OK tt, with_mode time_log (with_current_date d1 st))).
  { destruct (mode (self st)) eqn:Hm; [| congruence |].
    - rewrite (parse_line_in_date w h1 st Hm), parse_line_date_eq, H1. reflexivity.
    - rewrite (parse_line_in_either w h1 st Hm), parse_line_date_eq. simpl now.
      rewrite H1. reflexivity. }
  rewrite load_lines_cons. pose proof (heading_not_blank _ _ _ H1) as Hn1.
  unfold blank in Hn1. rewrite Hn1, Hp.
  rewrite (load_lines_blank_prefix w blanks _ _ _ Hb), load_lines_cons.
  pose proof (heading_not_blank _ _ _ H2) as Hn2. unfold blank in Hn2. rewrite Hn2.
  rewrite parse_line_in_time_log by reflexivity.
  rewrite (heading_no_entry w _ h2 d2 _ H2).
  do 3 f_equal. lia.
Qed.

Lemma X3_heading_after_heading_fails_witness :
  load_lines Sample.world 0 ["2024-01-05"; ""; "2024-01-06"; "PROJ-1, 1h"] Fresh.st
  = (Raise (ErrorOnLine 3 (StringInvalid "2024-01-06" TicketPatternNotMatched)),
     with_mode time_log (with_current_date Sample.jan5 Fresh.st)).
Proof.
  exact (X3_heading_after_heading_fails Sample.world "2024-01-05" "2024-01-06"
           [""] ["PROJ-1, 1h"] 0 Fresh.st Sample.jan5 Sample.jan6
           ltac:(discriminate) ltac:(vm_compute; reflexivity)
           ltac:(vm_compute; reflexivity) ltac:(reflexivity)).
Defined.

(** ** The dates of the entries *)

Lemma parse_line_ok_now (w : env) (line : string) (st st' : state) :
  parse_line w line st = (OK tt, st') -> now (self st') = now (self st).
Proof.
  intros H. apply parse_line_ok in H.
  destruct (parse_date_line _ _) as [d | e].
  - destruct H as [_ ->]. reflexivity.
  - destruct H as (_ & _ & t & tm & desc & st1 & Hp & ->).
    destruct (parse_time_log_line_frame w _ _ _ _ Hp) as [Hs _].
    simpl. rewrite Hs. reflexivity.
Qed.

(** X4.  Each entry carries the date of the nearest heading above it: the
    entries a load adds come after those the class held, and their dates
    are, in the order of the lines, the date that was current at each line
    read as a time entry. *)
Theorem X4_entries_stamped
    (w : env) (lines : list string) (n : Z) (st st' : state) :
  load_lines w n lines st = (OK tt, st') ->
  exists new,
    logs (cls st') = (logs (cls st) ++ new)%list
    /\ map log_date new = stamps (now (self st)) (current_date (self st)) lines.
Proof.
  revert n st. induction lines as [| l lines IH]; intros n st.
  - simpl. unfold ret. intros H; inversion H; subst.
    exists []. rewrite app_nil_r. auto.
  - rewrite load_lines_cons. simpl stamps. unfold blank.
    destruct (Text.is_empty (Text.strip l)); [apply IH |].
    destruct (parse_line w l st) as [[[] | e] st1] eqn:Hl; [| discriminate].
    intros H. destruct (IH _ _ H) as (new & Hlogs & Hst).
    rewrite (parse_line_ok_now w l st st1 Hl) in Hst.
    apply parse_line_ok in Hl.
    destruct (parse_date_line (now (self st)) (normalize l)) as [d | e].
    + destruct Hl as [_ ->]. exists new. split; [exact Hlogs | exact Hst].
    + destruct Hl as (_ & _ & t & tm & desc & st2 & Hp & ->).
      destruct (parse_time_log_line_frame w _ _ _ _ Hp) as [Hs _].
      simpl in Hlogs, Hst. rewrite Hs in Hst.
      eexists (_ :: new). rewrite Hlogs, <- app_assoc. split; [reflexivity |].
      simpl. rewrite Hst. reflexivity.
Qed.

Lemma X4_entries_stamped_witness :
  exists new,
    logs (cls (snd (load_lines Sample.world 0 Sample.lines Fresh.st)))
    = (logs (cls Fresh.st) ++ new)%list
    /\ map log_date new
       = [Some Sample.jan5; Some Sample.jan5; Some Sample.jan6].
Proof.
  exact (X4_entries_stamped Sample.world Sample.lines 0 Fresh.st
           (snd (load_lines Sample.world 0 Sample.lines Fresh.st))
           ltac:(vm_compute; reflexivity)).
Defined.

Lemma load_lines_dated (w : env) (lines : list string) (n : Z) (st st' : state) :
  (mode (self st) <> date_mode ->
   exists d, current_date (self st) = Some d /\ date_ok (now (self st)) d) ->
  Forall (dated (now (self st))) (logs (cls st)) ->
  load_lines w n lines st = (OK tt, st') ->
  Forall (dated (now (self st))) (logs (cls st')).
Proof.
  revert n st. induction lines as [| l lines IH]; intros n st Hcur Hlogs.
  - simpl. unfold ret. intros H; inversion H; subst. exact Hlogs.
  - rewrite load_lines_cons.
    destruct (Text.is_empty (Text.strip l)); [apply IH; assumption |].
    destruct (parse_line w l st) as [[[] | e] st1] eqn:Hl; [| discriminate].
    intros H. rewrite <- (parse_line_ok_now w l st st1 Hl).
    apply (IH _ _) in H; [exact H | |];
      rewrite (parse_line_ok_now w l st st1 Hl);
      apply parse_line_ok in Hl;
      destruct (parse_date_line (now (self st)) (normalize l)) as [d | e] eqn:Hd.
    + destruct Hl as [_ ->]. intros _. exists d. split; [reflexivity |].
      exact (date_ok_of_heading _ _ _ Hd).
    + destruct Hl as (Hm & _ & t & tm & desc & st2 & Hp & ->).
      destruct (parse_time_log_line_frame w _ _ _ _ Hp) as [Hs _].
      intros _. simpl. rewrite Hs. exact (Hcur Hm).
    + destruct Hl as [_ ->]. exact Hlogs.
    + destruct Hl as (Hm & _ & t & tm & desc & st2 & Hp & ->).
      simpl. apply Forall_app. split; [exact Hlogs |].
      constructor; [| constructor].
      destruct (Hcur Hm) as (d & Hd' & Hok). exists d. simpl. auto.
Qed.

(** X5.  After a load that starts in mode 'date' every entry has a date, one
    of the calendar and not after the clock of the run, provided the
    entries the class held before have one. *)
Theorem X5_entries_dated
    (w : env) (lines : list string) (st st' : state) :
  mode (self st) = date_mode ->
  Forall (dated (now (self st))) (logs (cls st)) ->
  load_logs w lines st = (OK tt, st') ->
  Forall (dated (now (self st))) (logs (cls st')).
Proof.
  intros Hmode Hlogs. unfold load_logs, bind, get, lift, set_logs.
  destruct (load_lines w 0 lines st) as [[[] | e] stl] eqn:Hl; [| discriminate].
  destruct (sort_logs (logs (cls stl))) as [l' |] eqn:Hs; [| discriminate].
  intros H; inversion H; subst; clear H. simpl.
  destruct (sort_logs_sorted _ _ Hs) as [_ Hperm].
  apply (Permutation_Forall Hperm).
  apply (load_lines_dated w lines 0 st stl); [congruence | exact Hlogs | exact Hl].
Qed.

Lemma X5_entries_dated_witness :
  Forall (dated (started Sample.world))
    (logs (cls (snd (load_logs Sample.world Sample.lines Fresh.st)))).
Proof.
  exact (X5_entries_dated Sample.world Sample.lines Fresh.st
           (snd (load_logs Sample.world Sample.lines Fresh.st))
           ltac:(reflexivity) ltac:(constructor)
           ltac:(vm_compute; reflexivity)).
Defined.

(** ** The normal form of a ticket *)

Lemma upper_char_facts (c : ascii) :
  (Text.is_alpha c = true -> Text.is_upper (Text.upper_char c) = true)
  /\ (Text.is_alnum c = true -> is_upper_alnum (Text.upper_char c) = true)
  /\ (is_upper_alnum c = true ->
      Text.upper_char c = c /\ Text.is_alnum c = true)
  /\ (Text.is_upper c = true -> Text.is_alpha c = true).
Proof.
  destruct c as [b0 b1 b2 b3 b4 b5 b6 b7].
  destruct b0, b1, b2, b3, b4, b5, b6, b7; vm_compute; repeat split;
    try reflexivity; try discriminate; auto.
Qed.

Lemma upper_alnum_shape (s : string) :
  all_in Text.is_alnum s = true -> all_in is_upper_alnum (Text.upper s) = true.
Proof.
  induction s as [| c s IH]; simpl; [reflexivity |].
  intros H. apply andb_true_iff in H. destruct H as [Hc Hs].
  destruct (upper_char_facts c) as (_ & Hu & _).
  rewrite (Hu Hc), (IH Hs). reflexivity.
Qed.

Lemma upper_fixed (s : string) :
  all_in is_upper_alnum s = true ->
  Text.upper s = s /\ all_in Text.is_alnum s = true.
Proof.
  induction s as [| c s IH]; simpl; [auto |].
  intros H. apply andb_true_iff in H. destruct H as [Hc Hs].
  destruct (upper_char_facts c) as (_ & _ & Hu & _).
  destruct (Hu Hc) as [-> ->]. destruct (IH Hs) as [-> ->]. auto.
Qed.

Lemma parse_ticket_shape (s t : string) :
  parse_ticket s = OK t -> ticket_shape t.
Proof.
  unfold parse_ticket.
  destruct (Re.re_match Patterns.ticket_match_re s) as [mo |] eqn:Hm; [| discriminate].
  intros H; inversion H; subst; clear H.
  destruct (ticket_match_shape s mo Hm) as (c & pre & dg & ds & -> & Hc & Hpre & Hne & Hds).
  exists (Text.upper_char c), (Text.upper pre), dg, ds.
  destruct (upper_char_facts c) as (Hu & _).
  split; [| split; [exact (Hu Hc) | split; [exact (upper_alnum_shape _ Hpre) | split; [| exact Hds]]]].
  - simpl. f_equal. rewrite upper_append. simpl. f_equal.
    pose proof (upper_digits _ Hds) as Hd. simpl in Hd. rewrite Hd. reflexivity.
  - destruct pre; [congruence | discriminate].
Qed.

Lemma star_loop_class_greedy {R : Type} (p : ascii -> bool)
    (body : string -> Re.groups -> Re.cont -> option R) :
  (forall s g k,
      body s g k = match s with
                   | String c s' => if p c then k s' g else None
                   | EmptyString => None
                   end) ->
  forall (pre rest : string) (fuel : nat) (g : Re.groups) (k : Re.cont) (x : R),
    all_in p pre = true ->
    match rest with
    | String c _ => p c = false
    | EmptyString => True
    end ->
    (String.length pre <= fuel)%nat ->
    k rest g = Some x ->
    Re.star_loop body fuel (pre ++ rest) g k = Some x.
Proof.
  intros Hbody pre. induction pre as [| c pre IH]; intros rest fuel g k x Hp Hr Hf Hk.
  - simpl. destruct fuel as [| fuel]; simpl; [exact Hk |].
    rewrite Hbody. destruct rest as [| c r]; [exact Hk |].
    rewrite Hr. exact Hk.
  - simpl in Hp. apply andb_true_iff in Hp. destruct Hp as [Hc Hp].
    destruct fuel as [| fuel]; [simpl in Hf; lia |].
    simpl. rewrite Hbody, Hc.
    replace (String.length (pre ++ rest) <? S (String.length (pre ++ rest)))%nat
      with true by (symmetry; apply Nat.ltb_lt; lia).
    rewrite (IH rest fuel g k x Hp Hr); [reflexivity | simpl in Hf; lia | exact Hk].
Qed.

Lemma append_empty (s : string) : s ++ "" = s.
Proof. induction s as [| c s IH]; simpl; [reflexivity | rewrite IH; reflexivity]. Qed.

Lemma taken_all (s : string) : Re.taken s "" = s.
Proof.
  pose proof (taken_prefix s "") as H. rewrite append_empty in H. exact H.
Qed.

Lemma star_loop_class_all {R : Type} (p : ascii -> bool)
    (body : string -> Re.groups -> Re.cont -> option R) :
  (forall s g k,
      body s g k = match s with
                   | String c s' => if p c then k s' g else None
                   | EmptyString => None
                   end) ->
  forall (s : string) (fuel : nat) (g : Re.groups) (k : Re.cont) (x : R),
    all_in p s = true ->
    (String.length s <= fuel)%nat ->
    k "" g = Some x ->
    Re.star_loop body fuel s g k = Some x.
Proof.
  intros Hbody s fuel g k x Hp Hf Hk.
  rewrite <- (append_empty s).
  apply (star_loop_class_greedy p body Hbody s "" fuel g k x Hp I Hf Hk).
Qed.

Section TicketComplete.
Local Opaque Ascii.eqb.

Lemma ticket_shape_match (t : string) :
  ticket_shape t -> parse_ticket t = OK t.
Proof.
  intros (c & pre & d & ds & -> & Hc & Hpre & Hne & Hds).
  destruct pre as [| c2 pre]; [congruence |].
  simpl in Hpre. apply andb_true_iff in Hpre. destruct Hpre as [Hc2 Hpre].
  pose proof Hds as Hds'. simpl in Hds'. apply andb_true_iff in Hds'.
  destruct Hds' as [Hd Hds'].
  destruct (upper_char_facts c) as (_ & _ & _ & Hal).
  destruct (upper_char_facts c2) as (_ & _ & Hu2 & _).
  destruct (Hu2 Hc2) as [Huc2 Han2].
  destruct (upper_fixed pre Hpre) as [Hupre Hanpre].
  assert (Hm : Re.re_match Patterns.ticket_match_re
                 (String c (String c2 pre ++ String "-" (String d ds)))
               = Some {| Re.group0 := String c (String c2 pre ++ String "-" (String d ds));
                         Re.named := [] |}).
  { unfold Re.re_match, Patterns.ticket_match_re, Re.Plus, Re.Digit, Re.Chr.
    simpl Re.run. rewrite Nat.eqb_refl, (Hal Hc), Han2.
    apply (star_loop_class_greedy Text.is_alnum _ (fun _ _ _ => eq_refl)
             pre (String "-" (String d ds)) _ [] _ _ Hanpre).
    - vm_compute. reflexivity.
    - rewrite length_append. lia.
    - rewrite Ascii.eqb_refl, Hd.
      apply (star_loop_class_all Text.is_digit _ (fun _ _ _ => eq_refl)
               ds _ [] _ _ Hds').
      + lia.
      + rewrite taken_all. reflexivity. }
  unfold parse_ticket. rewrite Hm. simpl Re.group0.
  f_equal. 
  assert (Hc' : is_upper_alnum c = true) by (unfold is_upper_alnum; rewrite Hc; reflexivity).
  destruct (upper_char_facts c) as (_ & _ & Hu & _). destruct (Hu Hc') as [Huc _].
  simpl. rewrite Huc, Huc2. do 2 f_equal. rewrite upper_append, Hupre. simpl.
  do 2 f_equal. pose proof (upper_digits _ Hds) as Hx. simpl in Hx.
  injection Hx as Hx1 Hx2. rewrite Hx2. 
  destruct (digit_upper_facts d Hd) as [-> _]. reflexivity.
Qed.

End TicketComplete.

(** X6.  A ticket comes out in one normal form: [upper] leaves it as it is
    and it is read as itself.  For a ticket text of ASCII characters the
    normal form is an upper-case letter, one or more upper-case letters or
    digits, a hyphen, one or more digits. *)
Theorem X6_ticket_normal_form (s t : string) :
  parse_ticket s = OK t ->
  Text.upper t = t
  /\ parse_ticket t = OK t
  /\ (ascii_text s = true -> ticket_shape t).
Proof.
  intros H. pose proof (parse_ticket_shape s t H) as Hs.
  pose proof (ticket_shape_match t Hs) as Hp.
  split; [| split; [exact Hp | intros _; exact Hs]].
  unfold parse_ticket in Hp.
  destruct (Re.re_match Patterns.ticket_match_re t) as [m |] eqn:Hm; [| discriminate].
  destruct Hs as (c & pre & d & ds & -> & Hc & Hpre & Hne & Hds).
  assert (Hc' : is_upper_alnum c = true) by (unfold is_upper_alnum; rewrite Hc; reflexivity).
  destruct (upper_char_facts c) as (_ & _ & Hu & _). destruct (Hu Hc') as [Huc _].
  destruct (upper_fixed pre Hpre) as [Hupre _].
  simpl. rewrite Huc, upper_append, Hupre. simpl. do 3 f_equal.
  pose proof (upper_digits _ Hds) as Hx. simpl in Hx. exact Hx.
Qed.

Lemma X6_ticket_normal_form_witness :
  parse_ticket "proj-1" = OK "PROJ-1"
  /\ ascii_text "proj-1" = true
  /\ Text.upper "PROJ-1" = "PROJ-1"
  /\ parse_ticket "PROJ-1" = OK "PROJ-1"
  /\ ticket_shape "PROJ-1".
Proof.
  destruct (X6_ticket_normal_form "proj-1" "PROJ-1" ltac:(vm_compute; reflexivity))
    as (Hu & Hp & Hs).
  split; [vm_compute; reflexivity |]. split; [reflexivity |].
  split; [exact Hu |]. split; [exact Hp |]. exact (Hs ltac:(reflexivity)).
Defined.

(** ** The tracker *)

Lemma existsb_eqb_In (t : string) (ts : list string) :
  existsb (String.eqb t) ts = true <-> In t ts.
Proof.
  rewrite existsb_exists. split.
  - intros (x & Hx & He). apply String.eqb_eq in He. subst. exact Hx.
  - intros H. exists t. split; [exact H | apply String.eqb_refl].
Qed.

Lemma assert_ticket_exists_ok (w : env) (t : string) (st st' : state) :
  assert_ticket_exists w t st = (OK tt, st') ->
  (In t (tickets (cls st)) /\ st' = st)
  \/ (~ In t (tickets (cls st)) /\ known w t
      /\ st' = with_tickets (tickets (cls st) ++ [t]) st).
Proof.
  unfold assert_ticket_exists, bind, get, ret, append_ticket, raise, known.
  destruct (existsb (String.eqb t) (tickets (cls st))) eqn:He.
  - intros H; inversion H; subst. left. split; [apply existsb_eqb_In, He | reflexivity].
  - destruct (issue_found w t) eqn:Hf; [| discriminate].
    intros H; inversion H; subst. right. split; [| auto].
    intros Hin. apply existsb_eqb_In in Hin. congruence.
Qed.

Lemma parse_time_log_line_checked (w : env) (s : string) (st st1 : state)
    (t : string) (tm : Z * Z) (desc : string) :
  parse_only (self st) = false ->
  Forall (known w) (tickets (cls st)) ->
  NoDup (tickets (cls st)) ->
  parse_time_log_line w s st = (OK (t, tm, desc), st1) ->
  Forall (known w) (tickets (cls st1))
  /\ NoDup (tickets (cls st1))
  /\ incl (tickets (cls st)) (tickets (cls st1))
  /\ In t (tickets (cls st1)).
Proof.
  intros Hpo Hk Hnd. unfold parse_time_log_line, bind, lift, get, ret.
  destruct (parse_ticket _) as [t0 |]; [| discriminate].
  destruct (parse_time _) as [tm0 |]; [| discriminate].
  rewrite Hpo.
  destruct (assert_ticket_exists w t0 st) as [[[] | e] st2] eqn:Ha; [| discriminate].
  intros H; inversion H; subst; clear H.
  destruct (assert_ticket_exists_ok w _ _ _ Ha) as [[Hin ->] | (Hnin & Hkn & ->)].
  - repeat split; auto. apply incl_refl.
  - simpl. repeat split.
    + apply Forall_app. split; [exact Hk | constructor; [exact Hkn | constructor]].
    + apply NoDup_app; [exact Hnd | constructor; [intros [] | constructor] | ].
      intros a Ha1 [<- | []]. exact (Hnin Ha1).
    + apply incl_appl, incl_refl.
    + apply in_or_app. right. left. reflexivity.
Qed.

Lemma parse_line_ok_parse_only (w : env) (line : string) (st st' : state) :
  parse_line w line st = (OK tt, st') ->
  parse_only (self st') = parse_only (self st).
Proof.
  intros H. apply parse_line_ok in H.
  destruct (parse_date_line _ _) as [d | e].
  - destruct H as [_ ->]. reflexivity.
  - destruct H as (_ & _ & t & tm & desc & st1 & Hp & ->).
    destruct (parse_time_log_line_frame w _ _ _ _ Hp) as [Hs _].
    simpl. rewrite Hs. reflexivity.
Qed.

(** With the tracker in use, a load that succeeds keeps the cache in
    order, and every entry it adds names a ticket of the cache. *)
Lemma load_lines_checked
    (w : env) (lines : list string) (n : Z) (st st' : state) :
  parse_only (self st) = false ->
  Forall (known w) (tickets (cls st)) ->
  NoDup (tickets (cls st)) ->
  load_lines w n lines st = (OK tt, st') ->
  Forall (known w) (tickets (cls st'))
  /\ NoDup (tickets (cls st'))
  /\ incl (tickets (cls st)) (tickets (cls st'))
  /\ exists new,
       logs (cls st') = (logs (cls st) ++ new)%list
       /\ Forall (fun l => In (ticket l) (tickets (cls st')) /\ known w (ticket l)) new.
Proof.
  revert n st. induction lines as [| l lines IH]; intros n st Hpo Hk Hnd.
  - simpl. unfold ret. intros H; inversion H; subst.
    repeat split; auto; [apply incl_refl |].
    exists []. rewrite app_nil_r. split; [reflexivity | constructor].
  - rewrite load_lines_cons.
    destruct (Text.is_empty (Text.strip l)); [apply IH; assumption |].
    destruct (parse_line w l st) as [[[] | e] st1] eqn:Hl; [| discriminate].
    intros H.
    pose proof (parse_line_ok_parse_only w l st st1 Hl) as Hpo1.
    apply parse_line_ok in Hl.
    destruct (parse_date_line (now (self st)) (normalize l)) as [d | e].
    + destruct Hl as [_ ->].
      exact (IH _ (with_mode time_log (with_current_date d st)) Hpo Hk Hnd H).
    + destruct Hl as (_ & _ & t & tm & desc & st2 & Hp & ->).
      destruct (parse_time_log_line_checked w _ _ _ _ _ _ Hpo Hk Hnd Hp)
        as (Hk2 & Hnd2 & Hincl & Hin).
      rewrite Hpo in Hpo1.
      destruct (IH _ _ Hpo1 Hk2 Hnd2 H) as (Hk' & Hnd' & Hincl' & new & Hlogs & Hnew).
      simpl in Hincl'.
      split; [exact Hk' |]. split; [exact Hnd' |].
      split; [eapply incl_tran; eassumption |].
      eexists (_ :: new). simpl in Hlogs. rewrite Hlogs, <- app_assoc.
      split; [reflexivity |].
      constructor; [| exact Hnew]. simpl.
      assert (Hin' : In t (tickets (cls st'))) by (apply Hincl', Hin).
      split; [exact Hin' |]. rewrite Forall_forall in Hk'. exact (Hk' t Hin').
Qed.

Lemma parse_time_log_line_parse_only (w w' : env) (s : string) (st : state) :
  parse_only (self st) = true ->
  parse_time_log_line w s st = parse_time_log_line w' s st
  /\ snd (parse_time_log_line w s st) = st.
Proof.
  intros Hpo. unfold parse_time_log_line, bind, lift, get, ret.
  destruct (parse_ticket _) as [t |]; [| auto].
  destruct (parse_time _) as [tm |]; [| auto].
  rewrite Hpo. auto.
Qed.

Lemma parse_line_parse_only (w w' : env) (line : string) (st : state) :
  parse_only (self st) = true ->
  parse_line w line st = parse_line w' line st
  /\ parse_only (self (snd (parse_line w line st))) = true
  /\ tickets (cls (snd (parse_line w line st))) = tickets (cls st).
Proof.
  intros Hpo.
  assert (Ht : forall st0, parse_only (self st0) = true ->
             parse_line_time_log w line st0 = parse_line_time_log w' line st0
             /\ parse_only (self (snd (parse_line_time_log w line st0))) = true
             /\ tickets (cls (snd (parse_line_time_log w line st0)))
                = tickets (cls st0)).
  { intros st0 H0. rewrite !parse_line_time_log_eq.
    destruct (parse_time_log_line_parse_only w w' (normalize line) st0 H0) as [He Hs].
    rewrite <- He.
    destruct (parse_time_log_line w (normalize line) st0)
      as [[[[t tm] desc] | e] st1]; simpl in Hs; subst st1; simpl; auto. }
  assert (Hd : forall st0, parse_only (self st0) = true ->
             parse_only (self (snd (parse_line_date line st0))) = true
             /\ tickets (cls (snd (parse_line_date line st0))) = tickets (cls st0)).
  { intros st0 H0. rewrite parse_line_date_eq.
    destruct (parse_date_line _ _); simpl; auto. }
  destruct (mode (self st)) eqn:Hmode.
  - rewrite (parse_line_in_date w line st Hmode), (parse_line_in_date w' line st Hmode).
    split; [reflexivity | apply Hd, Hpo].
  - rewrite (parse_line_in_time_log w line st Hmode),
      (parse_line_in_time_log w' line st Hmode). apply Ht, Hpo.
  - rewrite (parse_line_in_either w line st Hmode),
      (parse_line_in_either w' line st Hmode).
    destruct (Hd (with_mode date_mode st) Hpo) as [Hd1 Hd2].
    destruct (parse_line_date line (with_mode date_mode st)) as [[[] | e1] st1];
      simpl in Hd1, Hd2; [auto |].
    assert (H1 : parse_only (self (with_mode time_log st1)) = true) by exact Hd1.
    destruct (Ht _ H1) as (He & Hp & Htk). rewrite <- He.
    destruct (parse_line_time_log w line (with_mode time_log st1)) as [[[] | e2] st2];
      simpl in Hp, Htk |- *; rewrite Htk; auto.
Qed.

Lemma load_lines_parse_only (w w' : env) (lines : list string) (n : Z) (st : state) :
  parse_only (self st) = true ->
  load_lines w n lines st = load_lines w' n lines st
  /\ tickets (cls (snd (load_lines w n lines st))) = tickets (cls st).
Proof.
  revert n st. induction lines as [| l lines IH]; intros n st Hpo; [auto |].
  rewrite !load_lines_cons.
  destruct (Text.is_empty (Text.strip l)); [apply IH, Hpo |].
  destruct (parse_line_parse_only w w' l st Hpo) as (He & Hp & Htk).
  rewrite <- He.
  destruct (parse_line w l st) as [[[] | e] st1]; simpl in Hp, Htk.
  - destruct (IH (n + 1) st1 Hp) as [Hl Ht]. rewrite Ht. auto.
  - auto.
Qed.

(** X7.  A run that only parses never consults the tracker: under the same
    clock its outcome and the class it leaves are the same whatever the
    tracker knows or accepts; the cache of tickets is left as it was and
    nothing is uploaded. *)
Theorem X7_parse_only_ignores_tracker
    (w w' : env) (lines : list string) (c : class_attrs) :
  started w = started w' ->
  init w lines true c = init w' lines true c
  /\ tickets (snd (init w lines true c)) = tickets c
  /\ uploaded (fst (init w lines true c)) = [].
Proof.
  intros Hs. unfold init, load_logs, bind, get, lift, set_logs, new_self.
  rewrite <- Hs.
  set (st := {| cls := c; self := {| mode := date_mode; current_date := None;
                                      parse_only := true; now := started w |} |}).
  destruct (load_lines_parse_only w w' lines 0 st eq_refl) as [He Ht].
  rewrite <- He.
  destruct (load_lines w 0 lines st) as [[[] | e] stl]; simpl in Ht |- *; [| auto].
  destruct (sort_logs (logs (cls stl))) as [sorted | e]; simpl; [| auto].
  destruct sorted as [| x xs]; simpl; [auto |].
  destruct (print_summary (x :: xs)); simpl; auto.
Qed.

Lemma X7_parse_only_ignores_tracker_witness :
  init Sample.world Sample.lines true class_body
  = init Online.world Sample.lines true class_body
  /\ tickets (snd (init Sample.world Sample.lines true class_body)) = []
  /\ uploaded (fst (init Sample.world Sample.lines true class_body)) = [].
Proof.
  exact (X7_parse_only_ignores_tracker Sample.world Online.world Sample.lines
           class_body ltac:(reflexivity)).
Defined.

(** ** The uploads *)

Lemma upload_logs_spec (w : env) (ls done : list log) (ok : bool) :
  upload_logs w ls = (done, ok) ->
  exists rest,
    ls = (done ++ rest)%list
    /\ Forall (accepted w) done
    /\ match rest with
       | [] => ok = true
       | l :: _ => ok = false /\ worklog_accepted w l = false
       end.
Proof.
  revert done ok. induction ls as [| l ls IH]; intros done ok; simpl.
  - intros H; inversion H; subst. exists []. auto.
  - destruct (worklog_accepted w l) eqn:Hl.
    + destruct (upload_logs w ls) as [d o]. intros H; inversion H; subst.
      destruct (IH d ok eq_refl) as (rest & -> & Hd & Hr).
      exists rest. split; [reflexivity |]. split; [constructor; assumption | exact Hr].
    + intros H; inversion H; subst. exists (l :: ls). auto.
Qed.

(** X8.  Once the summary is printed, a run with the tracker uploads, when
    the user confirms, the entries in the order of the collection as far as
    the tracker accepts them: it ends with success when all are taken, and
    at the first refusal it stops with that error, the later entries not
    sent.  When the user declines nothing is uploaded and the run ends
    with success. *)
Theorem X8_upload_stops_at_first_refusal
    (w : env) (lines : list string) (c c' : class_attrs) (out : outcome) :
  init w lines false c = (out, c') ->
  printed out <> None ->
  if upload_confirmed w then
    exists rest,
      logs c' = (uploaded out ++ rest)%list
      /\ Forall (accepted w) (uploaded out)
      /\ match rest with
         | [] => exit out = Success
         | l :: _ => exit out = Failed SinkError /\ worklog_accepted w l = false
         end
  else uploaded out = [] /\ exit out = Success.
Proof.
  unfold init.
  destruct (load_logs w lines _) as [[[] | e] st]; [| intros H; inversion H; subst; simpl; congruence].
  destruct (logs (cls st)) as [| x xs] eqn:Hlogs;
    [intros H; inversion H; subst; simpl; congruence |].
  destruct (print_summary (x :: xs)) as [r |];
    [| intros H; inversion H; subst; simpl; congruence].
  destruct (upload_confirmed w).
  - destruct (upload_logs w (x :: xs)) as [done ok] eqn:Hu.
    intros H _; inversion H; subst; clear H. simpl.
    destruct (upload_logs_spec w _ _ _ Hu) as (rest & Hr & Hd & Hm).
    exists rest. rewrite Hlogs. split; [exact Hr |]. split; [exact Hd |].
    destruct rest as [| l rest]; [subst ok; reflexivity |].
    destruct Hm as [-> Hl]. auto.
  - intros H _; inversion H; subst. simpl. auto.
Qed.

Lemma X8_upload_stops_at_first_refusal_witness :
  exists rest,
    logs (snd (init Online.world Sample.lines false class_body))
    = (uploaded (fst (init Online.world Sample.lines false class_body)) ++ rest)%list
    /\ Forall (accepted Online.world)
         (uploaded (fst (init Online.world Sample.lines false class_body)))
    /\ match rest with
       | [] => exit (fst (init Online.world Sample.lines false class_body)) = Success
       | l :: _ =>
           exit (fst (init Online.world Sample.lines false class_body))
           = Failed SinkError
           /\ worklog_accepted Online.world l = false
       end.
Proof.
  exact (X8_upload_stops_at_first_refusal Online.world Sample.lines class_body
           (snd (init Online.world Sample.lines false class_body))
           (fst (init Online.world Sample.lines false class_body))
           ltac:(vm_compute; reflexivity) ltac:(vm_compute; discriminate)).
Defined.

(** ** The sort *)

Section SortMore.
Context {A : Type}.
Variable leb : A -> A -> bool.

Lemma stable_sort_sorted_id (l : list A) :
  StronglySorted (fun a b => leb a b = true) l -> stable_sort leb l = l.
Proof.
  induction 1 as [| x l Hs IH Hx]; simpl; [reflexivity |].
  rewrite IH. destruct l as [| y l]; [reflexivity |].
  simpl. inversion Hx as [| y' l' Hxy Hrest]; subst. rewrite Hxy. reflexivity.
Qed.
Variable keep : A -> bool.
Hypothesis keep_leb : forall x y, keep x = true -> keep y = true -> leb x y = true.

Lemma insert_filter (x : A) (l : list A) :
  filter keep (insert leb x l) = filter keep (x :: l).
Proof.
  induction l as [| y l IH]; [reflexivity |].
  simpl insert. destruct (leb x y) eqn:Hxy; [reflexivity |].
  simpl filter at 1. rewrite IH. simpl.
  destruct (keep x) eqn:Hx, (keep y) eqn:Hy; try reflexivity.
  rewrite (keep_leb x y Hx Hy) in Hxy. discriminate.
Qed.

Lemma stable_sort_filter (l : list A) :
  filter keep (stable_sort leb l) = filter keep l.
Proof.
  induction l as [| x l IH]; [reflexivity |].
  simpl stable_sort. rewrite insert_filter. simpl. rewrite IH. reflexivity.
Qed.

End SortMore.

Lemma key_compare_eq (a b : key) : key_compare a b = Eq -> a = b.
Proof.
  destruct a as [[d1 p1] n1], b as [[d2 p2] n2]. unfold key_compare.
  destruct (date_key_compare d1 d2) eqn:Ed; try discriminate.
  destruct (String.compare p1 p2) eqn:Ep; try discriminate.
  intros En. apply date_key_compare_eq in Ed. apply String.compare_eq_iff in Ep.
  apply Z.compare_eq in En. subst. reflexivity.
Qed.

Lemma key_compare_refl (a : key) : key_compare a a = Eq.
Proof.
  destruct a as [[d p] n]. unfold key_compare.
  rewrite date_key_compare_refl, string_compare_refl. apply Z.compare_refl.
Qed.

Lemma keyed_pairs (ks : list (key * log)) :
  Forall (fun p => sort_key (snd p) = OK (fst p)) ks ->
  keyed (map snd ks) = OK ks.
Proof.
  induction 1 as [| [k x] ks Hk Hks IH]; simpl; [reflexivity |].
  simpl in Hk. rewrite Hk, IH. reflexivity.
Qed.

Lemma forallb_perm {A : Type} (f : A -> bool) (l l' : list A) :
  Permutation l l' -> forallb f l = forallb f l'.
Proof.
  induction 1; simpl; try congruence.
  - rewrite !andb_assoc, (andb_comm (f y)). reflexivity.
Qed.

Lemma by_key_trans (a b c : key * log) :
  by_key a b = true -> by_key b c = true -> by_key a c = true.
Proof.
  unfold by_key. intros Hab Hbc. apply key_leb_spec.
  apply key_leb_spec in Hab, Hbc. eapply before_or_equal_trans; eassumption.
Qed.

(** X9.  The sort of [load_logs] changes nothing in a collection it has
    sorted, and it is stable: the entries of one key come out in the order
    they had. *)
Theorem X9_sort_stable_idempotent (l l' : list log) :
  sort_logs l = OK l' ->
  sort_logs l' = OK l'
  /\ forall k, filter (has_key k) l' = filter (has_key k) l.
Proof.
  unfold sort_logs at 1.
  destruct (keyed l) as [ks |] eqn:Hks; simpl; [| discriminate].
  destruct (comparable (map fst ks)) eqn:Hc; [| discriminate].
  intros H; inversion H; subst; clear H. fold by_key.
  destruct (keyed_spec l ks Hks) as [Hm Hf].
  pose proof (stable_sort_perm by_key ks) as Hp.
  pose proof (Permutation_Forall Hp Hf) as Hf'.
  assert (Hsorted : StronglySorted (fun a b => by_key a b = true) (stable_sort by_key ks)).
  { apply stable_sort_sorted; [intros a b; apply key_leb_total | exact by_key_trans]. }
  split.
  - unfold sort_logs. rewrite (keyed_pairs _ Hf'). simpl.
    assert (Hc' : comparable (map fst (stable_sort by_key ks)) = true).
    { unfold comparable in *.
      rewrite <- (forallb_perm _ _ _ (Permutation_map fst Hp)).
      rewrite <- (forallb_perm (fun k => negb (has_date k)) _ _ (Permutation_map fst Hp)).
      exact Hc. }
    rewrite Hc'. fold by_key. rewrite (stable_sort_sorted_id by_key _ Hsorted).
    reflexivity.
  - intros k.
    assert (Hfilter : forall ps,
               Forall (fun p => sort_key (snd p) = OK (fst p)) ps ->
               filter (has_key k) (map snd ps)
               = map snd (filter (fun p => match key_compare (fst p) k with
                                           | Eq => true | _ => false end) ps)).
    { induction 1 as [| p ps Hp1 Hps IH]; simpl; [reflexivity |].
      unfold has_key at 1. rewrite Hp1.
      destruct (key_compare (fst p) k); simpl; rewrite IH; reflexivity. }
    rewrite <- Hm, (Hfilter _ Hf'), (Hfilter _ Hf). f_equal.
    apply stable_sort_filter.
    intros x y Hx Hy. unfold by_key.
    destruct (key_compare (fst x) k) eqn:Ex; try discriminate.
    destruct (key_compare (fst y) k) eqn:Ey; try discriminate.
    apply key_compare_eq in Ex, Ey. rewrite Ex, Ey.
    unfold key_leb. rewrite key_compare_refl. reflexivity.
Qed.

Lemma X9_sort_stable_idempotent_witness :
  sort_logs [Numbered.proj9; Numbered.proj10]
  = OK [Numbered.proj9; Numbered.proj10]
  /\ forall k,
       filter (has_key k) [Numbered.proj9; Numbered.proj10]
       = filter (has_key k) [Numbered.proj10; Numbered.proj9].
Proof.
  exact (X9_sort_stable_idempotent [Numbered.proj10; Numbered.proj9]
           [Numbered.proj9; Numbered.proj10] ltac:(vm_compute; reflexivity)).
Defined.

(** ** The summary *)

Lemma calendar_eqb_eq (a b : date) : Calendar.eqb a b = true <-> a = b.
Proof.
  unfold Calendar.eqb. split.
  - destruct (Calendar.compare a b) eqn:E; try discriminate.
    intros _. apply calendar_compare_eq, E.
  - intros ->. rewrite calendar_compare_refl. reflexivity.
Qed.

Lemma total_minutes_app (a b : list log) :
  total_minutes (a ++ b) = total_minutes a + total_minutes b.
Proof.
  unfold total_minutes.
  induction a as [| x a IH]; cbn [app fold_right]; [reflexivity | rewrite IH; lia].
Qed.

Lemma filter_snoc {A : Type} (f : A -> bool) (l : list A) (x : A) :
  filter f (l ++ [x]) = (filter f l ++ (if f x then [x] else []))%list.
Proof. rewrite filter_app. reflexivity. Qed.

Lemma add_to_date_keys (d : date) (l : log) (m : by_date) :
  map fst (add_to_date d l m)
  = if existsb (Calendar.eqb d) (map fst m) then map fst m
    else (map fst m ++ [d])%list.
Proof.
  induction m as [| [d' s] m IH]; simpl; [reflexivity |].
  destruct (Calendar.eqb d d') eqn:E; simpl; [reflexivity |].
  rewrite IH. destruct (existsb _ _); reflexivity.
Qed.

Lemma existsb_date_In (d : date) (ds : list date) :
  existsb (Calendar.eqb d) ds = true <-> In d ds.
Proof.
  rewrite existsb_exists. split.
  - intros (x & Hx & He). apply calendar_eqb_eq in He. subst. exact Hx.
  - intros H. exists d. split; [exact H | apply calendar_eqb_eq; reflexivity].
Qed.

Lemma add_to_date_sum (d : date) (l : log) (m : by_date) :
  sum_groups (add_to_date d l m) = sum_groups m + minutes_of l.
Proof.
  unfold sum_groups.
  induction m as [| [d' s] m IH]; cbn [add_to_date].
  - unfold minutes_of. cbn [fold_right snd total_time_minutes]. lia.
  - destruct (Calendar.eqb d d'); cbn [fold_right snd total_time_minutes];
      [unfold minutes_of; lia | rewrite IH; lia].
Qed.

Lemma add_to_date_groups (d : date) (l : log) (m : by_date) (ps : list log) :
  log_date l = Some d ->
  NoDup (map fst m) ->
  (~ In d (map fst m) -> filter (on_date d) ps = []) ->
  Forall (fun p => day_logs (snd p) = filter (on_date (fst p)) ps
                   /\ total_time_minutes (snd p) = total_minutes (day_logs (snd p))
                   /\ day_logs (snd p) <> []) m ->
  Forall (fun p => day_logs (snd p) = filter (on_date (fst p)) (ps ++ [l])
                   /\ total_time_minutes (snd p) = total_minutes (day_logs (snd p))
                   /\ day_logs (snd p) <> []) (add_to_date d l m).
Proof.
  intros Hd.
  assert (Hself : on_date d l = true).
  { unfold on_date. rewrite Hd. apply calendar_eqb_eq. reflexivity. }
  assert (Hrest : forall q, Calendar.eqb d q = false ->
             filter (on_date q) (ps ++ [l]) = filter (on_date q) ps).
  { intros q Hq. rewrite filter_snoc. unfold on_date at 2. rewrite Hd, Hq.
    apply app_nil_r. }
  induction m as [| [d' s] m IH]; intros Hnd Hnew Hm; cbn [add_to_date].
  - constructor; [| constructor]. cbn [fst snd day_logs total_time_minutes].
    rewrite filter_snoc, (Hnew (fun H => H)), Hself. cbn [app].
    split; [reflexivity |].
    split; [unfold total_minutes, minutes_of; cbn [fold_right]; lia | discriminate].
  - inversion Hm as [| p m' (H1 & H2 & H3) Hm']; subst.
    cbn [fst snd] in H1, H2, H3.
    inversion Hnd as [| d0 ds Hnin Hnd']; subst.
    destruct (Calendar.eqb d d') eqn:E.
    + apply calendar_eqb_eq in E. subst d'.
      constructor.
      * cbn [fst snd day_logs total_time_minutes].
        rewrite filter_snoc, Hself, <- H1, total_minutes_app, H2.
        split; [reflexivity |].
        split; [unfold total_minutes, minutes_of; cbn [fold_right]; lia |].
        destruct (day_logs s); discriminate.
      * rewrite Forall_forall in *. intros q Hq.
        destruct (Hm' q Hq) as (Q1 & Q2 & Q3).
        rewrite Hrest; [auto |].
        destruct (Calendar.eqb d (fst q)) eqn:Eq; [| reflexivity].
        apply calendar_eqb_eq in Eq. exfalso. apply Hnin. rewrite Eq.
        apply in_map, Hq.
    + constructor.
      * cbn [fst snd]. rewrite (Hrest d' E). auto.
      * apply IH; [exact Hnd' | | exact Hm'].
        intros Hn. apply Hnew. simpl. intros [He | Hi]; [| exact (Hn Hi)].
        subst d'. rewrite (proj2 (calendar_eqb_eq d d) eq_refl) in E. discriminate.
Qed.

Lemma add_to_date_filed (d : date) (l : log) (m : by_date) (ps : list log) :
  log_date l = Some d -> filed m ps -> filed (add_to_date d l m) (ps ++ [l]).
Proof.
  intros Hd (Hnd & Hg & Hcov & Hsum).
  assert (Hnew : ~ In d (map fst m) -> filter (on_date d) ps = []).
  { intros Hn. clear Hg Hsum. induction ps as [| x ps IH]; [reflexivity |].
    inversion Hcov as [| x' ps' (dx & Hx & Hin) Hc]; subst. simpl.
    unfold on_date at 1. rewrite Hx.
    destruct (Calendar.eqb dx d) eqn:E; [| apply IH, Hc].
    apply calendar_eqb_eq in E. subst. contradiction. }
  split; [| split; [| split]].
  - rewrite add_to_date_keys.
    destruct (existsb (Calendar.eqb d) (map fst m)) eqn:E; [exact Hnd |].
    apply NoDup_app; [exact Hnd | constructor; [intros [] | constructor] |].
    intros a Ha [<- | []]. apply existsb_date_In in Ha. congruence.
  - apply add_to_date_groups; assumption.
  - assert (Hin : In d (map fst (add_to_date d l m))).
    { rewrite add_to_date_keys.
      destruct (existsb (Calendar.eqb d) (map fst m)) eqn:E.
      - apply existsb_date_In, E.
      - apply in_or_app. right. left. reflexivity. }
    apply Forall_app. split; [| constructor; [eauto | constructor]].
    eapply Forall_impl; [| exact Hcov].
    intros x (dx & Hx & Hix). exists dx. split; [exact Hx |].
    rewrite add_to_date_keys. destruct (existsb _ _); [exact Hix |].
    apply in_or_app. left. exact Hix.
  - rewrite add_to_date_sum, total_minutes_app, Hsum.
    unfold total_minutes. cbn [fold_right]. lia.
Qed.

Lemma group_by_date_filed (ls ps : list log) (m m' : by_date) :
  filed m ps -> group_by_date ls m = OK m' -> filed m' (ps ++ ls).
Proof.
  revert ps m. induction ls as [| l ls IH]; intros ps m Hf; simpl.
  - intros H; inversion H; subst. rewrite app_nil_r. exact Hf.
  - destruct (log_date l) as [d |] eqn:Hd; simpl; [| discriminate].
    intros H. apply (IH (ps ++ [l])%list) in H.
    + rewrite <- app_assoc in H. exact H.
    + apply add_to_date_filed; assumption.
Qed.

Lemma day_totals_spec (m : by_date) (acc : Z) (dts : list day_total) (tot : Z) :
  day_totals m acc = OK (dts, tot) ->
  tot = acc + sum_groups m
  /\ map dt_date dts = map fst m
  /\ Forall2 (fun dt p => dt_logs dt = day_logs (snd p)
                          /\ hours_and_minutes (total_time_minutes (snd p))
                             = OK (dt_hours dt, dt_minutes dt)) dts m.
Proof.
  revert acc dts tot. induction m as [| [d s] m IH]; intros acc dts tot; simpl.
  - intros H; inversion H; subst. repeat split; [lia | constructor].
  - destruct (hours_and_minutes (total_time_minutes s)) as [[h mi] |] eqn:Hh;
      simpl; [| discriminate].
    destruct (day_totals m (acc + total_time_minutes s)) as [[dts0 tot0] |] eqn:Hd;
      simpl; [| discriminate].
    intros H; inversion H; subst; clear H.
    destruct (IH _ _ _ Hd) as (Ht & Hk & Hf).
    split; [lia |]. split; [simpl; f_equal; exact Hk |].
    constructor; [simpl; auto | exact Hf].
Qed.

(** X10.  The summary files every entry under its date, once: it counts all
    the entries, its days are distinct dates, the entries of a day are
    those of that date in the order of the collection and are never none,
    the hours and minutes of a day are those of the sum of its entries,
    every entry is under some day, and the hours and minutes at the end
    are those of the sum of all entries. *)
Theorem X10_summary_groups (ls : list log) (r : report) :
  print_summary ls = OK r ->
  n_logs r = Z.of_nat (List.length ls)
  /\ n_days r = Z.of_nat (List.length (per_date r))
  /\ NoDup (map dt_date (per_date r))
  /\ Forall (fun dt =>
               dt_logs dt = filter (on_date (dt_date dt)) ls
               /\ dt_logs dt <> []
               /\ hours_and_minutes (total_minutes (dt_logs dt))
                  = OK (dt_hours dt, dt_minutes dt)) (per_date r)
  /\ Forall (fun l => exists d, log_date l = Some d
                                /\ In d (map dt_date (per_date r))) ls
  /\ hours_and_minutes (total_minutes ls) = OK (sum_hours r, sum_minutes r).
Proof.
  unfold print_summary.
  destruct (group_by_date ls []) as [m |] eqn:Hg; simpl; [| discriminate].
  destruct (day_totals m 0) as [[dts tot] |] eqn:Hd; simpl; [| discriminate].
  destruct (hours_and_minutes tot) as [[h mi] |] eqn:Hh; simpl; [| discriminate].
  intros H; inversion H; subst; clear H. simpl.
  assert (Hf : filed m ls).
  { apply (group_by_date_filed ls [] [] m); [| exact Hg].
    repeat split; constructor. }
  destruct Hf as (Hnd & Hgr & Hcov & Hsum).
  destruct (day_totals_spec _ _ _ _ Hd) as (Ht & Hk & Hf2).
  split; [reflexivity |].
  split; [rewrite <- (length_map dt_date), Hk, length_map; reflexivity |].
  split; [rewrite Hk; exact Hnd |].
  split; [| split; [rewrite Hk; exact Hcov |]].
  - clear Hd Hh Ht Hnd Hcov Hsum Hg. revert Hk Hgr.
    induction Hf2 as [| dt p dts m (H1 & H2) Hf2 IH]; intros Hk Hgr; [constructor |].
    inversion Hgr as [| p' m' (G1 & G2 & G3) Hgr']; subst.
    simpl in Hk. injection Hk as Hk1 Hk2.
    constructor; [| apply IH; assumption].
    rewrite H1, Hk1.
    split; [exact G1 | split; [exact G3 | rewrite <- G2; exact H2]].
  - rewrite <- Hsum. replace (sum_groups m) with tot by lia. exact Hh.
Qed.

Lemma X10_summary_groups_witness :
  n_logs Sample.expected_report = 3
  /\ n_days Sample.expected_report
     = Z.of_nat (List.length (per_date Sample.expected_report))
  /\ NoDup (map dt_date (per_date Sample.expected_report))
  /\ Forall (fun dt =>
               dt_logs dt
               = filter (on_date (dt_date dt))
                   [Sample.proj1_jan5; Sample.proj2_jan5; Sample.proj1_jan6]
               /\ dt_logs dt <> []
               /\ hours_and_minutes (total_minutes (dt_logs dt))
                  = OK (dt_hours dt, dt_minutes dt))
       (per_date Sample.expected_report)
  /\ Forall (fun l => exists d, log_date l = Some d
                                /\ In d (map dt_date (per_date Sample.expected_report)))
       [Sample.proj1_jan5; Sample.proj2_jan5; Sample.proj1_jan6]
  /\ hours_and_minutes
       (total_minutes [Sample.proj1_jan5; Sample.proj2_jan5; Sample.proj1_jan6])
     = OK (2, 45).
Proof.
  exact (X10_summary_groups [Sample.proj1_jan5; Sample.proj2_jan5; Sample.proj1_jan6]
           Sample.expected_report ltac:(vm_compute; reflexivity)).
Defined.

(** ** Numbers in decimal *)

Lemma digit_char_facts (d : Z) :
  0 <= d < 10 ->
  Text.is_digit (Display.digit_char d) = true /\ Text.digit_val (Display.digit_char d) = d.
Proof.
  intros H.
  assert (Hd : d = 0 \/ d = 1 \/ d = 2 \/ d = 3 \/ d = 4 \/ d = 5 \/ d = 6
               \/ d = 7 \/ d = 8 \/ d = 9) by lia.
  repeat (destruct Hd as [-> | Hd]; [vm_compute; auto |]).
  subst. vm_compute. auto.
Qed.

Lemma digits_val_app (a : Z) (s t : string) :
  Text.digits_val a (s ++ t) = Text.digits_val (Text.digits_val a s) t.
Proof.
  revert a. induction s as [| c s IH]; intros a; simpl; [reflexivity | apply IH].
Qed.

Lemma all_in_app (p : ascii -> bool) (s t : string) :
  all_in p (s ++ t) = all_in p s && all_in p t.
Proof.
  induction s as [| c s IH]; simpl; [reflexivity |].
  rewrite IH. apply andb_assoc.
Qed.

Lemma str_digits_spec (fuel : nat) (n : Z) (acc : string) :
  (0 < fuel)%nat -> 0 <= n < 2 ^ Z.of_nat fuel ->
  exists ds,
    Display.str_digits fuel n acc = ds ++ acc
    /\ all_in Text.is_digit ds = true
    /\ ds <> ""
    /\ forall a, Text.digits_val a ds = a * 10 ^ Z.of_nat (String.length ds) + n.
Proof.
  revert n acc. induction fuel as [| fuel IH]; intros n acc Hf Hn; [lia |].
  cbn [Display.str_digits].
  assert (Hmod : 0 <= n mod 10 < 10) by (apply Z.mod_pos_bound; lia).
  destruct (digit_char_facts _ Hmod) as [Hdig Hval].
  destruct (n / 10 =? 0) eqn:Hq.
  - apply Z.eqb_eq in Hq.
    exists (String (Display.digit_char (n mod 10)) "").
    split; [reflexivity |]. split; [simpl; rewrite Hdig; reflexivity |].
    split; [discriminate |].
    intros a. cbn [Text.digits_val String.length]. rewrite Hval.
    pose proof (Z.div_mod n 10). change (Z.of_nat 1) with 1. lia.
  - apply Z.eqb_neq in Hq.
    assert (Hdiv : 0 <= n / 10) by (apply Z.div_pos; lia).
    assert (Hfuel : (0 < fuel)%nat).
    { destruct fuel; [| lia]. change (2 ^ Z.of_nat 1) with 2 in Hn.
      assert (n / 10 = 0) by (apply Z.div_small; lia). lia. }
    assert (Hbound : n / 10 < 2 ^ Z.of_nat fuel).
    { rewrite Nat2Z.inj_succ, Z.pow_succ_r in Hn by lia.
      apply Z.div_lt_upper_bound; lia. }
    destruct (IH (n / 10) (String (Display.digit_char (n mod 10)) acc) Hfuel
                (conj Hdiv Hbound)) as (ds & He & Hall & Hne & Hv).
    exists (ds ++ String (Display.digit_char (n mod 10)) "").
    split; [rewrite He, append_assoc; reflexivity |].
    split; [rewrite all_in_app, Hall; simpl; rewrite Hdig; reflexivity |].
    split; [destruct ds; discriminate |].
    intros a. rewrite digits_val_app, Hv. cbn [Text.digits_val]. rewrite Hval.
    rewrite length_append. cbn [String.length].
    rewrite Nat2Z.inj_add, Z.pow_add_r by lia. change (Z.of_nat 1) with 1.
    pose proof (Z.div_mod n 10). lia.
Qed.

(** The text of a number that is not negative: digits, and [int] reads
    the number back. *)
Lemma str_nonneg (n : Z) :
  0 <= n ->
  exists d ds,
    Display.str n = String d ds
    /\ all_in Text.is_digit (String d ds) = true
    /\ Text.digits_val 0 (String d ds) = n.
Proof.
  intros Hn. unfold Display.str.
  replace (n <? 0) with false by (symmetry; apply Z.ltb_ge; lia).
  assert (Hb : 0 <= n < 2 ^ Z.of_nat (S (Z.to_nat (Z.log2 n)))).
  { split; [exact Hn |]. rewrite Nat2Z.inj_succ, Z2Nat.id by apply Z.log2_nonneg.
    destruct (Z.eq_dec n 0) as [-> | Hz]; [reflexivity |].
    apply Z.log2_spec. lia. }
  destruct (str_digits_spec _ n "" (Nat.lt_0_succ _) Hb) as (ds & He & Hall & Hne & Hv).
  rewrite He, append_empty.
  destruct ds as [| d ds]; [congruence |].
  exists d, ds. split; [reflexivity |]. split; [exact Hall |].
  rewrite Hv. lia.
Qed.

Lemma int_str (n : Z) : 0 <= n -> Text.int (Display.str n) = Some n.
Proof.
  intros Hn. destruct (str_nonneg n Hn) as (d & ds & -> & Hall & Hv).
  rewrite (int_digits d ds Hall), Hv. reflexivity.
Qed.

(** ** What a match went over *)

Lemma classes_within_and (P P' : ascii -> bool) (r : Re.regex) :
  classes_within P r -> classes_within P' r ->
  classes_within (fun c => P c && P' c) r.
Proof.
  induction r; simpl; try tauto.
  intros H H' c Hc. rewrite (H c Hc), (H' c Hc). reflexivity.
Qed.

Lemma classes_within_impl (P P' : ascii -> bool) (r : Re.regex) :
  (forall c, P c = true -> P' c = true) ->
  classes_within P r -> classes_within P' r.
Proof.
  intros Hi. induction r; simpl; try tauto. intros H c Hc. apply Hi, H, Hc.
Qed.

Section RunSound.
Variable tracked : string -> bool.
Variable D : ascii -> bool.
Context {R : Type}.
Variable whole : string.
Variable x : R.
Variable Q : Prop.

(** What the matcher hands to its continuation when it succeeds: the text
    it went over is within the classes of the pattern, the groups hold
    what their classes allow, and after [$] the text is at its end. *)
Lemma run_sound (r : Re.regex) :
  groups_within tracked D r ->
  forall (P : ascii -> bool), classes_within P r ->
  forall (s : string) (g : Re.groups) (k : Re.cont),
    groups_ok tracked D g ->
    (forall pre s' g',
        s = pre ++ s' -> all_in P pre = true ->
        (ends_eol r = true -> at_end s') ->
        groups_ok tracked D g' -> k s' g' = Some x -> Q) ->
    Re.run whole r s g k = Some x -> Q.
Proof.
  induction r as [p | | r1 IH1 r2 IH2 | r1 IH1 r2 IH2 | r1 IH1 | n r1 IH1 | |];
    intros Hg P Hc s g k Hgok Hk.
  - (* Cls *) simpl. destruct s as [| c s']; [discriminate |].
    destruct (p c) eqn:Hp; [| discriminate].
    intros H. apply (Hk (String c "") s' g); auto; [| discriminate].
    simpl in Hc |- *. rewrite (Hc c Hp). reflexivity.
  - (* Eps *) simpl. intros H. apply (Hk "" s g); auto. discriminate.
  - (* Cat *) simpl. destruct Hg as [Hg1 Hg2]. destruct Hc as [Hc1 Hc2].
    apply (IH1 Hg1 P Hc1 s g _ Hgok).
    intros pre1 s1 g1 -> Hp1 _ Hgok1.
    apply (IH2 Hg2 P Hc2 s1 g1 k Hgok1).
    intros pre2 s2 g2 -> Hp2 He Hgok2 H.
    apply (Hk (pre1 ++ pre2) s2 g2); auto.
    + symmetry. apply append_assoc.
    + rewrite all_in_app, Hp1, Hp2. reflexivity.
  - (* Alt *) simpl. destruct Hg as [Hg1 Hg2]. destruct Hc as [Hc1 Hc2].
    destruct (Re.run whole r1 s g k) as [y |] eqn:H1.
    + intros H. inversion H; subst.
      refine (IH1 Hg1 P Hc1 s g k Hgok _ H1).
      intros pre s' g' Hs Hp _ Hgok' H'. apply (Hk pre s' g'); auto. discriminate.
    + apply (IH2 Hg2 P Hc2 s g k Hgok).
      intros pre s' g' Hs Hp _ Hgok' H'. apply (Hk pre s' g'); auto. discriminate.
  - (* Star *) simpl. simpl in Hg, Hc.
    generalize (String.length s) as fuel. intros fuel.
    revert s g Hgok Hk. induction fuel as [| fuel IHf]; intros s g Hgok Hk; simpl.
    + intros H. apply (Hk "" s g); auto. discriminate.
    + destruct (Re.run whole r1 s g _) as [y |] eqn:H1.
      * intros H. inversion H; subst.
        refine (IH1 Hg P Hc s g _ Hgok _ H1).
        intros pre1 s1 g1 -> Hp1 _ Hgok1.
        destruct (String.length s1 <? String.length (pre1 ++ s1))%nat; [| discriminate].
        apply (IHf s1 g1 Hgok1).
        intros pre2 s2 g2 -> Hp2 _ Hgok2 H'.
        apply (Hk (pre1 ++ pre2) s2 g2); auto.
        -- symmetry. apply append_assoc.
        -- rewrite all_in_app, Hp1, Hp2. reflexivity.
        -- discriminate.
      * intros H. apply (Hk "" s g); auto. discriminate.
  - (* Grp *) simpl. destruct Hg as [Hgn Hg1]. simpl in Hc.
    set (P' := fun c => P c && (if tracked n then D c else true)).
    assert (Hc' : classes_within P' r1).
    { apply classes_within_and; [exact Hc |].
      destruct (tracked n); [apply Hgn; reflexivity |].
      apply (classes_within_impl P); auto. }
    apply (IH1 Hg1 P' Hc' s g _ Hgok).
    intros pre s1 g1 -> Hp He Hgok1 H.
    assert (HP : all_in P pre = true /\ (tracked n = true -> all_in D pre = true)).
    { clear - Hp. unfold P' in Hp. induction pre as [| c pre IH]; simpl in *; [auto |].
      apply andb_true_iff in Hp. destruct Hp as [Hc Hp].
      apply andb_true_iff in Hc. destruct Hc as [Hc1 Hc2].
      destruct (IH Hp) as [I1 I2]. rewrite Hc1, I1. split; [reflexivity |].
      intros Ht. rewrite Ht in Hc2. rewrite Hc2, (I2 Ht). reflexivity. }
    destruct HP as [HP HD].
    apply (Hk pre s1 ((n, Re.taken (pre ++ s1) s1) :: g1)); auto.
    intros n' v [Hin | Hin] Ht.
    + inversion Hin; subst. rewrite taken_prefix. apply HD, Ht.
    + apply (Hgok1 n' v Hin Ht).
  - (* Bol *) simpl.
    destruct (String.length s =? String.length whole)%nat; [| discriminate].
    intros H. apply (Hk "" s g); auto. discriminate.
  - (* Eol *) simpl. destruct s as [| c [| c' s']]; try discriminate.
    + intros H. apply (Hk "" "" g); auto. intros _. left. reflexivity.
    + destruct (Ascii.eqb c "010") eqn:Hn; [| discriminate].
      apply Ascii.eqb_eq in Hn. subst c.
      intros H. apply (Hk "" (String "010" "") g); auto. intros _. right. reflexivity.
Qed.

End RunSound.

(** ** Durations are positive *)

Lemma round_aux_nonneg (m e : Z) (l : location) :
  nonneg (binary_round_aux Float64.prec Float64.emax false m e l) = true.
Proof.
  unfold binary_round_aux.
  destruct (shr_fexp _ _ m e l) as [mrs' e'].
  destruct (shr_fexp _ _ _ e' loc_Exact) as [mrs'' e''].
  destruct (shr_m mrs''); [reflexivity | | reflexivity].
  destruct (e'' <=? _); reflexivity.
Qed.

Lemma of_ratio_nonneg (n d : positive) : nonneg (Float64.of_ratio n d) = true.
Proof.
  unfold Float64.of_ratio, SFdiv.
  destruct (SFdiv_core_binary _ _ _ _ _ _) as [[mz ez] lz].
  apply round_aux_nonneg.
Qed.

Lemma of_string_nonneg (s : string) (x : Float64.float) :
  Float64.of_string s = Some x -> nonneg x = true.
Proof.
  unfold Float64.of_string.
  destruct (Text.split_at "." s) as [a [b |]].
  - destruct (_ && _); [| discriminate]. intros H. inversion H; subst.
    destruct (Text.digits_val 0 (a ++ b)); try reflexivity. apply of_ratio_nonneg.
  - destruct (_ && _); [| discriminate]. intros H. inversion H; subst.
    destruct (Text.digits_val 0 a); try reflexivity. apply of_ratio_nonneg.
Qed.

Lemma normalize_nonneg (r e : Z) :
  0 <= r -> nonneg (binary_normalize Float64.prec Float64.emax r e false) = true.
Proof.
  intros Hr. destruct r as [| p | p]; [reflexivity | | lia].
  unfold binary_normalize, binary_round.
  destruct (shl_align _ _ _) as [mz ez]. apply round_aux_nonneg.
Qed.

Lemma mod1_nonneg (x : Float64.float) :
  nonneg x = true -> nonneg (Float64.mod1 x) = true.
Proof.
  destruct x as [s | s | | s m e]; simpl; try reflexivity.
  intros Hs. destruct s; [discriminate |].
  destruct (e <? 0) eqn:He; [| reflexivity].
  apply Z.ltb_lt in He.
  destruct (Z.pos m mod 2 ^ (- e) =? 0); [reflexivity |].
  apply normalize_nonneg.
  apply Z.mod_pos_bound. apply Z.pow_pos_nonneg; lia.
Qed.

Lemma mul_nonneg (x y : Float64.float) :
  nonneg x = true -> nonneg y = true -> nonneg (Float64.mul x y) = true.
Proof.
  destruct x as [sx | sx | | sx mx ex], y as [sy | sy | | sy my ey]; simpl;
    try reflexivity; intros Hx Hy;
    try (destruct sx; [discriminate |]); try (destruct sy; [discriminate |]);
    try reflexivity.
  apply round_aux_nonneg.
Qed.

Lemma floor_nonneg (x : Float64.float) (z : Z) :
  nonneg x = true -> Float64.floor x = OK z -> 0 <= z.
Proof.
  destruct x as [s | s | | s m e]; simpl; try discriminate.
  - intros _ H. inversion H. lia.
  - intros Hs H. destruct s; [discriminate |]. inversion H.
    apply Z.shiftl_nonneg. lia.
Qed.

Lemma digits_val_nonneg (s : string) (acc : Z) :
  all_in Text.is_digit s = true -> 0 <= acc -> 0 <= Text.digits_val acc s.
Proof.
  revert acc. induction s as [| c s IH]; intros acc; [auto |].
  cbn [Text.digits_val all_in].
  intros H Ha. apply andb_true_iff in H. destruct H as [Hc Hs].
  apply IH; [exact Hs |].
  unfold Text.is_digit in Hc. apply andb_true_iff in Hc. destruct Hc as [Hc _].
  apply N.leb_le in Hc. unfold Text.digit_val. lia.
Qed.

Lemma lookup_In (name : string) (g : Re.groups) (v : string) :
  Re.lookup name g = Some v -> In (name, v) g.
Proof.
  induction g as [| [n w] g IH]; simpl; [discriminate |].
  destruct (String.eqb n name) eqn:Hn.
  - apply String.eqb_eq in Hn. subst. intros H. inversion H. left. reflexivity.
  - intros H. right. apply IH, H.
Qed.

(** The groups [hours] and [minutes] of a match of the second pattern hold
    digits only. *)
Lemma hours_mins_groups (s : string) (m : Re.match_obj) :
  Re.re_match Patterns.hours_mins_match_re s = Some m ->
  groups_ok duration_group Text.is_digit (Re.named m).
Proof.
  unfold Re.re_match.
  apply (run_sound duration_group Text.is_digit s m _ Patterns.hours_mins_match_re)
    with (P := fun _ => true).
  - cbv [Patterns.hours_mins_match_re groups_within classes_within
         Re.Opt Re.Plus Re.Digit Re.Space Re.ChrI Re.Chr Re.Rep].
    repeat split; auto;
      try (intros Ht; vm_compute in Ht; discriminate Ht);
      try (intros _; repeat split; auto);
      match goal with
      | Ht : duration_group _ = true |- _ => vm_compute in Ht; discriminate Ht
      end.
  - cbv [Patterns.hours_mins_match_re groups_within classes_within
         Re.Opt Re.Plus Re.Digit Re.Space Re.ChrI Re.Chr Re.Rep].
    repeat split; auto.
  - intros n v [].
  - intros pre s' g' _ _ _ Hg H. inversion H. exact Hg.
Qed.

Lemma group_int_or_0_nonneg (m : Re.match_obj) (name : string) (z : Z) :
  groups_ok duration_group Text.is_digit (Re.named m) ->
  duration_group name = true ->
  group_int_or_0 m name = OK z -> 0 <= z.
Proof.
  intros Hg Hn. unfold group_int_or_0, Re.group.
  destruct (Re.lookup name (Re.named m)) as [v |] eqn:Hl.
  - apply lookup_In in Hl. pose proof (Hg name v Hl Hn) as Hd.
    destruct v as [| d ds]; [intros H; inversion H; lia |].
    rewrite (int_digits d ds Hd). cbn [of_option]. intros H.
    assert (Hz : Text.digits_val 0 (String d ds) = z) by congruence.
    rewrite <- Hz. apply digits_val_nonneg; [exact Hd | lia].
  - intros H. inversion H. lia.
Qed.

Lemma hours_minutes_nonneg (s : string) (h m : Z) :
  hours_minutes s = OK (h, m) -> 0 <= h /\ 0 <= m.
Proof.
  unfold hours_minutes.
  destruct (Re.re_match Patterns.dec_hours_match_re s) as [dm |].
  - destruct (Re.group dm "1") as [g |]; cbn [of_option rbind]; [| discriminate].
    destruct (Float64.of_string g) as [x |] eqn:Hx; cbn [of_option rbind];
      [| discriminate].
    apply of_string_nonneg in Hx.
    destruct (Float64.floor x) as [zh | e] eqn:Hf; cbn [rbind]; [| discriminate].
    destruct (Float64.of_Z 60) as [sixty | e] eqn:H60; cbn [rbind]; [| discriminate].
    assert (Hs : nonneg sixty = true).
    { vm_compute in H60. inversion H60. reflexivity. }
    destruct (Float64.floor (Float64.mul sixty (Float64.mod1 x))) as [zm | e] eqn:Hm;
      cbn [rbind]; [| discriminate].
    intros H. inversion H; subst. split.
    + apply (floor_nonneg x); assumption.
    + apply (floor_nonneg _ _ (mul_nonneg _ _ Hs (mod1_nonneg x Hx)) Hm).
  - destruct (Re.re_match Patterns.hours_mins_match_re s) as [hm |] eqn:Hr.
    + apply hours_mins_groups in Hr.
      destruct (group_int_or_0 hm "hours") as [zh | e] eqn:Hh; cbn [rbind];
        [| discriminate].
      destruct (group_int_or_0 hm "minutes") as [zm | e] eqn:Hm; cbn [rbind];
        [| discriminate].
      intros H. inversion H; subst. split.
      * apply (group_int_or_0_nonneg hm "hours"); auto.
      * apply (group_int_or_0_nonneg hm "minutes"); auto.
    + intros H. inversion H. lia.
Qed.

(** X11.  A duration that is accepted is positive: hours and minutes are not
    negative and not both zero, whichever of the two patterns read them. *)
Theorem X11_duration_positive (s : string) (h m : Z) :
  parse_time s = OK (h, m) -> 0 <= h /\ 0 <= m /\ (0 < h \/ 0 < m).
Proof.
  unfold parse_time.
  destruct (hours_minutes s) as [[h' m'] | e] eqn:Hhm; cbn [rbind]; [| discriminate].
  destruct ((h' =? 0) && (m' =? 0)) eqn:Hz; [discriminate |].
  intros H. inversion H; subst.
  destruct (hours_minutes_nonneg s h m Hhm) as [Hh Hm].
  apply andb_false_iff in Hz. repeat split; auto.
  destruct Hz as [Hz | Hz]; apply Z.eqb_neq in Hz; lia.
Qed.

Lemma X11_duration_positive_witness :
  parse_time "1h30m" = OK (1, 30)
  /\ 0 <= 1 /\ 0 <= 30 /\ (0 < 1 \/ 0 < 30).
Proof.
  split; [vm_compute; reflexivity |].
  exact (X11_duration_positive "1h30m" 1 30 ltac:(vm_compute; reflexivity)).
Defined.

(** ** The durations that are shown and sent *)

Lemma append_last_inj (x y : string) (a b : ascii) :
  x ++ String a "" = y ++ String b "" -> a = b.
Proof.
  revert y. induction x as [| c x IH]; intros [| c' y]; simpl; intros H.
  - congruence.
  - injection H as _ H. destruct y; discriminate.
  - injection H as _ H. destruct x; discriminate.
  - injection H as _ H. apply (IH y H).
Qed.

(** A text that ends in [m] is no decimal number of hours. *)
Lemma dec_hours_no_match (x : string) :
  Re.re_match Patterns.dec_hours_match_re (x ++ "m") = None.
Proof.
  destruct (Re.re_match _ _) as [m |] eqn:H; [| reflexivity]. exfalso.
  revert H. unfold Re.re_match.
  apply (run_sound (fun _ => false) (fun _ => true) (x ++ "m") m _
           Patterns.dec_hours_match_re)
    with (P := fun c => negb (Ascii.eqb c "m")).
  - cbv [Patterns.dec_hours_match_re groups_within classes_within
         Re.Opt Re.Plus Re.Digit Re.Space Re.ChrI Re.Chr Re.Rep].
    repeat split; auto; discriminate.
  - cbv [Patterns.dec_hours_match_re groups_within classes_within
         Re.Opt Re.Plus Re.Digit Re.Space Re.ChrI Re.Chr Re.Rep].
    repeat split; auto; intros c Hc; destruct c as [b0 b1 b2 b3 b4 b5 b6 b7];
      destruct b0, b1, b2, b3, b4, b5, b6, b7;
      try (vm_compute in Hc; discriminate Hc); reflexivity.
  - intros n v _; discriminate.
  - intros pre s' g' Hs Hp He _ _.
    destruct (He eq_refl) as [-> | ->].
    + rewrite append_empty in Hs. subst pre.
      rewrite all_in_app in Hp. apply andb_true_iff in Hp.
      destruct Hp as [_ Hp]. vm_compute in Hp. discriminate.
    + apply append_last_inj in Hs. discriminate.
Qed.

Lemma match_some {A : Type} (o d : option A) (x : A) :
  o = Some x -> match o with Some y => Some y | None => d end = Some x.
Proof. intros ->. reflexivity. Qed.

Lemma string_length_cons (c : ascii) (s : string) :
  String.length (String c s) = S (String.length s).
Proof. reflexivity. Qed.

Section HoursMins.
Local Opaque Ascii.eqb Re.taken String.length.

Lemma hours_mins_match (d1 d2 : ascii) (ds1 ds2 : string) :
  all_in Text.is_digit (String d1 ds1) = true ->
  all_in Text.is_digit (String d2 ds2) = true ->
  exists m,
    Re.re_match Patterns.hours_mins_match_re
      (String d1 ds1 ++ "h " ++ String d2 ds2 ++ "m") = Some m
    /\ Re.group m "hours" = Some (String d1 ds1)
    /\ Re.group m "minutes" = Some (String d2 ds2).
Proof.
  intros H1 H2.
  pose proof H1 as H1'. simpl in H1'. apply andb_true_iff in H1'.
  destruct H1' as [Hd1 Hds1].
  pose proof H2 as H2'. simpl in H2'. apply andb_true_iff in H2'.
  destruct H2' as [Hd2 Hds2].
  destruct (digit_facts d2 Hd2) as (Hsp2 & _ & _).
  eexists. split.
  - unfold Re.re_match, Patterns.hours_mins_match_re, Re.Opt, Re.Plus, Re.Digit,
      Re.Space, Re.ChrI.
    simpl Re.run. cbn [append]. rewrite Hd1.
    apply match_some.
    apply (star_loop_class_greedy Text.is_digit _ (fun _ _ _ => eq_refl)
             ds1 (String "h" (String " " (String d2 (ds2 ++ "m")))) _ [] _ _ Hds1).
    { vm_compute. reflexivity. }
    { rewrite length_append. lia. }
    apply (star_loop_class_greedy Text.is_space _ (fun _ _ _ => eq_refl)
             "" (String "h" (String " " (String d2 (ds2 ++ "m")))) _ _ _ _ eq_refl).
    { vm_compute. reflexivity. }
    { rewrite string_length_cons. apply Nat.le_0_l. }
    replace (Text.is_char_i "H" "h") with true by (vm_compute; reflexivity).
    apply (star_loop_class_greedy Text.is_space _ (fun _ _ _ => eq_refl)
             " " (String d2 (ds2 ++ "m")) _ _ _ _ eq_refl Hsp2).
    { rewrite !string_length_cons. apply le_n_S, Nat.le_0_l. }
    rewrite Hd2. apply match_some.
    apply (star_loop_class_greedy Text.is_digit _ (fun _ _ _ => eq_refl)
             ds2 "m" _ _ _ _ Hds2).
    { vm_compute. reflexivity. }
    { rewrite length_append. lia. }
    apply (star_loop_class_greedy Text.is_space _ (fun _ _ _ => eq_refl)
             "" "m" _ _ _ _ eq_refl).
    { vm_compute. reflexivity. }
    { rewrite string_length_cons. apply Nat.le_0_l. }
    replace (Text.is_char_i "M" "m") with true by (vm_compute; reflexivity).
    reflexivity.
  - split.
    + unfold Re.group. cbn [Re.named Re.lookup].
      replace (String.eqb "3" "hours") with false by reflexivity.
      replace (String.eqb "minutes" "hours") with false by reflexivity.
      replace (String.eqb "1" "hours") with false by reflexivity.
      replace (String.eqb "hours" "hours") with true by reflexivity.
      f_equal.
      apply (taken_prefix (String d1 ds1)
               (String "h" (String " " (String d2 (ds2 ++ "m"))))).
    + unfold Re.group. cbn [Re.named Re.lookup].
      replace (String.eqb "3" "minutes") with false by reflexivity.
      replace (String.eqb "minutes" "minutes") with true by reflexivity.
      f_equal. apply (taken_prefix (String d2 ds2) "m").
Qed.

End HoursMins.

(** The duration text of an upload reads back as the duration. *)
Lemma time_spent_parses (h m : Z) :
  0 <= h -> 0 <= m ->
  hours_minutes (Display.str h ++ "h " ++ Display.str m ++ "m") = OK (h, m).
Proof.
  intros Hh Hm.
  destruct (str_nonneg h Hh) as (d1 & ds1 & E1 & D1 & V1).
  destruct (str_nonneg m Hm) as (d2 & ds2 & E2 & D2 & V2).
  unfold hours_minutes.
  replace (Display.str h ++ "h " ++ Display.str m ++ "m")
    with ((Display.str h ++ "h " ++ Display.str m) ++ "m")
    by (rewrite !append_assoc; reflexivity).
  rewrite dec_hours_no_match.
  replace ((Display.str h ++ "h " ++ Display.str m) ++ "m")
    with (Display.str h ++ "h " ++ Display.str m ++ "m")
    by (rewrite !append_assoc; reflexivity).
  rewrite E1, E2.
  destruct (hours_mins_match d1 d2 ds1 ds2 D1 D2) as (mo & -> & Gh & Gm).
  unfold group_int_or_0. rewrite Gh, Gm.
  rewrite (int_digits d1 ds1 D1), (int_digits d2 ds2 D2), V1, V2. reflexivity.
Qed.

(** X12.  For an entry of a positive duration, what [upload_log] gives the
    tracker as the time spent is, read by the script's own grammar, the
    duration of the entry. *)
Theorem X12_time_spent_round_trip (l : log) :
  0 <= hours l -> 0 <= minutes l -> (0 < hours l \/ 0 < minutes l) ->
  parse_time (Display.timeSpent (Display.upload_log l)) = OK (hours l, minutes l).
Proof.
  intros Hh Hm Hpos. unfold Display.upload_log, Display.timeSpent, parse_time.
  rewrite (time_spent_parses _ _ Hh Hm). cbn [rbind].
  destruct ((hours l =? 0) && (minutes l =? 0)) eqn:Hz; [| reflexivity].
  apply andb_true_iff in Hz. destruct Hz as [Hz1 Hz2].
  apply Z.eqb_eq in Hz1. apply Z.eqb_eq in Hz2. lia.
Qed.

Lemma X12_time_spent_round_trip_witness :
  Display.timeSpent (Display.upload_log Sample.proj1_jan5) = "1h 30m"
  /\ parse_time "1h 30m" = OK (1, 30).
Proof.
  split; [reflexivity |].
  exact (X12_time_spent_round_trip Sample.proj1_jan5
           ltac:(simpl; lia) ltac:(simpl; lia) ltac:(left; reflexivity)).
Defined.

Lemma digit_not_h (c : ascii) : Text.is_digit c = true -> not_h c = true.
Proof.
  intros H. destruct c as [b0 b1 b2 b3 b4 b5 b6 b7].
  destruct b0, b1, b2, b3, b4, b5, b6, b7;
    try (vm_compute in H; discriminate H); vm_compute; auto.
Qed.

(** Without an [h] in the text the hours part of the second pattern does
    not match. *)
Lemma hours_part_needs_h {R : Type} (whole s : string) (g : Re.groups)
    (k : Re.cont) :
  all_in not_h s = true ->
  @Re.run R whole
    (Re.Grp "1" (Re.Cat (Re.Grp "hours" (Re.Plus Re.Digit))
                        (Re.Cat (Re.Star Re.Space) (Re.ChrI "H")))) s g k = None.
Proof.
  intros Hs.
  destruct (Re.run _ _ _ _ _) as [x |] eqn:H; [exfalso | reflexivity].
  revert H.
  change (Re.run whole
            (Re.Cat (Re.Grp "hours" (Re.Plus Re.Digit)) (Re.Star Re.Space)) s g
            (fun s1 g1 =>
               Re.run whole (Re.ChrI "H") s1 g1
                 (fun s2 g2 => k s2 (("1", Re.taken s s2) :: g2))) = Some x -> False).
  apply (run_sound (fun _ => false) (fun _ => true) whole x False)
    with (P := fun _ => true).
  - simpl. repeat split; auto; discriminate.
  - simpl. repeat split; auto.
  - intros n v _; discriminate.
  - intros pre s' g' -> _ _ _. simpl.
    destruct s' as [| c s']; [discriminate |].
    destruct (Text.is_char_i "H" c) eqn:Hc; [| discriminate].
    rewrite all_in_app in Hs. apply andb_true_iff in Hs. destruct Hs as [_ Hs].
    simpl in Hs. apply andb_true_iff in Hs. destruct Hs as [Hn _].
    unfold not_h in Hn. rewrite Hc in Hn. discriminate.
Qed.

Lemma run_cat_opt_none {R : Type} (whole : string) (a rest : Re.regex)
    (s : string) (g : Re.groups) (k : Re.cont) :
  @Re.run R whole a s g (fun s1 g1 => Re.run whole rest s1 g1 k) = None ->
  Re.run whole (Re.Cat (Re.Opt a) rest) s g k = Re.run whole rest s g k.
Proof. intros H. unfold Re.Opt. cbn [Re.run]. rewrite H. reflexivity. Qed.

Section MinutesOnly.
Local Opaque Ascii.eqb Re.taken String.length.

Lemma minutes_only_match (d : ascii) (ds : string) :
  all_in Text.is_digit (String d ds) = true ->
  exists m,
    Re.re_match Patterns.hours_mins_match_re (String d ds ++ "m") = Some m
    /\ Re.group m "hours" = None
    /\ Re.group m "minutes" = Some (String d ds).
Proof.
  intros H2.
  pose proof H2 as H2'. simpl in H2'. apply andb_true_iff in H2'.
  destruct H2' as [Hd2 Hds2].
  destruct (digit_facts d Hd2) as (Hsp2 & _ & _).
  assert (Hnh : all_in not_h (String d ds ++ "m") = true).
  { rewrite all_in_app. rewrite (all_in_impl _ _ _ digit_not_h H2). reflexivity. }
  eexists. split.
  - unfold Re.re_match, Patterns.hours_mins_match_re.
    rewrite run_cat_opt_none by (apply hours_part_needs_h, Hnh).
    unfold Re.Opt, Re.Plus, Re.Digit, Re.Space, Re.ChrI.
    simpl Re.run. cbn [append].
    apply (star_loop_class_greedy Text.is_space _ (fun _ _ _ => eq_refl)
             "" (String d (ds ++ "m")) _ _ _ _ eq_refl Hsp2).
    { rewrite string_length_cons. apply Nat.le_0_l. }
    rewrite Hd2. apply match_some.
    apply (star_loop_class_greedy Text.is_digit _ (fun _ _ _ => eq_refl)
             ds "m" _ _ _ _ Hds2).
    { vm_compute. reflexivity. }
    { rewrite length_append. lia. }
    apply (star_loop_class_greedy Text.is_space _ (fun _ _ _ => eq_refl)
             "" "m" _ _ _ _ eq_refl).
    { vm_compute. reflexivity. }
    { rewrite string_length_cons. apply Nat.le_0_l. }
    replace (Text.is_char_i "M" "m") with true by (vm_compute; reflexivity).
    reflexivity.
  - split.
    + reflexivity.
    + unfold Re.group. cbn [Re.named Re.lookup].
      replace (String.eqb "3" "minutes") with false by reflexivity.
      replace (String.eqb "minutes" "minutes") with true by reflexivity.
      f_equal. apply (taken_prefix (String d ds) "m").
Qed.

End MinutesOnly.

Lemma minutes_only_parses (m : Z) :
  0 <= m -> hours_minutes (Display.str m ++ "m") = OK (0, m).
Proof.
  intros Hm.
  destruct (str_nonneg m Hm) as (d2 & ds2 & E2 & D2 & V2).
  unfold hours_minutes.
  rewrite dec_hours_no_match, E2.
  destruct (minutes_only_match d2 ds2 D2) as (mo & -> & Gh & Gm).
  unfold group_int_or_0. rewrite Gh, Gm.
  rewrite (int_digits d2 ds2 D2), V2. reflexivity.
Qed.

Lemma rstrip_last (x : string) (c : ascii) :
  Text.is_space c = false -> Text.rstrip (x ++ String c "") = x ++ String c "".
Proof.
  intros Hc. induction x as [| a x IH]; simpl.
  - rewrite Hc. reflexivity.
  - rewrite IH. destruct x; simpl; rewrite andb_false_r; reflexivity.
Qed.

Lemma strip_digit_to_m (x : string) :
  match x with String d _ => Text.is_digit d | EmptyString => false end = true ->
  Text.strip (x ++ "m") = x ++ "m".
Proof.
  destruct x as [| d x]; [discriminate |].
  intros Hd. destruct (digit_facts d Hd) as (Hsp & _ & _).
  unfold Text.strip. simpl Text.lstrip. rewrite Hsp.
  apply (rstrip_last (String d x) "m"). reflexivity.
Qed.

(** X13.  A duration as [format_time] prints it reads back as the duration,
    when the hours are not negative and the minutes are positive. *)
Theorem X13_format_time_round_trip (h m : Z) :
  0 <= h -> 0 < m ->
  parse_time (Display.format_time h m) = OK (h, m).
Proof.
  intros Hh Hm.
  assert (Hm0 : (m =? 0) = false) by (apply Z.eqb_neq; lia).
  assert (Hz : forall a, ((a =? 0) && (m =? 0)) = false)
    by (intros a; rewrite Hm0; apply andb_false_r).
  unfold Display.format_time. rewrite Hm0.
  destruct (h =? 0) eqn:Hh0.
  - apply Z.eqb_eq in Hh0. subst h.
    replace ("" ++ (Display.str m ++ "m")) with (Display.str m ++ "m") by reflexivity.
    rewrite strip_digit_to_m.
    2:{ destruct (str_nonneg m) as (d & ds & -> & D & _); [lia |].
        simpl in D. apply andb_true_iff in D. tauto. }
    unfold parse_time. rewrite minutes_only_parses by lia.
    cbn [rbind]. rewrite Hz. reflexivity.
  - replace (("" ++ (Display.str h ++ "h ")) ++ (Display.str m ++ "m"))
      with ((Display.str h ++ "h " ++ Display.str m) ++ "m")
      by (cbn [append]; rewrite !append_assoc; reflexivity).
    rewrite strip_digit_to_m.
    2:{ destruct (str_nonneg h Hh) as (d & ds & -> & D & _).
        simpl in D. apply andb_true_iff in D. cbn [append]. tauto. }
    replace ((Display.str h ++ "h " ++ Display.str m) ++ "m")
      with (Display.str h ++ "h " ++ Display.str m ++ "m")
      by (rewrite !append_assoc; reflexivity).
    unfold parse_time. rewrite time_spent_parses by lia.
    cbn [rbind]. rewrite Hz. reflexivity.
Qed.

Lemma X13_format_time_round_trip_witness :
  Display.format_time 1 30 = "1h 30m"
  /\ parse_time (Display.format_time 1 30) = OK (1, 30).
Proof.
  split; [reflexivity |].
  exact (X13_format_time_round_trip 1 30 ltac:(lia) ltac:(lia)).
Defined.

(** ** What a run keeps true of the class *)

Lemma parse_time_log_line_ok (w : env) (s : string) (st st1 : state)
    (t : string) (tm : Z * Z) (desc : string) :
  parse_time_log_line w s st = (OK (t, tm, desc), st1) ->
  parse_ticket (part (Text.split "," 2 s) 0) = OK t
  /\ parse_time (part (Text.split "," 2 s) 1) = OK tm
  /\ desc = part (Text.split "," 2 s) 2.
Proof.
  unfold parse_time_log_line, bind, lift, get, ret.
  destruct (parse_ticket _) as [t0 |] eqn:Ht; [| discriminate].
  destruct (parse_time _) as [tm0 |] eqn:Htm; [| discriminate].
  destruct (parse_only (self st)).
  - intros H; inversion H; subst. auto.
  - destruct (assert_ticket_exists w t0 st) as [[u | e] st2]; [| discriminate].
    intros H; inversion H; subst. auto.
Qed.

Lemma parse_time_positive (s : string) (h m : Z) :
  parse_time s = OK (h, m) -> 0 <= h /\ 0 <= m /\ (0 < h \/ 0 < m).
Proof.
  unfold parse_time.
  destruct (hours_minutes s) as [[h' m'] | e] eqn:Hhm; cbn [rbind]; [| discriminate].
  destruct ((h' =? 0) && (m' =? 0)) eqn:Hz; [discriminate |].
  intros H. inversion H; subst.
  destruct (hours_minutes_nonneg s h m Hhm) as [Hh Hm].
  apply andb_false_iff in Hz. repeat split; auto.
  destruct Hz as [Hz | Hz]; apply Z.eqb_neq in Hz; lia.
Qed.

(** What [load_lines] adds, when it succeeds, are entries of lines the
    time-entry parser accepted. *)
Lemma load_lines_entries (w : env) (P : log -> Prop) :
  (forall s st st1 t tm desc d,
      parse_time_log_line w s st = (OK (t, tm, desc), st1) ->
      P {| log_date := d; ticket := t; description := desc;
           hours := fst tm; minutes := snd tm |}) ->
  forall (lines : list string) (n : Z) (st st' : state),
    load_lines w n lines st = (OK tt, st') ->
    exists new, logs (cls st') = (logs (cls st) ++ new)%list /\ Forall P new.
Proof.
  intros HP lines. induction lines as [| l lines IH]; intros n st st'.
  - simpl. unfold ret. intros H; inversion H; subst.
    exists []. rewrite app_nil_r. auto.
  - rewrite load_lines_cons.
    destruct (Text.is_empty (Text.strip l)); [apply IH |].
    destruct (parse_line w l st) as [[[] | e] st1] eqn:Hl; [| discriminate].
    intros H. destruct (IH _ _ _ H) as (new & Hlogs & Hnew).
    apply parse_line_ok in Hl.
    destruct (parse_date_line (now (self st)) (normalize l)) as [d | e].
    + destruct Hl as [_ ->]. exists new. auto.
    + destruct Hl as (_ & _ & t & tm & desc & st2 & Hp & ->).
      simpl in Hlogs. eexists (_ :: new). rewrite Hlogs, <- app_assoc.
      split; [reflexivity |]. constructor; [| exact Hnew].
      exact (HP _ _ _ _ _ _ _ Hp).
Qed.

Lemma load_lines_well_formed (w : env) (lines : list string) (n : Z)
    (st st' : state) :
  load_lines w n lines st = (OK tt, st') ->
  exists new,
    logs (cls st') = (logs (cls st) ++ new)%list
    /\ Forall (fun l => ticket_shape (ticket l) /\ positive_duration l) new.
Proof.
  apply load_lines_entries.
  intros s st0 st1 t [h m] desc d Hp.
  destruct (parse_time_log_line_ok w _ _ _ _ _ _ Hp) as (Ht & Htm & _).
  split; [exact (parse_ticket_shape _ _ Ht) |].
  exact (parse_time_positive _ _ _ Htm).
Qed.

(** A line that fails leaves the cache of tickets as it was. *)
Lemma parse_time_log_line_raise_tickets (w : env) (s : string) (st st1 : state)
    (e : exn) :
  parse_time_log_line w s st = (Raise e, st1) ->
  tickets (cls st1) = tickets (cls st).
Proof.
  unfold parse_time_log_line, bind, lift, get, ret.
  destruct (parse_ticket _) as [t0 |]; [| intros H; inversion H; reflexivity].
  destruct (parse_time _) as [tm0 |]; [| intros H; inversion H; reflexivity].
  destruct (parse_only (self st)); [discriminate |].
  destruct (assert_ticket_exists w t0 st) as [[u | e0] st2] eqn:Ha; [discriminate |].
  intros H; inversion H; subst. revert Ha.
  unfold assert_ticket_exists, bind, get, ret, append_ticket, raise.
  destruct (existsb _ _); [discriminate |].
  destruct (issue_found w t0); [discriminate |].
  intros H'; inversion H'; reflexivity.
Qed.

Lemma parse_line_raise_tickets (w : env) (line : string) (st st' : state) (e : exn) :
  parse_line w line st = (Raise e, st') ->
  tickets (cls st') = tickets (cls st).
Proof.
  destruct (mode (self st)) eqn:Hmode.
  - rewrite (parse_line_in_date w line st Hmode), parse_line_date_eq.
    destruct (parse_date_line _ _) as [d | e0]; [discriminate |].
    intros H; inversion H; subst. reflexivity.
  - rewrite (parse_line_in_time_log w line st Hmode), parse_line_time_log_eq.
    destruct (parse_time_log_line w (normalize line) st)
      as [[[[t tm] desc] | e0] st1] eqn:Ht; [discriminate |].
    apply parse_time_log_line_raise_tickets in Ht.
    intros H; inversion H; subst. exact Ht.
  - rewrite (parse_line_in_either w line st Hmode), parse_line_date_eq.
    destruct (parse_date_line _ _) as [d | e0]; [discriminate |].
    rewrite parse_line_time_log_eq.
    destruct (parse_time_log_line w (normalize line) _)
      as [[[[t tm] desc] | e1] st1] eqn:Ht; [discriminate |].
    apply parse_time_log_line_raise_tickets in Ht.
    intros H; inversion H; subst. exact Ht.
Qed.

Lemma load_lines_ok_class (w : env) (lines : list string) (n : Z)
    (st st' : state) :
  self_ok w (self st) -> class_ok w (cls st) ->
  load_lines w n lines st = (OK tt, st') ->
  class_ok w (cls st').
Proof.
  intros (Hpo & Hnow & Hcur) (Hsound & Hk & Hnd & Hin) H.
  assert (Hd : Forall (dated (started w)) (logs (cls st'))).
  { rewrite <- Hnow. apply (load_lines_dated w lines n st st'); [| | exact H].
    - rewrite Hnow. exact Hcur.
    - rewrite Hnow. revert Hsound. apply Forall_impl. intros l Hl. apply Hl. }
  destruct (load_lines_well_formed w lines n st st' H) as (new & Hlogs & Hnew).
  destruct (load_lines_checked w lines n st st' Hpo Hk Hnd H)
    as (Hk' & Hnd' & Hincl & new' & Hlogs' & Hnew').
  assert (new' = new) by (rewrite Hlogs in Hlogs'; apply app_inv_head in Hlogs'; auto).
  subst new'.
  split; [| split; [exact Hk' | split; [exact Hnd' |]]].
  - rewrite Forall_forall in Hd. apply Forall_forall. intros l Hl.
    split; [exact (Hd l Hl) |].
    rewrite Hlogs in Hl. apply in_app_or in Hl. destruct Hl as [Hl | Hl].
    + rewrite Forall_forall in Hsound. apply (Hsound l Hl).
    + rewrite Forall_forall in Hnew. destruct (Hnew l Hl) as [Hshape Hpos].
      split; [exact (ticket_shape_match _ Hshape) | exact Hpos].
  - rewrite Hlogs. apply Forall_app. split.
    + revert Hin. apply Forall_impl. intros l Hl. apply Hincl, Hl.
    + revert Hnew'. apply Forall_impl. intros l [Hl _]. exact Hl.
Qed.

Lemma load_lines_class (w : env) (lines : list string) (n : Z)
    (st st' : state) (r : result unit) :
  self_ok w (self st) -> class_ok w (cls st) ->
  load_lines w n lines st = (r, st') ->
  class_ok w (cls st').
Proof.
  intros Hself Hcls H. destruct r as [[] | e].
  - exact (load_lines_ok_class w lines n st st' Hself Hcls H).
  - destruct (load_lines_raise w _ _ _ _ _ H)
      as (pre & line & rest & cause & stp & _ & _ & Hpre & Hl).
    pose proof (load_lines_ok_class w pre n st stp Hself Hcls Hpre) as Hp.
    destruct (parse_line_raise w _ _ _ _ Hl) as (_ & Hlogs & _).
    pose proof (parse_line_raise_tickets w _ _ _ _ Hl) as Htk.
    unfold class_ok, cache_ok in *. rewrite Hlogs, Htk. exact Hp.
Qed.

Lemma class_ok_perm (w : env) (st : state) (l' : list log) :
  Permutation (logs (cls st)) l' ->
  class_ok w (cls st) -> class_ok w (cls (with_logs l' st)).
Proof.
  intros Hp (Hs & Hk & Hnd & Hin). unfold class_ok, cache_ok. simpl.
  split; [exact (Permutation_Forall Hp Hs) |].
  split; [exact Hk |]. split; [exact Hnd |].
  exact (Permutation_Forall Hp Hin).
Qed.

Lemma load_logs_class (w : env) (lines : list string)
    (st st' : state) (r : result unit) :
  self_ok w (self st) -> class_ok w (cls st) ->
  load_logs w lines st = (r, st') ->
  class_ok w (cls st').
Proof.
  intros Hself Hcls. unfold load_logs, bind, get, lift, set_logs.
  destruct (load_lines w 0 lines st) as [[[] | e] stl] eqn:Hl.
  - pose proof (load_lines_class w lines 0 st stl _ Hself Hcls Hl) as Hc.
    destruct (sort_logs (logs (cls stl))) as [l' | e] eqn:Hs.
    + intros H; inversion H; subst.
      apply class_ok_perm; [| exact Hc].
      exact (proj2 (sort_logs_sorted _ _ Hs)).
    + intros H; inversion H; subst. exact Hc.
  - intros H; inversion H; subst.
    exact (load_lines_class w lines 0 st st' _ Hself Hcls Hl).
Qed.

Lemma upload_logs_incl (w : env) (ls : list log) :
  incl (fst (upload_logs w ls)) ls.
Proof.
  induction ls as [| l ls IH]; simpl; [apply incl_refl |].
  destruct (worklog_accepted w l); [| intros x []].
  destruct (upload_logs w ls) as [done ok]. simpl in *.
  intros x [<- | Hx]; [left; reflexivity | right; exact (IH x Hx)].
Qed.

Lemma init_class (w : env) (lines : list string) (po : bool) (c : class_attrs) :
  exists r st,
    load_logs w lines {| cls := c; self := new_self w po |} = (r, st)
    /\ snd (init w lines po c) = cls st
    /\ incl (uploaded (fst (init w lines po c))) (logs (cls st)).
Proof.
  unfold init.
  destruct (load_logs w lines _) as [[[] | e] st].
  - exists (OK tt), st. split; [reflexivity |].
    destruct (logs (cls st)) as [| l ls] eqn:Hlogs;
      [simpl; split; [reflexivity | intros x []] |].
    destruct (print_summary (l :: ls)) as [r | e];
      [| simpl; split; [reflexivity | intros x []]].
    destruct po; [simpl; split; [reflexivity | intros x []] |].
    destruct (upload_confirmed w); [| simpl; split; [reflexivity | intros x []]].
    pose proof (upload_logs_incl w (l :: ls)) as Hi.
    destruct (upload_logs w (l :: ls)) as [done ok].
    simpl in *. split; [reflexivity | exact Hi].
  - exists (Raise e), st. simpl. split; [reflexivity |].
    split; [reflexivity | intros x []].
Qed.

(** X14.  A run with the tracker keeps the class in order.  If before the
    run every entry has a date of the calendar that is not in the future,
    a ticket in normal form (one the ticket parser reads as itself) that
    is in the cache, and a positive duration,
    and the cache holds tickets the tracker knows, each once, then the
    same holds after the run, whatever the file and however the run ends.
    What is uploaded is among these entries. *)
Theorem X14_run_keeps_class_in_order
    (w : env) (lines : list string) (c c' : class_attrs) (out : outcome) :
  class_ok w c ->
  init w lines false c = (out, c') ->
  class_ok w c' /\ incl (uploaded out) (logs c').
Proof.
  intros Hc H.
  destruct (init_class w lines false c) as (r & st & Hl & Hsnd & Hincl).
  rewrite H in Hsnd, Hincl. simpl in Hsnd, Hincl. subst c'.
  split; [| exact Hincl].
  apply (load_logs_class w lines _ st r) in Hl; [exact Hl | | exact Hc].
  simpl. split; [reflexivity |]. split; [reflexivity |].
  simpl. congruence.
Qed.

Lemma X14_run_keeps_class_in_order_witness :
  class_ok Online.world class_body
  /\ class_ok Online.world (snd (init Online.world Sample.lines false class_body))
  /\ incl (uploaded (fst (init Online.world Sample.lines false class_body)))
          (logs (snd (init Online.world Sample.lines false class_body))).
Proof.
  assert (Hc : class_ok Online.world class_body).
  { repeat split; simpl; constructor. }
  split; [exact Hc |].
  apply (X14_run_keeps_class_in_order Online.world Sample.lines class_body _ _ Hc).
  vm_compute. reflexivity.
Defined.

(** ** The parts of a time entry *)

Lemma split_at_comma_none (s : string) :
  all_in not_comma s = true -> Text.split_at "," s = (s, None).
Proof.
  induction s as [| c s IH]; simpl; [reflexivity |].
  intros H. apply andb_true_iff in H. destruct H as [Hc Hs].
  unfold not_comma in Hc. apply negb_true_iff in Hc. rewrite Hc, (IH Hs).
  reflexivity.
Qed.

Lemma split_at_comma_some (p r : string) :
  all_in not_comma p = true ->
  Text.split_at "," (p ++ String "," r) = (p, Some r).
Proof.
  induction p as [| c p IH]; simpl; [reflexivity |].
  intros H. apply andb_true_iff in H. destruct H as [Hc Hs].
  unfold not_comma in Hc. apply negb_true_iff in Hc. rewrite Hc, (IH Hs).
  reflexivity.
Qed.

(** X15.  What follows the second comma of a time entry, further commas
    included, is the description, and nothing else of the entry depends
    on it. *)
Theorem X15_description_keeps_commas
    (w : env) (t tm desc : string) (st : state) :
  all_in not_comma t = true ->
  all_in not_comma tm = true ->
  parse_time_log_line w (t ++ "," ++ tm ++ "," ++ desc) st
  = with_description (Text.strip desc)
      (parse_time_log_line w (t ++ "," ++ tm) st).
Proof.
  intros Ht Htm.
  assert (H3 : Text.split "," 2 (t ++ "," ++ tm ++ "," ++ desc) = [t; tm; desc]).
  { cbn [Text.split]. 
    change (t ++ "," ++ tm ++ "," ++ desc) with (t ++ String "," (tm ++ String "," desc)).
    rewrite (split_at_comma_some t _ Ht), (split_at_comma_some tm _ Htm).
    reflexivity. }
  assert (H2 : Text.split "," 2 (t ++ "," ++ tm) = [t; tm]).
  { cbn [Text.split].
    change (t ++ "," ++ tm) with (t ++ String "," tm).
    rewrite (split_at_comma_some t _ Ht), (split_at_comma_none tm Htm).
    reflexivity. }
  unfold parse_time_log_line. rewrite H3, H2.
  unfold part, bind, lift, get, ret. cbn [nth_error].
  destruct (parse_ticket (Text.strip t)) as [tk | e]; [| reflexivity].
  destruct (parse_time (Text.strip tm)) as [hm | e]; [| reflexivity].
  destruct (parse_only (self st)); [reflexivity |].
  destruct (assert_ticket_exists w tk st) as [[[] | e] st1]; reflexivity.
Qed.

Lemma X15_description_keeps_commas_witness :
  all_in not_comma "PROJ-1" = true
  /\ all_in not_comma " 1h30m" = true
  /\ parse_time_log_line Sample.world
       ("PROJ-1" ++ "," ++ " 1h30m" ++ "," ++ " one, two, three") Either.st
     = (OK ("PROJ-1", (1, 30), "one, two, three"), Either.st).
Proof.
  split; [reflexivity |]. split; [reflexivity |].
  rewrite (X15_description_keeps_commas Sample.world "PROJ-1" " 1h30m"
             " one, two, three" Either.st); [| reflexivity | reflexivity].
  vm_compute. reflexivity.
Defined.

(** X16.  A file of blank lines is an empty file; with no entry held from an
    earlier run it ends the run with 'No logs found', the class left as it
    was, nothing printed and nothing uploaded. *)
Theorem X16_blank_file_no_logs
    (w : env) (blanks : list string) (po : bool) (c : class_attrs) :
  forallb blank blanks = true ->
  init w blanks po c = init w [] po c
  /\ (logs c = [] ->
      init w blanks po c
      = ({| exit := NoLogsFound; printed := None; uploaded := [] |}, c)).
Proof.
  intros Hb.
  assert (He : init w blanks po c = init w [] po c).
  { unfold init, load_logs, bind.
    rewrite <- (app_nil_r blanks) at 1.
    rewrite (load_lines_blank_prefix w blanks [] 0 _ Hb). reflexivity. }
  split; [exact He |].
  intros Hl. rewrite He. destruct c as [ls ts]. simpl in Hl. subst ls.
  reflexivity.
Qed.

Lemma X16_blank_file_no_logs_witness :
  forallb blank [""; "   "] = true
  /\ init Sample.world [""; "   "] false class_body
     = ({| exit := NoLogsFound; printed := None; uploaded := [] |}, class_body).
Proof.
  split; [reflexivity |].
  apply (X16_blank_file_no_logs Sample.world [""; "   "] false class_body);
    reflexivity.
Defined.

(** ** The order of the collection, in the words of the claim *)

Lemma number_digits_val (s : string) (acc : Z) :
  fold_left (fun a c => 10 * a + (Z.of_N (N_of_ascii c) - 48))
            (list_ascii_of_string s) acc
  = Text.digits_val acc s.
Proof.
  revert acc. induction s as [| c s IH]; intros acc; [reflexivity |].
  cbn [list_ascii_of_string fold_left Text.digits_val]. rewrite IH. reflexivity.
Qed.

Lemma claimed_number (s : string) : Claimed.number s = Text.digits_val 0 s.
Proof. apply number_digits_val. Qed.

Lemma compare_lt_earlier (a b : date) :
  Calendar.compare a b = Lt <-> Claimed.earlier a b.
Proof.
  unfold Calendar.compare, Claimed.earlier.
  destruct (year a ?= year b) eqn:Ey;
    [apply Z.compare_eq in Ey | rewrite Z.compare_lt_iff in Ey
     | rewrite Z.compare_gt_iff in Ey];
    [| split; [intros _; left; exact Ey | reflexivity]
     | split; [discriminate | lia]].
  destruct (month a ?= month b) eqn:Em;
    [apply Z.compare_eq in Em | rewrite Z.compare_lt_iff in Em
     | rewrite Z.compare_gt_iff in Em];
    [| split; [intros _; right; split; [exact Ey | left; exact Em] | reflexivity]
     | split; [discriminate | lia]].
  rewrite Z.compare_lt_iff. split; [intros H; right; auto | lia].
Qed.

Lemma upper_alnum_not_hyphen (c : ascii) :
  is_upper_alnum c = true -> not_hyphen c = true.
Proof.
  intros H. destruct c as [b0 b1 b2 b3 b4 b5 b6 b7].
  destruct b0, b1, b2, b3, b4, b5, b6, b7;
    try (vm_compute in H; discriminate H); reflexivity.
Qed.

(** A ticket in normal form has its parts. *)
Lemma ticket_shape_parts (t : string) :
  ticket_shape t -> exists p n, Claimed.ticket_parts t p n.
Proof.
  intros (c & pre & d & ds & -> & Hc & Hpre & _ & Hds).
  exists (String c pre), (String d ds). unfold Claimed.ticket_parts.
  split; [reflexivity |]. split; [| split; [discriminate | exact Hds]].
  cbn [all_in]. rewrite upper_alnum_not_hyphen
    by (unfold is_upper_alnum; rewrite Hc; reflexivity).
  apply (all_in_impl is_upper_alnum); [exact upper_alnum_not_hyphen | exact Hpre].
Qed.

(** The parts of a ticket are its sort key. *)
Lemma sort_key_parts (l : log) (p n : string) :
  Claimed.ticket_parts (ticket l) p n ->
  sort_key l = OK (log_date l, p, Claimed.number n).
Proof.
  intros (Ht & Hp & Hne & Hn).
  assert (Hnh : all_in not_hyphen n = true).
  { apply (all_in_impl Text.is_digit); [| exact Hn].
    intros x Hx. apply (digit_upper_facts x Hx). }
  unfold sort_key, Text.split_all. rewrite Ht.
  assert (Hlen : exists k, String.length (p ++ String "-" n) = S (S k)).
  { rewrite length_append. destruct n as [| d ds]; [congruence |].
    simpl. exists (String.length p + String.length ds)%nat. lia. }
  destruct Hlen as [k ->].
  cbn [Text.split]. rewrite (split_at_some _ _ Hp).
  cbn [Text.split]. rewrite (split_at_none _ Hnh).
  cbn [nth_error of_option rbind].
  destruct n as [| d ds]; [congruence |].
  rewrite (int_digits d ds Hn). cbn [of_option rbind].
  rewrite claimed_number. reflexivity.
Qed.

(** On entries with a date and a ticket in parts, the order of the sort is
    the order of the claim. *)
Lemma in_order_claimed (a b : log) :
  (exists d, log_date a = Some d) -> (exists p n, Claimed.ticket_parts (ticket a) p n) ->
  (exists d, log_date b = Some d) -> (exists p n, Claimed.ticket_parts (ticket b) p n) ->
  in_order a b -> Claimed.before_or_equal a b.
Proof.
  intros [da Hda] (pa & na & Hpa) [db Hdb] (pb & nb & Hpb) (ka & kb & Ha & Hb & H).
  rewrite (sort_key_parts a pa na Hpa) in Ha.
  rewrite (sort_key_parts b pb nb Hpb) in Hb.
  inversion Ha; inversion Hb; subst ka kb; clear Ha Hb.
  exists da, db, pa, pb, na, nb.
  repeat (split; [assumption |]).
  unfold before_or_equal in H. rewrite Hda, Hdb in H. cbn [date_key_compare] in H.
  destruct H as [H | [Heq H]].
  - left. apply compare_lt_earlier, H.
  - right. split; [congruence | exact H].
Qed.

Lemma claimed_in_order (a b : log) :
  Claimed.before_or_equal a b -> in_order a b.
Proof.
  intros (da & db & pa & pb & na & nb & Hda & Hdb & Hpa & Hpb & H).
  exists (log_date a, pa, Claimed.number na), (log_date b, pb, Claimed.number nb).
  split; [exact (sort_key_parts a pa na Hpa) |].
  split; [exact (sort_key_parts b pb nb Hpb) |].
  unfold before_or_equal. rewrite Hda, Hdb. cbn [date_key_compare].
  destruct H as [H | [-> H]].
  - left. apply compare_lt_earlier, H.
  - right. split; [reflexivity | exact H].
Qed.

Lemma StronglySorted_on {A : Type} (R S : A -> A -> Prop) (P : A -> Prop)
    (l : list A) :
  (forall a b, P a -> P b -> R a b -> S a b) ->
  Forall P l -> StronglySorted R l -> StronglySorted S l.
Proof.
  intros HRS HP Hs. induction Hs as [| x l Hs IH Hx]; [constructor |].
  inversion HP as [| ? ? Px Pl]; subst.
  constructor; [exact (IH Pl) |].
  rewrite Forall_forall in *. intros y Hy. apply HRS; auto.
Qed.

(** Every entry of a load from the start of a process has a date and a
    ticket in parts. *)
Lemma load_lines_keyed (w : env) (lines : list string) (po : bool) (stl : state) :
  load_lines w 0 lines (process_start w po) = (OK tt, stl) ->
  Forall (fun l => (exists d, log_date l = Some d)
                   /\ exists p n, Claimed.ticket_parts (ticket l) p n)
         (logs (cls stl)).
Proof.
  intros H.
  assert (Hd : Forall (dated (now (self (process_start w po)))) (logs (cls stl))).
  { apply (load_lines_dated w lines 0 (process_start w po) stl);
      [simpl; congruence | constructor | exact H]. }
  destruct (load_lines_well_formed w lines 0 (process_start w po) stl H)
    as (new & Hlogs & Hnew).
  simpl in Hlogs. rewrite Hlogs in *.
  rewrite Forall_forall in *. intros l Hl. split.
  - destruct (Hd l Hl) as (d & Hdl & _). eauto.
  - apply ticket_shape_parts. apply (Hnew l Hl).
Qed.

Lemma load_logs_inv (w : env) (lines : list string) (st st' : state) :
  load_logs w lines st = (OK tt, st') ->
  exists stl,
    load_lines w 0 lines st = (OK tt, stl)
    /\ sort_logs (logs (cls stl)) = OK (logs (cls st')).
Proof.
  unfold load_logs, bind, get, lift, set_logs.
  destruct (load_lines w 0 lines st) as [[[] | e] stl]; [| discriminate].
  destruct (sort_logs (logs (cls stl))) as [l' |] eqn:Hs; [| discriminate].
  intros H; inversion H; subst; clear H. exists stl. auto.
Qed.

(** C8.  After a load that succeeds the collection is in order.  From the
    start of a process, on a file of lines of ASCII characters no longer
    than [int] converts, every entry has a date and a ticket made of a
    project prefix, a hyphen and a number, and every entry is before or
    equal to every later one by date ascending, then by project prefix
    ascending, then by the number ascending, the number compared as an
    integer.  From any state the same holds of the keys the sort
    computes.  The collection holds the entries the lines produced, and
    no others.  From the start of a process, on such lines, the load
    succeeds whenever every line parses.  A later date comes after an
    earlier one, ZZ-1 after AB-2, and PROJ-9 before PROJ-10. *)
Theorem C8_collection_sorted :
  (forall w lines po st',
      forallb plain lines = true ->
      load_logs w lines (process_start w po) = (OK tt, st') ->
      StronglySorted Claimed.before_or_equal (logs (cls st')))
  /\ (forall w lines st st',
      load_logs w lines st = (OK tt, st') ->
      StronglySorted in_order (logs (cls st'))
      /\ exists stl,
           load_lines w 0 lines st = (OK tt, stl)
           /\ Permutation (logs (cls stl)) (logs (cls st')))
  /\ (forall w lines po stl,
      forallb plain lines = true ->
      load_lines w 0 lines (process_start w po) = (OK tt, stl) ->
      exists st', load_logs w lines (process_start w po) = (OK tt, st'))
  /\ sort_logs [Numbered.proj10; Numbered.proj9]
     = OK [Numbered.proj9; Numbered.proj10]
  /\ sort_logs [Ordered.zz1; Ordered.ab2] = OK [Ordered.ab2; Ordered.zz1]
  /\ sort_logs [Ordered.ab1_jan6; Ordered.zz1] = OK [Ordered.zz1; Ordered.ab1_jan6]
  /\ Claimed.before_or_equal Numbered.proj9 Numbered.proj10
  /\ ~ Claimed.before_or_equal Numbered.proj10 Numbered.proj9
  /\ ~ Claimed.before_or_equal Ordered.zz1 Ordered.ab2
  /\ ~ Claimed.before_or_equal Ordered.ab1_jan6 Ordered.zz1.
Proof.
  assert (Hno : forall a b ka kb,
             sort_key a = OK ka -> sort_key b = OK kb ->
             key_leb ka kb = false -> ~ Claimed.before_or_equal a b).
  { intros a b ka kb Ha Hb Hk Hc. apply claimed_in_order in Hc.
    destruct Hc as (ka' & kb' & Ha' & Hb' & Hc).
    assert (Ea : ka' = ka) by congruence.
    assert (Eb : kb' = kb) by congruence.
    subst ka' kb'. apply (proj2 (key_leb_spec ka kb)) in Hc. congruence. }
  split; [| split; [| split; [| split; [| split; [| split; [| split;
    [| split; [| split]]]]]]]].
  - intros w lines po st' _ H.
    destruct (load_logs_inv w lines _ st' H) as (stl & Hl & Hs).
    destruct (sort_logs_sorted _ _ Hs) as [Hsorted Hperm].
    apply (StronglySorted_on in_order _
             (fun l => (exists d, log_date l = Some d)
                       /\ exists p n, Claimed.ticket_parts (ticket l) p n)).
    + intros a b [Da Pa] [Db Pb]. apply in_order_claimed; assumption.
    + apply (Permutation_Forall Hperm). exact (load_lines_keyed w lines po stl Hl).
    + exact Hsorted.
  - intros w lines st st' H.
    destruct (load_logs_inv w lines _ st' H) as (stl & Hl & Hs).
    destruct (sort_logs_sorted _ _ Hs) as [Hsorted Hperm].
    split; [exact Hsorted |]. exists stl. split; [exact Hl | exact Hperm].
  - intros w lines po stl _. apply load_logs_total.
  - vm_compute. reflexivity.
  - vm_compute. reflexivity.
  - vm_compute. reflexivity.
  - apply in_order_claimed.
    + eexists; reflexivity.
    + exists "PROJ", "9". repeat split; discriminate.
    + eexists; reflexivity.
    + exists "PROJ", "10". repeat split; discriminate.
    + exists (Some Sample.jan5, "PROJ", 9), (Some Sample.jan5, "PROJ", 10).
      repeat split; try (vm_compute; reflexivity).
      right. split; [reflexivity |]. right. split; [reflexivity | lia].
  - apply (Hno _ _ (Some Sample.jan5, "PROJ", 10) (Some Sample.jan5, "PROJ", 9));
      vm_compute; reflexivity.
  - apply (Hno _ _ (Some Sample.jan5, "ZZ", 1) (Some Sample.jan5, "AB", 2));
      vm_compute; reflexivity.
  - apply (Hno _ _ (Some Sample.jan6, "AB", 1) (Some Sample.jan5, "ZZ", 1));
      vm_compute; reflexivity.
Qed.

Lemma C8_collection_sorted_witness :
  forallb plain Ordered.lines = true
  /\ load_logs Sample.world Ordered.lines (process_start Sample.world true)
     = (OK tt,
        {| cls := {| logs := [Ordered.ab2; Numbered.proj9; Numbered.proj10;
                              Ordered.zz1; Ordered.ab1_jan6];
                     tickets := [] |};
           self := {| mode := date_or_time_log;
                      current_date := Some Sample.jan5;
                      parse_only := true;
                      now := started Sample.world |} |})
  /\ StronglySorted Claimed.before_or_equal
       [Ordered.ab2; Numbered.proj9; Numbered.proj10; Ordered.zz1;
        Ordered.ab1_jan6]
  /\ exists st',
       load_logs Sample.world Ordered.lines (process_start Sample.world true)
       = (OK tt, st').
Proof.
  split; [reflexivity |].
  split; [vm_compute; reflexivity |].
  split;
    [| exact (proj1 (proj2 (proj2 C8_collection_sorted))
                Sample.world Ordered.lines true
                (snd (load_lines Sample.world 0 Ordered.lines
                        (process_start Sample.world true)))
                ltac:(reflexivity) ltac:(vm_compute; reflexivity))].
  exact (proj1 C8_collection_sorted Sample.world Ordered.lines true
           {| cls := {| logs := [Ordered.ab2; Numbered.proj9; Numbered.proj10;
                                 Ordered.zz1; Ordered.ab1_jan6];
                        tickets := [] |};
              self := {| mode := date_or_time_log;
                         current_date := Some Sample.jan5;
                         parse_only := true;
                         now := started Sample.world |} |}
           ltac:(reflexivity) ltac:(vm_compute; reflexivity)).
Defined.

(** ** Two runs of the script *)

Lemma after_false (d : date) (c : clock) :
  after d c = false <-> Calendar.compare d (today c) <> Gt.
Proof.
  unfold after. destruct (Calendar.compare d (today c)).
  - replace (since_midnight c <? 0)%N with false
      by (symmetry; apply N.ltb_ge; lia).
    split; [discriminate | reflexivity].
  - split; [discriminate | reflexivity].
  - split; [discriminate | congruence].
Qed.

Lemma calendar_compare_fields (a b : date) :
  (Calendar.compare a b = Lt <-> Claimed.earlier a b)
  /\ (Calendar.compare a b = Gt <-> Claimed.earlier b a).
Proof.
  split; [apply compare_lt_earlier |].
  unfold Calendar.compare, Claimed.earlier.
  destruct (year a ?= year b) eqn:Ey;
    [apply Z.compare_eq in Ey | rewrite Z.compare_lt_iff in Ey
     | rewrite Z.compare_gt_iff in Ey];
    [| split; [discriminate | lia] | split; [intros _; left; exact Ey | reflexivity]].
  destruct (month a ?= month b) eqn:Em;
    [apply Z.compare_eq in Em | rewrite Z.compare_lt_iff in Em
     | rewrite Z.compare_gt_iff in Em];
    [| split; [discriminate | lia]
     | split; [intros _; right; split; [lia | left; exact Em] | reflexivity]].
  rewrite Z.compare_gt_iff. split; [intros H; right; split; [lia | right; lia] | lia].
Qed.

(** What is not in the future for a run is not in the future for a later
    run. *)
Lemma after_later (d : date) (c1 c2 : clock) :
  not_before c2 c1 -> after d c1 = false -> after d c2 = false.
Proof.
  unfold not_before. rewrite !after_false. intros H21 H1 H2.
  apply calendar_compare_fields in H2.
  assert (Hn1 : ~ Claimed.earlier (today c1) d)
    by (intros E; apply H1, calendar_compare_fields, E).
  assert (Hn2 : ~ Claimed.earlier (today c2) (today c1))
    by (intros E; apply H21, calendar_compare_fields, E).
  unfold Claimed.earlier in *. lia.
Qed.

Lemma parse_date_line_later (c1 c2 : clock) (line : string) (d : date) :
  not_before c2 c1 ->
  parse_date_line c1 line = OK d -> parse_date_line c2 line = OK d.
Proof.
  intros Hc H. apply (parse_date_line_clock c1 c2 line d H).
  apply (after_later d c1 c2 Hc). apply (date_ok_of_heading c1 line d H).
Qed.

Lemma parse_date_line_no_match (c1 c2 : clock) (line : string) :
  parse_date_line c1 line = Raise PatternNotMatched ->
  parse_date_line c2 line = Raise PatternNotMatched.
Proof. intros H. apply parse_date_line_mismatch in H. apply parse_date_line_mismatch, H. Qed.

(** The time-entry parser reads of the world the issues of the tracker
    only, and of the state the cache of tickets and [parse_only]. *)
Lemma parse_time_log_line_alike (w1 w2 : env) (s : string) (s1 s2 s1' : state)
    (r : string * (Z * Z) * string) :
  same_issues w1 w2 ->
  tickets (cls s2) = tickets (cls s1) ->
  parse_only (self s2) = parse_only (self s1) ->
  parse_time_log_line w1 s s1 = (OK r, s1') ->
  exists s2',
    parse_time_log_line w2 s s2 = (OK r, s2')
    /\ tickets (cls s2') = tickets (cls s1').
Proof.
  intros Hi Ht Hp. unfold parse_time_log_line, bind, lift, get, ret.
  destruct (parse_ticket _) as [t |]; [| discriminate].
  destruct (parse_time _) as [tm |]; [| discriminate].
  rewrite Hp. destruct (parse_only (self s1)).
  - intros H; inversion H; subst. eexists. split; [reflexivity | exact Ht].
  - unfold assert_ticket_exists, bind, get, ret, append_ticket, raise.
    rewrite Ht, Hi.
    destruct (existsb (String.eqb t) (tickets (cls s1))).
    + intros H; inversion H; subst. eexists. split; [reflexivity | exact Ht].
    + destruct (issue_found w1 t); [| discriminate].
      intros H; inversion H; subst. eexists. split; [reflexivity |].
      simpl. rewrite Ht. reflexivity.
Qed.

(** A line the first run reads, the second run reads alike. *)
Lemma parse_line_alike (w1 w2 : env) (line : string) (s1 s2 s1' : state) :
  not_before (started w2) (started w1) -> same_issues w1 w2 ->
  alike w1 w2 s1 s2 ->
  parse_line w1 line s1 = (OK tt, s1') ->
  exists s2', parse_line w2 line s2 = (OK tt, s2') /\ alike w1 w2 s1' s2'.
Proof.
  intros Hc Hi (Hcls & Hmode & Hcur & Hpo & Hn1 & Hn2) H.
  apply parse_line_ok in H. rewrite Hn1 in H.
  destruct (parse_date_line (started w1) (normalize line)) as [d | e] eqn:Hd.
  - destruct H as [Hm ->].
    apply (parse_date_line_later _ (started w2) _ _ Hc) in Hd.
    exists (with_mode time_log (with_current_date d s2)). split.
    + destruct (mode (self s1)) eqn:Em; [| congruence |].
      * rewrite (parse_line_in_date w2 line s2 Hmode), parse_line_date_eq, Hn2, Hd.
        reflexivity.
      * rewrite (parse_line_in_either w2 line s2 Hmode), parse_line_date_eq.
        simpl now. rewrite Hn2, Hd. reflexivity.
    + unfold alike. simpl. repeat split; auto.
  - destruct H as (Hm & -> & t & tm & desc & st1 & Hp & ->).
    apply (parse_date_line_no_match _ (started w2)) in Hd.
    destruct (parse_time_log_line_frame w1 _ _ _ _ Hp) as [Hself1 Hlogs1].
    destruct (parse_time_log_line_alike w1 w2 _ s1 s2 st1 _ Hi
                ltac:(rewrite Hcls; reflexivity) Hpo Hp) as (st2 & Hp2 & Htk).
    destruct (parse_time_log_line_frame w2 _ _ _ _ Hp2) as [Hself2 Hlogs2].
    exists (with_mode date_or_time_log
              (with_logs (logs (cls s2)
                          ++ [ {| log_date := current_date (self s2);
                                  ticket := t; description := desc;
                                  hours := fst tm; minutes := snd tm |} ])
                         st2)).
    split.
    + destruct (mode (self s1)) eqn:Em; [congruence | |].
      * rewrite (parse_line_in_time_log w2 line s2 Hmode), parse_line_time_log_eq, Hp2.
        rewrite Hself2, Hlogs2. reflexivity.
      * rewrite (parse_line_in_either w2 line s2 Hmode), parse_line_date_eq.
        simpl now. rewrite Hn2, Hd.
        rewrite parse_line_time_log_eq, !parse_time_log_line_mode, Hp2.
        unfold with_mode, with_logs. simpl. rewrite Hself2, Hlogs2. reflexivity.
    + unfold alike. simpl. rewrite Hself1, Hself2, Hcls, Hcur, Htk.
      repeat split; auto.
Qed.

Lemma load_lines_alike (w1 w2 : env) (lines : list string) (n : Z)
    (s1 s2 s1' : state) :
  not_before (started w2) (started w1) -> same_issues w1 w2 ->
  alike w1 w2 s1 s2 ->
  load_lines w1 n lines s1 = (OK tt, s1') ->
  exists s2', load_lines w2 n lines s2 = (OK tt, s2') /\ alike w1 w2 s1' s2'.
Proof.
  intros Hc Hi. revert n s1 s2.
  induction lines as [| l lines IH]; intros n s1 s2 Ha.
  - simpl. unfold ret. intros H; inversion H; subst. eauto.
  - rewrite !load_lines_cons.
    destruct (Text.is_empty (Text.strip l)); [apply IH, Ha |].
    destruct (parse_line w1 l s1) as [[[] | e] st1] eqn:Hl; [| discriminate].
    destruct (parse_line_alike w1 w2 l s1 s2 st1 Hc Hi Ha Hl) as (st2 & -> & Ha').
    apply IH, Ha'.
Qed.

(** A load adds one entry for each line that is a time entry. *)
Lemma load_lines_count (w : env) (lines : list string) (n : Z) (st st' : state) :
  load_lines w n lines st = (OK tt, st') ->
  List.length (logs (cls st'))
  = (List.length (logs (cls st))
     + List.length (stamps (now (self st)) (current_date (self st)) lines))%nat.
Proof.
  revert n st. induction lines as [| l lines IH]; intros n st.
  - simpl. unfold ret. intros H; inversion H; subst. lia.
  - rewrite load_lines_cons. simpl stamps. unfold blank.
    destruct (Text.is_empty (Text.strip l)); [apply IH |].
    destruct (parse_line w l st) as [[[] | e] st1] eqn:Hl; [| discriminate].
    intros H. rewrite (IH _ _ H).
    rewrite (parse_line_ok_now w l st st1 Hl).
    apply parse_line_ok in Hl.
    destruct (parse_date_line (now (self st)) (normalize l)) as [d | e].
    + destruct Hl as [_ ->]. reflexivity.
    + destruct Hl as (_ & _ & t & tm & desc & st2 & Hp & ->).
      destruct (parse_time_log_line_frame w _ _ _ _ Hp) as [Hs Hlg].
      simpl. rewrite Hs, length_app. simpl. lia.
Qed.

(** C9.  Two runs over the same lines, each in a process of its own and so
    each from the class as its body defines it, yield equal collections:
    when the first run loads the file, a run that is not earlier, with
    the same issues in the tracker, loads it too and ends with the same
    entries in the same order and the same cache of tickets, whatever the
    clocks, the answers at the prompt and what the tracker accepts.  The
    collection holds one entry for each line that is a time entry, and
    no entry of another run; a run that only parses leaves the cache of
    tickets empty. *)
Theorem C9_two_runs_equal
    (w1 w2 : env) (lines : list string) (po : bool) (st1 : state) :
  not_before (started w2) (started w1) ->
  same_issues w1 w2 ->
  load_logs w1 lines (process_start w1 po) = (OK tt, st1) ->
  exists st2,
    load_logs w2 lines (process_start w2 po) = (OK tt, st2)
    /\ logs (cls st2) = logs (cls st1)
    /\ tickets (cls st2) = tickets (cls st1)
    /\ snd (init w2 lines po class_body) = snd (init w1 lines po class_body)
    /\ List.length (logs (cls st1)) = entry_lines (started w1) lines
    /\ (po = true -> tickets (cls st1) = []).
Proof.
  intros Hc Hi H1.
  assert (Ha : alike w1 w2 (process_start w1 po) (process_start w2 po))
    by (repeat split; reflexivity).
  pose proof H1 as H1'. revert H1'.
  unfold load_logs at 1. unfold bind, get, lift, set_logs.
  destruct (load_lines w1 0 lines (process_start w1 po)) as [[[] | e] stl1] eqn:Hl1;
    [| discriminate].
  destruct (sort_logs (logs (cls stl1))) as [l' |] eqn:Hs; [| discriminate].
  intros E; inversion E; subst st1; clear E.
  destruct (load_lines_alike w1 w2 lines 0 _ _ stl1 Hc Hi Ha Hl1)
    as (stl2 & Hl2 & (Hcls & _)).
  assert (H2 : load_logs w2 lines (process_start w2 po) = (OK tt, with_logs l' stl2)).
  { unfold load_logs, bind, get, lift, set_logs. rewrite Hl2, Hcls, Hs. reflexivity. }
  exists (with_logs l' stl2).
  split; [exact H2 |]. split; [reflexivity |].
  split; [simpl; rewrite Hcls; reflexivity |].
  split; [| split].
  - destruct (init_class w1 lines po class_body) as (r1 & s1 & E1 & -> & _).
    destruct (init_class w2 lines po class_body) as (r2 & s2 & E2 & -> & _).
    change {| cls := class_body; self := new_self w1 po |}
      with (process_start w1 po) in E1.
    change {| cls := class_body; self := new_self w2 po |}
      with (process_start w2 po) in E2.
    rewrite H1 in E1. rewrite H2 in E2.
    inversion E1; inversion E2; subst. simpl. rewrite Hcls. reflexivity.
  - destruct (sort_logs_sorted _ _ Hs) as [_ Hperm].
    simpl. rewrite <- (Permutation_length Hperm).
    rewrite (load_lines_count w1 lines 0 _ stl1 Hl1). reflexivity.
  - intros ->. simpl.
    pose proof (proj2 (load_lines_parse_only w1 w1 lines 0 (process_start w1 true)
                         eq_refl)) as Ht.
    rewrite Hl1 in Ht. exact Ht.
Qed.

Lemma C9_two_runs_equal_witness :
  not_before (started Later.world) (started Sample.world)
  /\ load_logs Later.world Sample.lines (process_start Later.world true)
     = (OK tt,
        {| cls := {| logs := [Sample.proj1_jan5; Sample.proj2_jan5;
                              Sample.proj1_jan6];
                     tickets := [] |};
           self := {| mode := date_or_time_log;
                      current_date := Some Sample.jan6;
                      parse_only := true;
                      now := started Later.world |} |})
  /\ entry_lines (started Sample.world) Sample.lines = 3%nat.
Proof.
  assert (Hc : not_before (started Later.world) (started Sample.world))
    by (vm_compute; discriminate).
  destruct (C9_two_runs_equal Sample.world Later.world Sample.lines true
              {| cls := {| logs := [Sample.proj1_jan5; Sample.proj2_jan5;
                                    Sample.proj1_jan6];
                           tickets := [] |};
                 self := {| mode := date_or_time_log;
                            current_date := Some Sample.jan6;
                            parse_only := true;
                            now := started Sample.world |} |}
              Hc (fun t => eq_refl) ltac:(vm_compute; reflexivity))
    as (st2 & H2 & Hlogs & Htk & _ & Hn & _).
  split; [exact Hc |]. split; [| symmetry; exact Hn].
  rewrite H2. f_equal.
  destruct st2 as [[ls ts] s2]. simpl in Hlogs, Htk. subst ls ts.
  vm_compute in H2. inversion H2. reflexivity.
Defined.
